(** * CommentRadar: stance synthesis, accuracy evaluation and engine batches

    A shallow embedding of the TypeScript sources

    - [src/types/index.ts] (module [Types]);
    - [src/lib/engine/evaluation.ts], which holds, one after the other, the
      evaluation module (module [Evaluation]), the stance-synthesis logic
      that the Groq engine imports as [./stance-logic] (module
      [StanceLogic]), the Groq engine (module [GroqEngine]) and the
      [/api/analyze] route (module [Route]);
    - [src/lib/engine/gemini-engine.ts] (module [GeminiEngine]);
    - [src/lib/engine/factory.ts] (module [Factory]);

    followed by the properties the specification states about them and by
    further properties of the code.

    Conventions of the embedding.
    - A JavaScript [number] that carries a score is a real number; a count
      (likes, tokens, samples) is a natural number; a clock reading is an
      integer.  Rounding, infinities and NaN are not modelled.
    - An optional field [f?: T] is [option T]; [undefined] is [None].
    - A string-literal union that the code only ever builds from its own
      literals ([StanceLabel], the severity of a critical error) is an
      inductive type.  [ReplyRelation] is carried as a string: the engine
      stores the backend's raw [replyRelation?: string] under an [as any]
      cast, and [synthesizeStance] has a fall-through for such values.
    - A JavaScript [Map] filled by successive [set] calls is a [gmap] filled
      by successive inserts, so that a later entry replaces an earlier one
      with the same key. *)

From Stdlib Require Import Reals Lra Lia ZArith String List Bool Sorted.
From stdpp Require Import gmap strings list.
Import ListNotations.

Local Open Scope string_scope.

(** ** JavaScript truthiness of the values the sources test *)

Module Js.

(** [!!s] for an optional string: [undefined] and the empty string are
    falsy. *)
Definition truthy (o : option string) : bool :=
  match o with
  | Some s => negb (s =? "")
  | None => false
  end.

(** [a || b] on an optional string with a string default. *)
Definition orString (o : option string) (d : string) : string :=
  match o with
  | Some s => if s =? "" then d else s
  | None => d
  end.

(** Template-literal rendering [`${o}`] of an optional string. *)
Definition showString (o : option string) : string :=
  match o with
  | Some s => s
  | None => "undefined"
  end.

(** [new Map()] followed by [xs.forEach(x => map.set(key(x), x))]. *)
Definition mapOfList {A : Type} (key : A -> string) (xs : list A)
  : gmap string A :=
  fold_left (fun m x => <[key x := x]> m) xs ∅.

End Js.

(** ** src/types/index.ts *)

Module Types.

Definition SentimentScore := R.
Definition EmotionTag := string.
Definition ReplyRelation := string.
Definition SpeechAct := string.

Inductive StanceLabel := Support | Oppose | Neutral | Unknown.

Definition StanceLabel_eqb (a b : StanceLabel) : bool :=
  match a, b with
  | Support, Support | Oppose, Oppose
  | Neutral, Neutral | Unknown, Unknown => true
  | _, _ => false
  end.

(** The string a label is at run time (used by template literals). *)
Definition labelName (l : StanceLabel) : string :=
  match l with
  | Support => "Support"
  | Oppose => "Oppose"
  | Neutral => "Neutral"
  | Unknown => "Unknown"
  end.

Definition showLabel (o : option StanceLabel) : string :=
  match o with
  | Some l => labelName l
  | None => "undefined"
  end.

Record YouTubeComment := {
  id : string;
  videoId : string;
  author : string;
  authorChannelId : option string;
  text : string;
  likeCount : nat;
  publishedAt : string;
  updatedAt : option string;
  parentId : option string;
  parentText : option string;
}.

Record SentimentAnalysis := {
  commentId : string;
  score : SentimentScore;
  weightedScore : SentimentScore;
  emotions : list EmotionTag;
  isSarcasm : bool;
  reason : option string;
  label : option StanceLabel;
  confidence : option R;
  axisEvidence : option string;
  replyRelation : option ReplyRelation;
  speechAct : option SpeechAct;
}.

Record AxisProfile := {
  ap_videoId : string;
  mainAxis : string;
  creatorPosition : string;
  targetOfCriticism : option string;
  supportedValues : option string;
  generatedAt : string;
}.

Record AnalysisEngineConfig := {
  batchSize : nat;
  maxComments : option nat;
  timeoutMs : option nat;
}.

Record VideoContext := {
  title : string;
  channelName : string;
  description : option string;
  summary : option string;
}.

Record BatchAnalysisRequest := {
  comments : list YouTubeComment;
  videoContext : option VideoContext;
}.

Record BatchAnalysisResponse := {
  analyses : list SentimentAnalysis;
  processingTimeMs : Z;
  tokensUsed : option nat;
  isPartial : option bool;
}.

(** [class AnalysisError extends Error]: message, code, and the error it
    wraps (kept abstract in ['cause]). *)
Record AnalysisError (cause : Type) := {
  ae_message : string;
  ae_code : string;
  ae_details : cause;
}.
Arguments ae_message {cause} _.
Arguments ae_code {cause} _.
Arguments ae_details {cause} _.

End Types.

(** ** Stance synthesis ([./stance-logic], in src/lib/engine/evaluation.ts) *)

Module StanceLogic.
Import Types.

Definition synthesizeStance (parentLabel : StanceLabel)
    (replyRelation : ReplyRelation) : StanceLabel :=
  if (replyRelation =? "unrelated") || (replyRelation =? "clarify")
     || (replyRelation =? "question")
  then Neutral
  else if replyRelation =? "disagree" then
    match parentLabel with
    | Support => Oppose
    | Oppose => Support
    | Neutral => Neutral
    | Unknown => Unknown
    end
  else if replyRelation =? "agree" then parentLabel
  else Unknown.

Definition labelToScore (label : StanceLabel) : R :=
  match label with
  | Support => 0.85
  | Oppose => -0.85
  | Neutral => 0.0
  | Unknown => 0.0
  end%R.

Definition scoreToLabel (score : R) : StanceLabel :=
  if Rge_dec score 0.7 then Support
  else if Rle_dec score (-0.7) then Oppose
  else if Rlt_dec (Rabs score) 0.3 then Neutral
  else Unknown.

(** The structural type [{ id: string; parentId?: string }] of the
    [comments] argument. *)
Record CommentRef := {
  ref_id : string;
  ref_parentId : option string;
}.

Definition refOf (c : YouTubeComment) : CommentRef :=
  {| ref_id := id c; ref_parentId := parentId c |}.

(** The object literal [{ ...analysis, label, score, axisEvidence, reason }]
    built for a reply that can be synthesized. *)
Definition synthesized (analysis : SentimentAnalysis)
    (parentLabel : StanceLabel) (relation : ReplyRelation)
  : SentimentAnalysis :=
  let originalLabel := label analysis in
  let synthesizedLabel := synthesizeStance parentLabel relation in
  {| commentId := commentId analysis;
     score := labelToScore synthesizedLabel;
     weightedScore := weightedScore analysis;
     emotions := emotions analysis;
     isSarcasm := isSarcasm analysis;
     reason :=
       Some ("Original: " ++ showLabel originalLabel
             ++ " -> Synthesized: " ++ labelName synthesizedLabel
             ++ " (Parent: " ++ labelName parentLabel
             ++ ", Relation: " ++ relation ++ ")");
     label := Some synthesizedLabel;
     confidence := confidence analysis;
     axisEvidence :=
       Some (if Js.truthy (axisEvidence analysis)
             then "[Thread Context: Parent was " ++ labelName parentLabel
                  ++ ", Reply " ++ relation ++ "] "
                  ++ Js.showString (axisEvidence analysis)
             else "Synthesized from parent (" ++ labelName parentLabel
                  ++ ") + " ++ relation);
     replyRelation := replyRelation analysis;
     speechAct := speechAct analysis |}.

(** The callback of [analyses.map(...)], with the two lookup maps in
    scope.  Each [if (!x) return analysis] on an optional string is a
    match on [None] and on the empty string. *)
Definition synthesizeOne (analysisMap : gmap string SentimentAnalysis)
    (commentMap : gmap string CommentRef) (analysis : SentimentAnalysis)
  : SentimentAnalysis :=
  match commentMap !! commentId analysis with
  | None => analysis
  | Some comment =>
    match ref_parentId comment with
    | None => analysis
    | Some pid =>
      if pid =? "" then analysis
      else
        match analysisMap !! pid with
        | None => analysis
        | Some parentAnalysis =>
          match label parentAnalysis with
          | None => analysis
          | Some parentLabel =>
            match replyRelation analysis with
            | None => analysis
            | Some relation =>
              if relation =? "" then analysis
              else synthesized analysis parentLabel relation
            end
          end
        end
    end
  end.

Definition applyStanceSynthesis (analyses : list SentimentAnalysis)
    (comments : list CommentRef) : list SentimentAnalysis :=
  let analysisMap := Js.mapOfList commentId analyses in
  let commentMap := Js.mapOfList ref_id comments in
  List.map (synthesizeOne analysisMap commentMap) analyses.

(** [comments.forEach(c => c.parentId ? replies.push(c) : topLevel.push(c))]
    followed by [[...topLevel, ...replies]]. *)
Definition sortCommentsByThreadOrder (comments : list CommentRef)
  : list CommentRef :=
  let '(topLevel, replies) :=
    fold_left
      (fun '(topLevel, replies) c =>
         if Js.truthy (ref_parentId c)
         then (topLevel, (replies ++ [c])%list)
         else ((topLevel ++ [c])%list, replies))
      comments ([], []) in
  (topLevel ++ replies)%list.

End StanceLogic.

(** ** Accuracy evaluation (src/lib/engine/evaluation.ts) *)

Module Evaluation.
Import Types.

Record GroundTruthItem := {
  gt_commentId : string;
  gt_text : string;
  expectedLabel : StanceLabel;
  notes : option string;
}.

Inductive Severity := high | medium | low.

Record CriticalError := {
  ce_commentId : string;
  ce_text : string;
  expected : StanceLabel;
  predicted : StanceLabel;
  severity : Severity;
  ce_reason : string;
}.

(** The 4x4 object [confusionMatrix[expected][predicted]]. *)
Definition ConfusionMatrix := StanceLabel -> StanceLabel -> nat.

Definition emptyMatrix : ConfusionMatrix := fun _ _ => 0.

(** [confusionMatrix[expected][predicted]++] *)
Definition increment (m : ConfusionMatrix) (expected predicted : StanceLabel)
  : ConfusionMatrix :=
  fun e p =>
    if StanceLabel_eqb e expected && StanceLabel_eqb p predicted
    then S (m e p) else m e p.

Record LabelMetrics := {
  lm_label : StanceLabel;
  precision : R;
  recall : R;
  f1Score : R;
}.

Record EvaluationResult := {
  accuracy : R;
  totalSamples : nat;
  correctPredictions : nat;
  confusionMatrix : ConfusionMatrix;
  criticalErrors : list CriticalError;
  perLabelMetrics : list LabelMetrics;
}.

Definition getCriticalErrorSeverity (expected predicted : StanceLabel)
  : option Severity :=
  if (StanceLabel_eqb expected Support && StanceLabel_eqb predicted Oppose)
     || (StanceLabel_eqb expected Oppose && StanceLabel_eqb predicted Support)
  then Some high
  else if ((StanceLabel_eqb expected Support
            || StanceLabel_eqb expected Oppose)
           && StanceLabel_eqb predicted Neutral)
          || (StanceLabel_eqb expected Neutral
              && (StanceLabel_eqb predicted Support
                  || StanceLabel_eqb predicted Oppose))
  then Some medium
  else if StanceLabel_eqb expected Unknown
          || StanceLabel_eqb predicted Unknown
  then Some low
  else None.

(** The three variables the [forEach] callback mutates. *)
Record Tally := {
  t_matrix : ConfusionMatrix;
  t_errors : list CriticalError;
  t_correct : nat;
}.

(** One run of the [predictions.forEach] callback. *)
Definition tally (gtMap : gmap string GroundTruthItem) (st : Tally)
    (pred : SentimentAnalysis) : Tally :=
  match gtMap !! commentId pred, label pred with
  | Some gt, Some predicted =>
    let expected := expectedLabel gt in
    let matrix := increment (t_matrix st) expected predicted in
    if StanceLabel_eqb expected predicted then
      {| t_matrix := matrix;
         t_errors := t_errors st;
         t_correct := S (t_correct st) |}
    else
      match getCriticalErrorSeverity expected predicted with
      | Some severity =>
        {| t_matrix := matrix;
           t_errors :=
             (t_errors st ++
             [ {| ce_commentId := commentId pred;
                  ce_text := gt_text gt;
                  expected := expected;
                  predicted := predicted;
                  severity := severity;
                  ce_reason :=
                    Js.orString (reason pred) "No reason provided" |} ])%list;
           t_correct := t_correct st |}
      | None =>
        {| t_matrix := matrix;
           t_errors := t_errors st;
           t_correct := t_correct st |}
      end
  | _, _ => st
  end.

Definition labels : list StanceLabel := [Support; Oppose; Neutral; Unknown].

(** [n > 0 ? a / n : 0] on counts. *)
Definition ratio (a n : nat) : R :=
  if (0 <? n)%nat then (INR a / INR n)%R else 0%R.

Definition metricsOf (m : ConfusionMatrix) (l : StanceLabel) : LabelMetrics :=
  let truePositive := m l l in
  let falsePositive :=
    fold_left
      (fun sum l' => sum + (if negb (StanceLabel_eqb l' l) then m l' l else 0))
      labels 0 in
  let falseNegative :=
    fold_left
      (fun sum l' => sum + (if negb (StanceLabel_eqb l' l) then m l l' else 0))
      labels 0 in
  let precision := ratio truePositive (truePositive + falsePositive) in
  let recall := ratio truePositive (truePositive + falseNegative) in
  let f1Score :=
    if Rlt_dec 0 (precision + recall)
    then (2 * precision * recall / (precision + recall))%R else 0%R in
  {| lm_label := l; precision := precision; recall := recall;
     f1Score := f1Score |}.

Definition evaluateStanceAccuracy (predictions : list SentimentAnalysis)
    (groundTruth : list GroundTruthItem) : EvaluationResult :=
  let gtMap := Js.mapOfList gt_commentId groundTruth in
  let st :=
    fold_left (tally gtMap) predictions
      {| t_matrix := emptyMatrix; t_errors := []; t_correct := 0 |} in
  let totalSamples :=
    List.length
      (List.filter
         (fun p => bool_decide (is_Some (label p))
                   && bool_decide (is_Some (gtMap !! commentId p)))
         predictions) in
  {| accuracy := ratio (t_correct st) totalSamples;
     totalSamples := totalSamples;
     correctPredictions := t_correct st;
     confusionMatrix := t_matrix st;
     criticalErrors := t_errors st;
     perLabelMetrics := List.map (metricsOf (t_matrix st)) labels |}.

End Evaluation.

(** ** The run-time the engines call into

    An engine method reads the clock ([Date.now()]), issues at most one
    request to its backend and may throw.  It is a function from an
    environment (what the clock and the backend answer) and a world (how
    often the clock was read, which requests were issued) to an outcome and
    a new world.  Console output is not modelled. *)

Module Runtime.

(** A thrown value, as the [catch (error: any)] clauses read it:
    [error instanceof Error], [error.status], [error.error?.code],
    [error.error?.failed_generation] and [error.message]. *)
Record JsError := {
  instanceOfError : bool;
  status : option Z;
  error_code : option string;
  failed_generation : option string;
  message : option string;
}.

(** [new Error(msg)], and the [TypeError]s of the engine itself. *)
Definition Error (msg : string) : JsError :=
  {| instanceOfError := true; status := None; error_code := None;
     failed_generation := None; message := Some msg |}.

(** [error.message?.includes(needle)], falsy when there is no message. *)
Definition messageIncludes (e : JsError) (needle : string) : bool :=
  match message e with
  | Some m =>
    match String.index 0 needle m with
    | Some _ => true
    | None => false
    end
  | None => false
  end.

Inductive Outcome (E A : Type) :=
| Return (a : A)
| Throw (e : E).
Arguments Return {E A} a.
Arguments Throw {E A} e.

Section Monad.
Context {Req Resp : Type}.

Record World := {
  ticks : nat;
  calls : list Req;
}.

Record Env := {
  clock : nat -> Z;
  backend : nat -> Req -> Outcome JsError Resp;
}.

Definition M (E A : Type) : Type := Env -> World -> Outcome E A * World.

Definition ret {E A} (a : A) : M E A := fun _ w => (Return a, w).

Definition throw {E A} (e : E) : M E A := fun _ w => (Throw e, w).

Definition bind {E A B} (m : M E A) (k : A -> M E B) : M E B :=
  fun env w =>
    match m env w with
    | (Return a, w') => k a env w'
    | (Throw e, w') => (Throw e, w')
    end.

(** [try { m } catch (error) { handler(error) }] *)
Definition tryCatch {E E' A} (m : M E A) (handler : E -> M E' A) : M E' A :=
  fun env w =>
    match m env w with
    | (Return a, w') => (Return a, w')
    | (Throw e, w') => handler e env w'
    end.

(** A pure step that may throw. *)
Definition lift {E A} (o : Outcome E A) : M E A := fun _ w => (o, w).

(** [Date.now()] *)
Definition dateNow {E} : M E Z :=
  fun env w =>
    (Return (clock env (ticks w)),
     {| ticks := S (ticks w); calls := calls w |}).

(** [await] of the one outbound call. *)
Definition callBackend (req : Req) : M JsError Resp :=
  fun env w =>
    (backend env (List.length (calls w)) req,
     {| ticks := ticks w; calls := (calls w ++ [req])%list |}).

End Monad.
Arguments World : clear implicits.
Arguments Env : clear implicits.
Arguments M : clear implicits.

Module Notations.
Notation "'let*' x ':=' m 'in' k" := (bind m (fun x => k))
  (at level 10, x name, m at level 100, k at level 200,
   format "'[v' 'let*'  x  ':='  m  'in' '/' k ']'").
End Notations.

End Runtime.

(** [Math.log10] on a positive real. *)
Definition log10 (x : R) : R := (ln x / ln 10)%R.

(** [Math.ceil] *)
Definition ceil (x : R) : Z := (- Int_part (- x))%Z.

(** ** The Groq engine (in src/lib/engine/evaluation.ts) *)

Module GroqEngine.
Import Types Runtime Runtime.Notations.

(** [interface GroqResponse], as the engine reads a decoded item: the
    fields it guards with [||] or [!!] may be absent, and so may the
    [commentId] it only compares. *)
Record GroqResponse := {
  gr_id : option nat;
  gr_commentId : option string;
  gr_score : R;
  gr_emotions : option (list string);
  gr_isSarcasm : option bool;
  gr_reason : option string;
}.

(** [interface AxisGroqResponse]; here the engine also tests
    [item.score !== undefined]. *)
Record AxisGroqResponse := {
  ax_id : option nat;
  ax_commentId : option string;
  ax_score : option R;
  ax_emotions : option (list string);
  ax_isSarcasm : option bool;
  ax_reason : option string;
  ax_label : option StanceLabel;
  ax_confidence : option R;
  ax_axisEvidence : option string;
  ax_replyRelation : option string;
  ax_speechAct : option string;
}.

(** A wrapper field of a decoded object ([parsed.analyses], ...). *)
Inductive Field (I : Type) :=
| Missing
| NotArray (truthy : bool)
| Array (items : list I).
Arguments Missing {I}.
Arguments NotArray {I} truthy.
Arguments Array {I} items.

(** The value [parseJSON] returns: [null], an array of items, or an object
    that may wrap an array and is otherwise read as one item. *)
Inductive Parsed (I : Type) :=
| PNull
| PArray (items : list I)
| PObject (analyses results comments : Field I) (self : I).
Arguments PNull {I}.
Arguments PArray {I} items.
Arguments PObject {I} analyses results comments self.

(** The argument of [client.chat.completions.create]. *)
Record ChatRequest := {
  system : string;
  user : string;
  model : string;
  json_object : bool;
}.

(** What the engine reads of a completion:
    [choices[0]?.message?.content] and [usage?.total_tokens]. *)
Record Completion := {
  content : option string;
  total_tokens : option nat;
}.

Definition clampScore (score : R) : SentimentScore :=
  Rmax (-1) (Rmin 1 score).

Definition calculateWeightedScore (score : SentimentScore) (likeCount : nat)
  : SentimentScore :=
  let weight := (1 + log10 (INR likeCount + 1))%R in
  let weighted := (score * weight)%R in
  let normalized := (weighted / 7)%R in
  clampScore normalized.

(** The private [labelToScore], also called on an absent label
    ([default: return 0.0]). *)
Definition labelToScore (label : option StanceLabel) : R :=
  match label with
  | Some Support => 0.85
  | Some Oppose => -0.85
  | Some Neutral => 0.0
  | Some Unknown => 0.0
  | None => 0.0
  end%R.

Definition isQuotaError (error : JsError) : bool :=
  bool_decide (status error = Some 429%Z)
  || bool_decide (status error = Some 413%Z)
  || messageIncludes error "429"
  || messageIncludes error "413"
  || messageIncludes error "quota"
  || messageIncludes error "rate_limit_exceeded".

Definition isJsonValidateFailed (error : JsError) : bool :=
  bool_decide (status error = Some 400%Z)
  && bool_decide (error_code error = Some "json_validate_failed").

(** The judgment given to a comment the reply does not mention. *)
Definition skipped (comment : YouTubeComment) (why : string)
  : SentimentAnalysis :=
  {| commentId := id comment;
     score := 0%R;
     weightedScore := 0%R;
     emotions := ["neutral"];
     isSarcasm := false;
     reason := Some why;
     label := None;
     confidence := None;
     axisEvidence := None;
     replyRelation := None;
     speechAct := None |}.

Definition skippedAxis (comment : YouTubeComment) (why evidence : string)
  : SentimentAnalysis :=
  {| commentId := id comment;
     score := 0%R;
     weightedScore := 0%R;
     emotions := ["neutral"];
     isSarcasm := false;
     reason := Some why;
     label := Some Unknown;
     confidence := Some 0%R;
     axisEvidence := Some evidence;
     replyRelation := None;
     speechAct := None |}.

(** [parsedArray.find((p) => p.commentId === comment.id)] *)
Definition findItem (parsedArray : list GroqResponse)
    (comment : YouTubeComment) : option GroqResponse :=
  List.find (fun p => bool_decide (gr_commentId p = Some (id comment)))
    parsedArray.

Definition findAxisItem (parsedArray : list AxisGroqResponse)
    (comment : YouTubeComment) : option AxisGroqResponse :=
  List.find (fun p => bool_decide (ax_commentId p = Some (id comment)))
    parsedArray.

(** The callback of [request.comments.map] in [analyzeBatch]; [noItem] and
    [noReason] are the two literals in which the main path and the
    recovery path differ.  The item found has the comment's id for
    [commentId], so the default of [commentId: item.commentId] is never
    taken. *)
Definition toAnalysis (noItem noReason : string)
    (parsedArray : list GroqResponse) (comment : YouTubeComment)
  : SentimentAnalysis :=
  match findItem parsedArray comment with
  | None => skipped comment noItem
  | Some item =>
    {| commentId := default "" (gr_commentId item);
       score := clampScore (gr_score item);
       weightedScore :=
         calculateWeightedScore (gr_score item) (likeCount comment);
       emotions := default ["neutral"] (gr_emotions item);
       isSarcasm := default false (gr_isSarcasm item);
       reason := Some (Js.orString (gr_reason item) noReason);
       label := None;
       confidence := None;
       axisEvidence := None;
       replyRelation := None;
       speechAct := None |}
  end.

(** [item.confidence || 0.5] *)
Definition confidenceOr (c : option R) : R :=
  match c with
  | Some c => if Req_dec_T c 0 then 0.5%R else c
  | None => 0.5%R
  end.

(** The callback of [sortedComments.map] in [analyzeAxisBatch]; the
    recovery path ([recovering = true]) uses other literals and leaves
    [replyRelation] and [speechAct] out. *)
Definition toAxisAnalysis (recovering : bool)
    (parsedArray : list AxisGroqResponse) (comment : YouTubeComment)
  : SentimentAnalysis :=
  match findAxisItem parsedArray comment with
  | None =>
    if recovering
    then skippedAxis comment "Skipped in recovery" "Skipped"
    else skippedAxis comment "Groq skipped this comment in axis analysis"
           "No analysis available"
  | Some item =>
    let scoreFromLabel := labelToScore (ax_label item) in
    let finalScore := default scoreFromLabel (ax_score item) in
    {| commentId := default "" (ax_commentId item);
       score := clampScore finalScore;
       weightedScore := calculateWeightedScore finalScore (likeCount comment);
       emotions := default ["neutral"] (ax_emotions item);
       isSarcasm := default false (ax_isSarcasm item);
       reason :=
         Some (Js.orString (ax_reason item)
                 (if recovering then "Recovered from partial JSON"
                  else "No reason provided"));
       label := Some (default Unknown (ax_label item));
       confidence := Some (confidenceOr (ax_confidence item));
       axisEvidence := Some (Js.orString (ax_axisEvidence item) "");
       replyRelation := if recovering then None else ax_replyRelation item;
       speechAct := if recovering then None else ax_speechAct item |}
  end.

(** The chain [Array.isArray(parsed) ? ... : parsed.a && Array.isArray(
    parsed.a) ? ... : [parsed]], for the wrapper fields in the order
    [first], [second], [third]. *)
Definition arrayOf {I} (what : string) (parsed : Parsed I)
    (order : Field I -> Field I -> Field I -> Field I * Field I * Field I)
  : Outcome JsError (list I) :=
  match parsed with
  | PNull =>
    Throw (Error ("Cannot read properties of null (reading '" ++ what ++ "')"))
  | PArray items => Return items
  | PObject analyses results comments self =>
    match order analyses results comments with
    | (Array items, _, _) => Return items
    | (_, Array items, _) => Return items
    | (_, _, Array items) => Return items
    | _ => Return [self]
    end
  end.

(** [Array.isArray(parsed) ? parsed : (parsed.comments || parsed.analyses
    || parsed.results || [parsed])], followed by the first use of the
    result, [items.find], which throws on a value that is not an array. *)
Definition recoveredItems {I} (parsed : Parsed I) : Outcome JsError (list I) :=
  let notAnArray := Throw (Error "items.find is not a function") in
  match parsed with
  | PNull =>
    Throw (Error "Cannot read properties of null (reading 'comments')")
  | PArray items => Return items
  | PObject analyses results comments self =>
    match comments, analyses, results with
    | Array items, _, _ => Return items
    | NotArray true, _, _ => notAnArray
    | _, Array items, _ => Return items
    | _, NotArray true, _ => notAnArray
    | _, _, Array items => Return items
    | _, _, NotArray true => notAnArray
    | _, _, _ => Return [self]
    end
  end.

Definition fallbackAnalyses (comments : list YouTubeComment)
  : list SentimentAnalysis :=
  List.map (fun c => skipped c "Analysis skipped due to Groq API limits.")
    comments.

Definition fallbackAxisAnalyses (comments : list YouTubeComment)
  : list SentimentAnalysis :=
  List.map
    (fun c => skippedAxis c "Analysis skipped due to Groq API limits."
                "API quota exceeded")
    comments.

Section Engine.
(** The prompt texts and the model name are presentation; the decoder
    [parseJSON] rests on the regular-expression engine and on
    [JSON.parse].  [jsonParse] and [jsonParseAxis] stand for its result
    read at the item type of the call site: the decoded value, or the
    message of the [SyntaxError] that [parseJSON] wraps. *)
Variables (DEFAULT_MODEL SYSTEM_PROMPT AXIS_SYSTEM_PROMPT : string).
Variable createBatchPrompt :
  list YouTubeComment -> option VideoContext -> string.
Variable createAxisBatchPrompt :
  list YouTubeComment -> AxisProfile -> option VideoContext -> string.
Variable jsonParse : string -> Parsed GroqResponse + string.
Variable jsonParseAxis : string -> Parsed AxisGroqResponse + string.

Definition parseWith {I} (decode : string -> Parsed I + string)
    (text : string) : Outcome JsError (Parsed I) :=
  match decode text with
  | inl parsed => Return parsed
  | inr syntaxError =>
    Throw (Error ("Failed to parse JSON response from Groq: "
                  ++ syntaxError))
  end.

Definition parseJSON := parseWith jsonParse.
Definition parseAxisJSON := parseWith jsonParseAxis.

Definition EngineM := M ChatRequest Completion.

Definition request_of (systemPrompt prompt : string) : ChatRequest :=
  {| system := systemPrompt; user := prompt; model := DEFAULT_MODEL;
     json_object := true |}.

(** The [catch] clause shared by both batch methods, after the attempt
    to recover from [json_validate_failed] has given [recovered]. *)
Definition afterRecovery (recovered : option BatchAnalysisResponse)
    (error : JsError) (startTime : Z)
    (fallback : list SentimentAnalysis) (what code : string)
  : EngineM (AnalysisError JsError) BatchAnalysisResponse :=
  match recovered with
  | Some response => ret response
  | None =>
    if isQuotaError error then
      let* now := dateNow in
      ret {| analyses := fallback;
             processingTimeMs := now - startTime;
             tokensUsed := Some 0;
             isPartial := Some true |}
    else
      throw {| ae_message :=
                 "Failed to analyze " ++ what ++ " with Groq: "
                 ++ Js.showString (message error);
               ae_code := code;
               ae_details := error |}
  end.

(** [if (error.status === 400 && error.error?.code ===
    'json_validate_failed') { if (failedContent) { try {...} catch {} } }] *)
Definition recovering (error : JsError)
    (attempt : string -> EngineM JsError BatchAnalysisResponse)
  : EngineM (AnalysisError JsError) (option BatchAnalysisResponse) :=
  if isJsonValidateFailed error then
    match failed_generation error with
    | Some failedContent =>
      if failedContent =? "" then ret None
      else
        tryCatch
          (let* response := attempt failedContent in ret (Some response))
          (fun _ => ret None)
    | None => ret None
    end
  else ret None.

Definition analyzeBatch (request : BatchAnalysisRequest)
  : EngineM (AnalysisError JsError) BatchAnalysisResponse :=
  let* startTime := dateNow in
  if (List.length (comments request) =? 0)%nat then
    ret {| analyses := []; processingTimeMs := 0; tokensUsed := Some 0;
           isPartial := None |}
  else
    let prompt :=
      createBatchPrompt (comments request) (videoContext request) in
    tryCatch
      (let* completion := callBackend (request_of SYSTEM_PROMPT prompt) in
       let text := Js.orString (content completion) "" in
       let* parsed := lift (parseJSON text) in
       let* parsedArray :=
         lift (arrayOf "analyses" parsed (fun a r c => (a, r, c))) in
       let analyses :=
         List.map
           (toAnalysis "Groq skipped this comment in batch analysis"
              "No reason provided" parsedArray)
           (comments request) in
       let* now := dateNow in
       ret {| analyses := analyses;
              processingTimeMs := now - startTime;
              tokensUsed := Some (default 0 (total_tokens completion));
              isPartial := None |})
      (fun error =>
         let* recovered :=
           recovering error (fun failedContent =>
             let* parsed := lift (parseJSON failedContent) in
             let* items := lift (recoveredItems parsed) in
             let analyses :=
               List.map
                 (toAnalysis "Skipped in recovery"
                    "Recovered from partial JSON" items)
                 (comments request) in
             let* now := dateNow in
             ret {| analyses := analyses;
                    processingTimeMs := now - startTime;
                    tokensUsed := Some 0;
                    isPartial := None |}) in
         afterRecovery recovered error startTime
           (fallbackAnalyses (comments request))
           "batch" "GROQ_BATCH_ERROR").

(** [sortedOrder.map(o => request.comments.find(c => c.id === o.id))
    .filter(c => c !== undefined)] *)
Definition sortComments (comments : list YouTubeComment)
  : list YouTubeComment :=
  let commentOrder := List.map StanceLogic.refOf comments in
  let sortedOrder := StanceLogic.sortCommentsByThreadOrder commentOrder in
  omap
    (fun ordered =>
       List.find (fun c => id c =? StanceLogic.ref_id ordered) comments)
    sortedOrder.

(** [analyses.map] of the "recalculate weighted scores" step. *)
Definition reweigh (sortedComments : list YouTubeComment)
    (analysis : SentimentAnalysis) : SentimentAnalysis :=
  match List.find (fun c => id c =? commentId analysis) sortedComments with
  | None => analysis
  | Some comment =>
    {| commentId := commentId analysis;
       score := score analysis;
       weightedScore :=
         calculateWeightedScore (score analysis) (likeCount comment);
       emotions := emotions analysis;
       isSarcasm := isSarcasm analysis;
       reason := reason analysis;
       label := label analysis;
       confidence := confidence analysis;
       axisEvidence := axisEvidence analysis;
       replyRelation := replyRelation analysis;
       speechAct := speechAct analysis |}
  end.

Definition analyzeAxisBatch (request : BatchAnalysisRequest)
    (axisProfile : AxisProfile)
  : EngineM (AnalysisError JsError) BatchAnalysisResponse :=
  let* startTime := dateNow in
  if (List.length (comments request) =? 0)%nat then
    ret {| analyses := []; processingTimeMs := 0; tokensUsed := Some 0;
           isPartial := None |}
  else
    let sortedComments := sortComments (comments request) in
    let sortedRefs := List.map StanceLogic.refOf sortedComments in
    let prompt :=
      createAxisBatchPrompt sortedComments axisProfile
        (videoContext request) in
    tryCatch
      (let* completion :=
         callBackend (request_of AXIS_SYSTEM_PROMPT prompt) in
       let text := Js.orString (content completion) "" in
       let* parsed := lift (parseAxisJSON text) in
       let* parsedArray :=
         lift (arrayOf "comments" parsed (fun a r c => (c, a, r))) in
       let analyses :=
         List.map (toAxisAnalysis false parsedArray) sortedComments in
       let analyses :=
         StanceLogic.applyStanceSynthesis analyses sortedRefs in
       let analyses := List.map (reweigh sortedComments) analyses in
       let* now := dateNow in
       ret {| analyses := analyses;
              processingTimeMs := now - startTime;
              tokensUsed := Some (default 0 (total_tokens completion));
              isPartial := None |})
      (fun error =>
         let* recovered :=
           recovering error (fun failedContent =>
             let* parsed := lift (parseAxisJSON failedContent) in
             let* items := lift (recoveredItems parsed) in
             let analyses :=
               List.map (toAxisAnalysis true items) sortedComments in
             let analyses :=
               StanceLogic.applyStanceSynthesis analyses sortedRefs in
             let* now := dateNow in
             ret {| analyses := analyses;
                    processingTimeMs := now - startTime;
                    tokensUsed := Some 0;
                    isPartial := None |}) in
         afterRecovery recovered error startTime
           (fallbackAxisAnalyses (comments request))
           "axis batch" "GROQ_AXIS_BATCH_ERROR").

End Engine.

End GroqEngine.

(** ** src/lib/engine/gemini-engine.ts *)

Module GeminiEngine.
Import Types Runtime Runtime.Notations.

(** [interface GeminiResponse]; the engine reads every field unguarded. *)
Record GeminiResponse := {
  gm_id : nat;
  gm_commentId : string;
  gm_score : R;
  gm_emotions : list string;
  gm_isSarcasm : bool;
  gm_reason : string;
}.

Definition clampScore (score : R) : SentimentScore :=
  Rmax (-1) (Rmin 1 score).

Definition calculateWeightedScore (score : SentimentScore) (likeCount : nat)
  : SentimentScore :=
  let weight := (1 + log10 (INR likeCount + 1))%R in
  let weighted := (score * weight)%R in
  let normalized := (weighted / 7)%R in
  clampScore normalized.

Definition estimateTokens (prompt response : string) : nat :=
  let totalChars := String.length prompt + String.length response in
  let estimatedWords := (INR totalChars / 5)%R in
  Z.to_nat (ceil (estimatedWords * 1.3)%R).

(** The callback of [parsedArray.map]. *)
Definition toAnalysis (comments : list YouTubeComment)
    (item : GeminiResponse) : SentimentAnalysis :=
  let comment := List.find (fun c => id c =? gm_commentId item) comments in
  let likeCount :=
    match comment with
    | Some c => likeCount c
    | None => 0
    end in
  {| commentId := gm_commentId item;
     score := clampScore (gm_score item);
     weightedScore := calculateWeightedScore (gm_score item) likeCount;
     emotions := gm_emotions item;
     isSarcasm := gm_isSarcasm item;
     reason := Some (gm_reason item);
     label := None;
     confidence := None;
     axisEvidence := None;
     replyRelation := None;
     speechAct := None |}.

Section Engine.
(** The prompt text is presentation.  [jsonParse] stands for the fence
    stripping and [JSON.parse] of [parseJSON]: an array of items, a value
    that is not an array ([None]), or, when parsing fails, the excerpt of
    the cleaned text that the thrown message quotes. *)
Variable createBatchPrompt :
  list YouTubeComment -> option VideoContext -> string.
Variable jsonParse : string -> option (list GeminiResponse) + string.

Definition parseJSON (text : string)
  : Outcome JsError (option (list GeminiResponse)) :=
  match jsonParse text with
  | inl parsed => Return parsed
  | inr excerpt =>
    Throw (Error ("Failed to parse JSON response: " ++ excerpt ++ "..."))
  end.

(** The backend is [model.generateContent(prompt)] followed by
    [result.response.text()]. *)
Definition EngineM := M string string.

Definition analyzeBatch (request : BatchAnalysisRequest)
  : EngineM (AnalysisError JsError) BatchAnalysisResponse :=
  let* startTime := dateNow in
  if (List.length (comments request) =? 0)%nat then
    ret {| analyses := []; processingTimeMs := 0; tokensUsed := Some 0;
           isPartial := None |}
  else
    let prompt :=
      createBatchPrompt (comments request) (videoContext request) in
    tryCatch
      (let* text := callBackend prompt in
       let* parsed := lift (parseJSON text) in
       let* parsedArray :=
         match parsed with
         | Some items => ret items
         | None => throw (Error "Expected JSON array response from Gemini")
         end in
       let analyses :=
         List.map (toAnalysis (comments request)) parsedArray in
       let* now := dateNow in
       let processingTimeMs := (now - startTime)%Z in
       let tokensUsed := estimateTokens prompt text in
       ret {| analyses := analyses;
              processingTimeMs := processingTimeMs;
              tokensUsed := Some tokensUsed;
              isPartial := None |})
      (fun error =>
         throw {| ae_message :=
                    "Failed to analyze batch: "
                    ++ (if instanceOfError error
                        then Js.showString (message error)
                        else "Unknown error");
                  ae_code := "GEMINI_BATCH_ERROR";
                  ae_details := error |}).

End Engine.

Section SingleComment.
(** [analyzeComment] decodes the reply as one item.  [jsonParseOne] stands
    for [parseJSON<GeminiResponse>]: an item of the declared shape, [null]
    ([None]), whose first field read throws, or the excerpt of a text that
    does not parse. *)
Variable createSingleCommentPrompt : YouTubeComment -> string.
Variable jsonParseOne : string -> option GeminiResponse + string.

Definition parseJSONOne (text : string)
  : Outcome JsError (option GeminiResponse) :=
  match jsonParseOne text with
  | inl parsed => Return parsed
  | inr excerpt =>
    Throw (Error ("Failed to parse JSON response: " ++ excerpt ++ "..."))
  end.

Definition analyzeComment (comment : YouTubeComment)
  : EngineM (AnalysisError JsError) SentimentAnalysis :=
  let prompt := createSingleCommentPrompt comment in
  tryCatch
    (let* text := callBackend prompt in
     let* parsed := lift (parseJSONOne text) in
     let* parsed :=
       match parsed with
       | Some item => ret item
       | None =>
         throw (Error "Cannot read properties of null (reading 'score')")
       end in
     let weightedScore :=
       calculateWeightedScore (gm_score parsed) (likeCount comment) in
     ret {| commentId := id comment;
            score := clampScore (gm_score parsed);
            weightedScore := weightedScore;
            emotions := gm_emotions parsed;
            isSarcasm := gm_isSarcasm parsed;
            reason := Some (gm_reason parsed);
            label := None;
            confidence := None;
            axisEvidence := None;
            replyRelation := None;
            speechAct := None |})
    (fun error =>
       throw {| ae_message :=
                  "Failed to analyze comment: "
                  ++ (if instanceOfError error
                      then Js.showString (message error)
                      else "Unknown error");
                ae_code := "GEMINI_ERROR";
                ae_details := error |}).

End SingleComment.

End GeminiEngine.

(** ** The [/api/analyze] route (in src/lib/engine/evaluation.ts): merging a
    batch result by index *)

Module Route.
Import Types.

(** One iteration of [for (let j = 0; j < batch.length; j++)]: the comment
    [batch[j]] is merged with [result.analyses[j]]; reading [.score] of a
    missing analysis throws a [TypeError], rendered as [None]. *)
Definition mergeAt (batch : list YouTubeComment)
    (analyses : list SentimentAnalysis) (j : nat)
  : option (YouTubeComment * SentimentAnalysis) :=
  match batch !! j, analyses !! j with
  | Some comment, Some analysis => Some (comment, analysis)
  | _, _ => None
  end.

Import Runtime Runtime.Notations.

(** [interface AnalyzedComment extends YouTubeComment] of
    src/types/index.ts, as the route builds it: the spread [...comment] and
    the four fields taken from the analysis. *)
Record AnalyzedComment := {
  ac_comment : YouTubeComment;
  sentiment : SentimentScore;
  ac_weightedScore : SentimentScore;
  ac_emotions : list EmotionTag;
  ac_isSarcasm : bool;
}.

Definition analyzed (comment : YouTubeComment) (analysis : SentimentAnalysis)
  : AnalyzedComment :=
  {| ac_comment := comment;
     sentiment := score analysis;
     ac_weightedScore := weightedScore analysis;
     ac_emotions := emotions analysis;
     ac_isSarcasm := isSarcasm analysis |}.

(** The loop [for (let j = 0; j < batch.length; j++)], which pushes onto
    [analyzedComments]. *)
Definition mergeBatch (batch : list YouTubeComment)
    (analyses : list SentimentAnalysis)
    (analyzedComments : list AnalyzedComment)
  : Outcome JsError (list AnalyzedComment) :=
  fold_left
    (fun acc j =>
       match acc with
       | Return analyzedComments =>
         match mergeAt batch analyses j with
         | Some (comment, analysis) =>
           Return (analyzedComments ++ [analyzed comment analysis])%list
         | None =>
           Throw (Error "Cannot read properties of undefined (reading 'score')")
         end
       | Throw e => Throw e
       end)
    (seq 0 (List.length batch)) (Return analyzedComments).

(** What the batching loop can throw inside the [try] block of [POST]: the
    [AnalysisError] of the engine, which has a [code], or a [TypeError] of
    the route itself, which has none. *)
Inductive Thrown :=
| EngineError (e : AnalysisError JsError)
| TypeError (e : JsError).

Section Batching.
Context {Req Resp : Type}.
(** [engine.analyzeBatch], [engine.getConfig().batchSize] and the context
    object the route builds from the video. *)
Variable analyzeBatch :
  BatchAnalysisRequest ->
  M Req Resp (AnalysisError JsError) BatchAnalysisResponse.
Variable batchSize : nat.
Variable context : option VideoContext.

(** [for (let i = 0; i < comments.length; i += batchSize)], from [i] on;
    [None] when the fuel runs out before the loop ends. *)
Fixpoint analyzeFrom (fuel i : nat) (comments : list YouTubeComment)
    (analyzedComments : list AnalyzedComment)
  : M Req Resp Thrown (option (list AnalyzedComment)) :=
  match fuel with
  | O => ret None
  | S fuel =>
    if (i <? List.length comments)%nat then
      let batch := take batchSize (drop i comments) in
      let* result :=
        tryCatch
          (analyzeBatch {| Types.comments := batch; videoContext := context |})
          (fun e => throw (EngineError e)) in
      match mergeBatch batch (analyses result) analyzedComments with
      | Return analyzedComments =>
        analyzeFrom fuel (i + batchSize) comments analyzedComments
      | Throw e => throw (TypeError e)
      end
    else ret (Some analyzedComments)
  end.

Definition analyzeAll (fuel : nat) (comments : list YouTubeComment)
  : M Req Resp Thrown (option (list AnalyzedComment)) :=
  analyzeFrom fuel 0 comments [].

End Batching.

(** The body and the status of the response that the [catch] clause of
    [POST] sends. *)
Record ErrorResponse := {
  er_error : string;
  er_status : nat;
}.

(** The [catch] clause of [POST] on what the batching loop throws.  An
    [AnalysisError] has no [statusCode], so [apiError.statusCode || 500] is
    500. *)
Definition errorResponse (thrown : Thrown) : ErrorResponse :=
  match thrown with
  | EngineError apiError =>
    if ae_code apiError =? "VIDEO_NOT_FOUND" then
      {| er_error := "Video not found. Please check the URL.";
         er_status := 404 |}
    else if ae_code apiError =? "COMMENTS_DISABLED" then
      {| er_error := "Comments are disabled for this video.";
         er_status := 403 |}
    else if ae_code apiError =? "TIMEOUT" then
      {| er_error := "Request timeout. The video may have too many comments.";
         er_status := 408 |}
    else
      {| er_error :=
           if ae_message apiError =? "" then "API error occurred"
           else ae_message apiError;
         er_status := 500 |}
  | TypeError _ =>
    {| er_error := "An unexpected error occurred"; er_status := 500 |}
  end.

(** The [distribution] object of the response. *)
Record SentimentDistribution := {
  positive : nat;
  neutral : nat;
  negative : nat;
  total : nat;
}.

Definition isPositive (c : AnalyzedComment) : bool :=
  if Rgt_dec (sentiment c) 0.2 then true else false.

Definition isNeutral (c : AnalyzedComment) : bool :=
  (if Rge_dec (sentiment c) (-0.2) then true else false)
  && (if Rle_dec (sentiment c) 0.2 then true else false).

Definition isNegative (c : AnalyzedComment) : bool :=
  if Rlt_dec (sentiment c) (-0.2) then true else false.

Definition distributionOf (analyzedComments : list AnalyzedComment)
  : SentimentDistribution :=
  let positive := List.length (List.filter isPositive analyzedComments) in
  let neutral := List.length (List.filter isNeutral analyzedComments) in
  let negative := List.length (List.filter isNegative analyzedComments) in
  {| positive := positive;
     neutral := neutral;
     negative := negative;
     total := List.length analyzedComments |}.

Record TimeSeriesPoint := {
  tp_time : R;
  avgSentiment : SentimentScore;
  commentCount : nat;
}.

Section Charts.
(** [new Date(s).getTime()], in milliseconds, for the date strings of the
    video and of the comments; [now] is [new Date().getTime()]. *)
Variable getTime : string -> Z.

(** [(a.getTime() - b.getTime()) / (1000 * 60 * 60)] *)
Definition hoursBetween (a b : Z) : R :=
  (IZR (a - b) / (1000 * 60 * 60))%R.

Definition hoursSinceVideo (videoDate : Z) (c : AnalyzedComment) : R :=
  hoursBetween (getTime (publishedAt (ac_comment c))) videoDate.

Definition generateTimeline (comments : list AnalyzedComment)
    (videoPublishedAt : string) (now : Z) : list TimeSeriesPoint :=
  let videoDate := getTime videoPublishedAt in
  let totalHours := hoursBetween now videoDate in
  let windowCount := Z.min 9 (ceil (totalHours / 6)) in
  let windowSize := (totalHours / IZR windowCount)%R in
  List.map
    (fun i =>
       let windowEnd := (windowSize * (INR i + 1))%R in
       let commentsInWindow :=
         List.filter
           (fun c =>
              if Rle_dec (hoursSinceVideo videoDate c) windowEnd
              then true else false)
           comments in
       let avgSentiment :=
         if (0 <? List.length commentsInWindow)%nat
         then (fold_left (fun sum c => sum + sentiment c) commentsInWindow 0
               / INR (List.length commentsInWindow))%R
         else 0%R in
       {| tp_time := windowEnd;
          avgSentiment := avgSentiment;
          commentCount := List.length commentsInWindow |})
    (seq 0 (Z.to_nat windowCount)).

End Charts.

End Route.

(** ** src/lib/engine/factory.ts *)

Module Factory.
Import Runtime.

(** The variables of [process.env] that the factory and
    [createGeminiEngine] read. *)
Record ProcessEnv := {
  USE_MOCK_ENGINE : option string;
  LLM_ENGINE : option string;
  GEMINI_API_KEY : option string;
}.

(** The engine built: [new MockEngine(config)] or
    [new GeminiEngine(key, config)], with the configuration override kept
    as given. *)
Inductive Engine (Config : Type) :=
| MockEngine (config : option Config)
| GeminiEngine (apiKey : string) (config : option Config).
Arguments MockEngine {Config} config.
Arguments GeminiEngine {Config} apiKey config.

(** [interface EngineFactoryConfig]; at run time [type] is a string. *)
Record EngineFactoryConfig (Config : Type) := {
  type : option string;
  apiKey : option string;
  engineConfig : option Config;
}.
Arguments type {Config} _.
Arguments apiKey {Config} _.
Arguments engineConfig {Config} _.

(** [a || b] on two optional strings. *)
Definition orElse (a b : option string) : option string :=
  if Js.truthy a then a else b.

Section Factory.
(** [String.prototype.toLowerCase] *)
Variable toLowerCase : string -> string.
Variable process_env : ProcessEnv.
Context {Config : Type}.

Definition getEngineTypeFromEnv : string :=
  if bool_decide (USE_MOCK_ENGINE process_env = Some "true") then "mock"
  else
    let llmEngine := option_map toLowerCase (LLM_ENGINE process_env) in
    if bool_decide (llmEngine = Some "gemini") then "gemini"
    else if bool_decide (llmEngine = Some "openai") then "openai"
    else "mock".

Definition isMockEngineEnabled : bool :=
  bool_decide (USE_MOCK_ENGINE process_env = Some "true").

Definition getCurrentEngineType : string := getEngineTypeFromEnv.

(** [createGeminiEngine] of src/lib/engine/gemini-engine.ts *)
Definition createGeminiEngine (apiKey : option string)
    (config : option Config) : Outcome JsError (Engine Config) :=
  let key := orElse apiKey (GEMINI_API_KEY process_env) in
  match key with
  | Some key =>
    if key =? "" then
      Throw (Error "Gemini API key is required. Set GEMINI_API_KEY environment variable.")
    else Return (GeminiEngine key config)
  | None =>
    Throw (Error "Gemini API key is required. Set GEMINI_API_KEY environment variable.")
  end.

Definition createAnalysisEngine (config : option (EngineFactoryConfig Config))
  : Outcome JsError (Engine Config) :=
  let engineType :=
    Js.orString (config ≫= type) getEngineTypeFromEnv in
  if engineType =? "mock" then
    Return (MockEngine (config ≫= engineConfig))
  else if engineType =? "gemini" then
    createGeminiEngine (config ≫= apiKey) (config ≫= engineConfig)
  else if engineType =? "openai" then
    Throw (Error "OpenAI engine not yet implemented. Use 'gemini' or 'mock'.")
  else Throw (Error ("Unknown engine type: " ++ engineType)).

End Factory.

End Factory.

(** ** Notions the statements below use *)

Module Spec.
Import Types.

(** The last element of [xs] filed under the key [k]: what a [Map] built
    by [xs.forEach(x => map.set(key(x), x))] holds at [k]. *)
Definition lastWith {A : Type} (key : A -> string) (xs : list A)
    (k : string) : option A :=
  List.find (fun x => key x =? k) (rev xs).

(** The provenance notes of stance synthesis. *)
Definition threadContextNote (parentLabel : StanceLabel)
    (relation : ReplyRelation) : string :=
  "[Thread Context: Parent was " ++ labelName parentLabel
  ++ ", Reply " ++ relation ++ "] ".

Definition synthesizedFromNote (parentLabel : StanceLabel)
    (relation : ReplyRelation) : string :=
  "Synthesized from parent (" ++ labelName parentLabel ++ ") + " ++ relation.

Definition reasonNote (originalLabel : option StanceLabel)
    (synthesizedLabel parentLabel : StanceLabel) (relation : ReplyRelation)
  : string :=
  "Original: " ++ showLabel originalLabel
  ++ " -> Synthesized: " ++ labelName synthesizedLabel
  ++ " (Parent: " ++ labelName parentLabel
  ++ ", Relation: " ++ relation ++ ")".

(** The fields stance synthesis leaves alone. *)
Definition sameOtherFields (a' a : SentimentAnalysis) : Prop :=
  commentId a' = commentId a
  /\ weightedScore a' = weightedScore a
  /\ emotions a' = emotions a
  /\ isSarcasm a' = isSarcasm a
  /\ confidence a' = confidence a
  /\ replyRelation a' = replyRelation a
  /\ speechAct a' = speechAct a.

(** The ground-truth item a judgment is compared with: the last one with
    its [commentId]. *)
Definition groundTruthOf (groundTruth : list Evaluation.GroundTruthItem)
    (pred : SentimentAnalysis) : option Evaluation.GroundTruthItem :=
  lastWith Evaluation.gt_commentId groundTruth (commentId pred).

(** A judgment has a matching ground-truth [commentId]. *)
Definition hasGroundTruth (groundTruth : list Evaluation.GroundTruthItem)
    (pred : SentimentAnalysis) : bool :=
  existsb (fun g => Evaluation.gt_commentId g =? commentId pred) groundTruth.

(** A judgment is scored: it has a label and a matching ground truth. *)
Definition scored (groundTruth : list Evaluation.GroundTruthItem)
    (pred : SentimentAnalysis) : bool :=
  match label pred with
  | Some _ => hasGroundTruth groundTruth pred
  | None => false
  end.

(** A scored judgment whose label is the expected one. *)
Definition correct (groundTruth : list Evaluation.GroundTruthItem)
    (pred : SentimentAnalysis) : bool :=
  match groundTruthOf groundTruth pred, label pred with
  | Some gt, Some predicted =>
    StanceLabel_eqb (Evaluation.expectedLabel gt) predicted
  | _, _ => false
  end.

(** The sum of the sixteen cells of a confusion matrix. *)
Definition matrixTotal (m : Evaluation.ConfusionMatrix) : nat :=
  list_sum
    (List.map (fun e => list_sum (List.map (m e) Evaluation.labels))
       Evaluation.labels).

(** The critical error recorded for the judgment [pred], compared with
    the ground-truth item [gt], at the given severity. *)
Definition criticalError (pred : SentimentAnalysis)
    (gt : Evaluation.GroundTruthItem) (predicted : StanceLabel)
    (severity : Evaluation.Severity) : Evaluation.CriticalError :=
  {| Evaluation.ce_commentId := commentId pred;
     Evaluation.ce_text := Evaluation.gt_text gt;
     Evaluation.expected := Evaluation.expectedLabel gt;
     Evaluation.predicted := predicted;
     Evaluation.severity := severity;
     Evaluation.ce_reason :=
       Js.orString (reason pred) "No reason provided" |}.

(** The critical errors one judgment contributes: none unless it is scored
    and mismatched, and then one if the mismatch has a severity. *)
Definition recorded (groundTruth : list Evaluation.GroundTruthItem)
    (pred : SentimentAnalysis) : list Evaluation.CriticalError :=
  match groundTruthOf groundTruth pred, label pred with
  | Some gt, Some predicted =>
    let expected := Evaluation.expectedLabel gt in
    if StanceLabel_eqb expected predicted then []
    else
      match Evaluation.getCriticalErrorSeverity expected predicted with
      | Some severity => [ criticalError pred gt predicted severity ]
      | None => []
      end
  | _, _ => []
  end.

(** Opposite poles: Support against Oppose, in either direction. *)
Definition oppositePoles (e p : StanceLabel) : Prop :=
  (e = Support /\ p = Oppose) \/ (e = Oppose /\ p = Support).

(** One side is Support or Oppose and the other is Neutral. *)
Definition stanceVersusNeutral (e p : StanceLabel) : Prop :=
  ((e = Support \/ e = Oppose) /\ p = Neutral)
  \/ (e = Neutral /\ (p = Support \/ p = Oppose)).

(** Either side is Unknown. *)
Definition eitherUnknown (e p : StanceLabel) : Prop :=
  e = Unknown \/ p = Unknown.

(** A neutral fallback judgment for the comment [c]: score 0, the single
    emotion "neutral", no sarcasm, and a reason that explains. *)
Definition neutralFallback (c : YouTubeComment) (a : SentimentAnalysis)
  : Prop :=
  commentId a = id c
  /\ score a = 0%R
  /\ weightedScore a = 0%R
  /\ emotions a = ["neutral"]
  /\ isSarcasm a = false
  /\ Js.truthy (reason a) = true.

(** The judgment [a] answers the comment [c] from the decoded reply
    [items]: it carries the comment's id, and it is the neutral fallback
    when no item of the reply names the comment. *)
Definition judgedFrom (items : list GroqEngine.GroqResponse)
    (c : YouTubeComment) (a : SentimentAnalysis) : Prop :=
  commentId a = id c
  /\ (Forall (fun item => GroqEngine.gr_commentId item <> Some (id c)) items
      -> neutralFallback c a).

(** The zero-cost result of an empty batch. *)
Definition emptyResponse : BatchAnalysisResponse :=
  {| analyses := []; processingTimeMs := 0; tokensUsed := Some 0;
     isPartial := None |}.

(** [clamp(x) = max(-1, min(1, x))] *)
Definition clamp (x : R) : R := Rmax (-1) (Rmin 1 x).

(** The judgment [pred] is scored in the cell (expected [e], predicted
    [p]) of the confusion matrix. *)
Definition inCell (groundTruth : list Evaluation.GroundTruthItem)
    (e p : StanceLabel) (pred : SentimentAnalysis) : bool :=
  match groundTruthOf groundTruth pred, label pred with
  | Some gt, Some predicted =>
    StanceLabel_eqb (Evaluation.expectedLabel gt) e
    && StanceLabel_eqb predicted p
  | _, _ => false
  end.

(** A rate: a real number between 0 and 1. *)
Definition isRate (x : R) : Prop := (0 <= x <= 1)%R.

(** A judgment is within bounds: its score and its weighted score are
    between -1 and 1. *)
Definition withinBounds (a : SentimentAnalysis) : Prop :=
  (-1 <= score a <= 1)%R /\ (-1 <= weightedScore a <= 1)%R.


(** The comments in thread order: those without a parent, then the
    replies, each group in its original order. *)
Definition threadOrder (cs : list YouTubeComment) : list YouTubeComment :=
  (List.filter (fun c => negb (Js.truthy (parentId c))) cs
   ++ List.filter (fun c => Js.truthy (parentId c)) cs)%list.

(** A judgment of the axis-aware batch, after the second pass: it has a
    label, it is within bounds, and its weighted score is the one of its
    score and of the likes of a comment of the batch with its id. *)
Definition axisJudgment (cs : list YouTubeComment) (a : SentimentAnalysis)
  : Prop :=
  is_Some (label a)
  /\ withinBounds a
  /\ exists c : YouTubeComment,
       In c cs /\ id c = commentId a
       /\ weightedScore a
          = GroqEngine.calculateWeightedScore (score a) (likeCount c).

(** A comment reference is a reply: its [parentId] is truthy. *)
Definition isReply (c : StanceLogic.CommentRef) : bool :=
  Js.truthy (StanceLogic.ref_parentId c).

(** The comments without a parent, then the replies, each group in its
    original order. *)
Definition topLevelFirst (cs : list StanceLogic.CommentRef)
  : list StanceLogic.CommentRef :=
  (List.filter (fun c => negb (isReply c)) cs ++ List.filter isReply cs)%list.

(** A label that takes a side. *)
Definition takesSide (l : StanceLabel) : Prop := l = Support \/ l = Oppose.

(** What stance synthesis makes of a judgment: it is left as it was, or it
    comes out with a label, the score of that label, and both notes. *)
Definition keptOrSynthesized (a a' : SentimentAnalysis) : Prop :=
  a' = a
  \/ exists l : StanceLabel,
       label a' = Some l
       /\ score a' = StanceLogic.labelToScore l
       /\ (-1 <= score a' <= 1)%R
       /\ Js.truthy (reason a') = true
       /\ Js.truthy (axisEvidence a') = true.

End Spec.

(** ** Concrete inputs *)

Module Examples.
Import Types.

Definition comment (i : string) (parent : option string) (likes : nat)
  : YouTubeComment :=
  {| id := i; videoId := "v1"; author := "someone";
     authorChannelId := None; text := "text of " ++ i; likeCount := likes;
     publishedAt := "2024-01-10T10:00:00Z"; updatedAt := None;
     parentId := parent; parentText := None |}.

Definition judgment (i : string) (l : option StanceLabel)
    (relation : option ReplyRelation) (why evidence : option string)
  : SentimentAnalysis :=
  {| commentId := i; score := 0%R; weightedScore := 0%R;
     emotions := ["neutral"]; isSarcasm := false; reason := why;
     label := l; confidence := Some 0.5%R; axisEvidence := evidence;
     replyRelation := relation; speechAct := None |}.

(** A top-level comment that supports the video and a reply that
    disagrees with it. *)
Definition thread : list StanceLogic.CommentRef :=
  [ StanceLogic.refOf (comment "c1" None 0);
    StanceLogic.refOf (comment "c2" (Some "c1") 0) ].

Definition parentJudgment : SentimentAnalysis :=
  judgment "c1" (Some Support) None (Some "praises the video") None.

Definition replyJudgment : SentimentAnalysis :=
  judgment "c2" (Some Neutral) (Some "disagree")
    (Some "model said so") (Some "quotes the parent").

Definition threadJudgments : list SentimentAnalysis :=
  [ parentJudgment; replyJudgment ].

(** A batch of two comments, the second with nine likes. *)
Definition twoComments : BatchAnalysisRequest :=
  {| comments := [comment "c1" None 0; comment "c2" None 9];
     videoContext := None |}.

Definition axisProfile : AxisProfile :=
  {| ap_videoId := "v1"; mainAxis := "is practice better than theory";
     creatorPosition := "practice first"; targetOfCriticism := None;
     supportedValues := None; generatedAt := "2024-01-10T10:00:00Z" |}.

Definition batchPrompt (cs : list YouTubeComment)
    (vc : option VideoContext) : string :=
  "analyze: " ++ String.concat ", " (List.map id cs).

Definition axisBatchPrompt (cs : list YouTubeComment) (ap : AxisProfile)
    (vc : option VideoContext) : string :=
  "analyze on axis: " ++ String.concat ", " (List.map id cs).

(** A backend that is out of quota. *)
Definition rateLimited : Runtime.JsError :=
  {| Runtime.instanceOfError := true;
     Runtime.status := Some 429%Z;
     Runtime.error_code := Some "rate_limit_exceeded";
     Runtime.failed_generation := None;
     Runtime.message := Some "429 Rate limit reached for model" |}.

Definition quotaEnv : Runtime.Env GroqEngine.ChatRequest GroqEngine.Completion :=
  {| Runtime.clock := fun n => (1000 + 5 * Z.of_nat n)%Z;
     Runtime.backend := fun _ _ => Runtime.Throw rateLimited |}.

Definition freshWorld {Req : Type} : Runtime.World Req :=
  {| Runtime.ticks := 0; Runtime.calls := [] |}.

(** A decoder that accepts nothing. *)
Definition noDecode {I : Type} (text : string)
  : GroqEngine.Parsed I + string :=
  inr "Unexpected end of JSON input".

(** A Gemini reply that judges the second comment only, and a decoder
    that reads it. *)
Definition geminiReplyText : string := "[ one item, for c2 ]".

Definition geminiItem : GeminiEngine.GeminiResponse :=
  {| GeminiEngine.gm_id := 1;
     GeminiEngine.gm_commentId := "c2";
     GeminiEngine.gm_score := 0.8%R;
     GeminiEngine.gm_emotions := ["supportive"];
     GeminiEngine.gm_isSarcasm := false;
     GeminiEngine.gm_reason := "agrees with the video" |}.

Definition geminiDecode (text : string)
  : option (list GeminiEngine.GeminiResponse) + string :=
  if text =? geminiReplyText then inl (Some [geminiItem])
  else inr text.

Definition geminiEnv : Runtime.Env string string :=
  {| Runtime.clock := fun n => (1000 + 5 * Z.of_nat n)%Z;
     Runtime.backend := fun _ _ => Runtime.Return geminiReplyText |}.

(** The same reply, as the Groq engine receives and decodes it. *)
Definition groqItem : GroqEngine.GroqResponse :=
  {| GroqEngine.gr_id := None;
     GroqEngine.gr_commentId := Some "c2";
     GroqEngine.gr_score := 0.8%R;
     GroqEngine.gr_emotions := Some ["supportive"];
     GroqEngine.gr_isSarcasm := Some false;
     GroqEngine.gr_reason := Some "agrees with the video" |}.

Definition groqDecode (text : string)
  : GroqEngine.Parsed GroqEngine.GroqResponse + string :=
  if text =? geminiReplyText then inl (GroqEngine.PArray [groqItem])
  else inr "Unexpected token".

Definition groqEnv : Runtime.Env GroqEngine.ChatRequest GroqEngine.Completion :=
  {| Runtime.clock := fun n => (1000 + 5 * Z.of_nat n)%Z;
     Runtime.backend := fun _ _ =>
       Runtime.Return
         {| GroqEngine.content := Some geminiReplyText;
            GroqEngine.total_tokens := Some 120 |} |}.

(** A three-level thread: c3 replies to c2, which replies to c1. *)
Definition chain : list StanceLogic.CommentRef :=
  [ StanceLogic.refOf (comment "c1" None 0);
    StanceLogic.refOf (comment "c2" (Some "c1") 0);
    StanceLogic.refOf (comment "c3" (Some "c2") 0) ].

Definition chainJudgments : list SentimentAnalysis :=
  [ parentJudgment; replyJudgment;
    judgment "c3" (Some Unknown) (Some "agree") None None ].

(** A [json_validate_failed] reply whose message happens to contain 429 and
    whose failed generation is the reply above. *)
Definition invalidJson : Runtime.JsError :=
  {| Runtime.instanceOfError := true;
     Runtime.status := Some 400%Z;
     Runtime.error_code := Some "json_validate_failed";
     Runtime.failed_generation := Some geminiReplyText;
     Runtime.message := Some "400 Failed to generate JSON for Ugx429" |}.

Definition invalidJsonEnv
  : Runtime.Env GroqEngine.ChatRequest GroqEngine.Completion :=
  {| Runtime.clock := fun n => (1000 + 5 * Z.of_nat n)%Z;
     Runtime.backend := fun _ _ => Runtime.Throw invalidJson |}.

(** The inputs of the repository's test "should calculate confusion matrix
    correctly": four ground-truth items, and predictions that get the
    second one wrong. *)
Definition groundTruth4 : list Evaluation.GroundTruthItem :=
  [ {| Evaluation.gt_commentId := "1"; Evaluation.gt_text := "Support";
       Evaluation.expectedLabel := Support; Evaluation.notes := None |};
    {| Evaluation.gt_commentId := "2"; Evaluation.gt_text := "Support2";
       Evaluation.expectedLabel := Support; Evaluation.notes := None |};
    {| Evaluation.gt_commentId := "3"; Evaluation.gt_text := "Oppose";
       Evaluation.expectedLabel := Oppose; Evaluation.notes := None |};
    {| Evaluation.gt_commentId := "4"; Evaluation.gt_text := "Neutral";
       Evaluation.expectedLabel := Neutral; Evaluation.notes := None |} ].

Definition predictions4 : list SentimentAnalysis :=
  [ judgment "1" (Some Support) None None None;
    judgment "2" (Some Neutral) None None None;
    judgment "3" (Some Oppose) None None None;
    judgment "4" (Some Neutral) None None None ].

(** A backend that fails for a reason other than quota. *)
Definition serverError : Runtime.JsError :=
  {| Runtime.instanceOfError := true;
     Runtime.status := Some 500%Z;
     Runtime.error_code := None;
     Runtime.failed_generation := None;
     Runtime.message := Some "500 Internal Server Error" |}.

Definition serverErrorEnv
  : Runtime.Env GroqEngine.ChatRequest GroqEngine.Completion :=
  {| Runtime.clock := fun n => (1000 + 5 * Z.of_nat n)%Z;
     Runtime.backend := fun _ _ => Runtime.Throw serverError |}.

(** A decoder whose failure message quotes the reply, and a reply that
    talks about quota without being JSON. *)
Definition quotingDecode {I : Type} (text : string)
  : GroqEngine.Parsed I + string :=
  inr ("Unexpected token in: " ++ text).

Definition chattyEnv
  : Runtime.Env GroqEngine.ChatRequest GroqEngine.Completion :=
  {| Runtime.clock := fun n => (1000 + 5 * Z.of_nat n)%Z;
     Runtime.backend := fun _ _ =>
       Runtime.Return
         {| GroqEngine.content := Some "Sorry, I am over my quota today";
            GroqEngine.total_tokens := Some 12 |} |}.

(** A batch in which the reply comes before the comment it replies to. *)
Definition replyFirst : BatchAnalysisRequest :=
  {| comments := [comment "c2" (Some "c1") 9; comment "c1" None 0];
     videoContext := None |}.

(** A reply of the axis-aware backend: an object that wraps the items
    under [comments]; the reply disagrees with its parent, which supports
    the video. *)
Definition axisItem (i : option string) (l : option StanceLabel)
    (relation : option string) : GroqEngine.AxisGroqResponse :=
  {| GroqEngine.ax_id := None;
     GroqEngine.ax_commentId := i;
     GroqEngine.ax_score := None;
     GroqEngine.ax_emotions := None;
     GroqEngine.ax_isSarcasm := None;
     GroqEngine.ax_reason := None;
     GroqEngine.ax_label := l;
     GroqEngine.ax_confidence := None;
     GroqEngine.ax_axisEvidence := None;
     GroqEngine.ax_replyRelation := relation;
     GroqEngine.ax_speechAct := None |}.

Definition axisItems : list GroqEngine.AxisGroqResponse :=
  [ axisItem (Some "c2") (Some Neutral) (Some "disagree");
    axisItem (Some "c1") (Some Support) None ].

Definition axisDecode (text : string)
  : GroqEngine.Parsed GroqEngine.AxisGroqResponse + string :=
  if text =? geminiReplyText
  then inl (GroqEngine.PObject GroqEngine.Missing GroqEngine.Missing
              (GroqEngine.Array axisItems) (axisItem None None None))
  else inr "Unexpected token".

(** A Gemini backend that is out of quota. *)
Definition geminiQuotaEnv : Runtime.Env string string :=
  {| Runtime.clock := fun n => (1000 + 5 * Z.of_nat n)%Z;
     Runtime.backend := fun _ _ => Runtime.Throw rateLimited |}.

(** Two analyzed comments, and a clock for which every comment was
    published one hour after the video, which is fifty hours old. *)
Definition analyzedComments : list Route.AnalyzedComment :=
  [ Route.analyzed (comment "c1" None 0)
      (judgment "c1" None None None None);
    Route.analyzed (comment "c2" None 9)
      (judgment "c2" None None None None) ].

Definition getTime (date : string) : Z :=
  if date =? "2024-01-10T09:00:00Z" then 0%Z else 3600000%Z.

(** An environment that turns the mock engine on and names Gemini, and a
    configuration that asks for Gemini with its own key. *)
Definition mockEnv : Factory.ProcessEnv :=
  {| Factory.USE_MOCK_ENGINE := Some "true";
     Factory.LLM_ENGINE := Some "gemini";
     Factory.GEMINI_API_KEY := None |}.

Definition geminiConfig : Factory.EngineFactoryConfig AnalysisEngineConfig :=
  {| Factory.type := Some "gemini";
     Factory.apiKey := Some "key-1";
     Factory.engineConfig := None |}.

End Examples.

(** * Properties *)

(** Runs a batch method on a concrete request, environment and world. *)
Ltac run_batch :=
  unfold GroqEngine.analyzeBatch, GroqEngine.analyzeAxisBatch,
    GeminiEngine.analyzeBatch, Runtime.bind, Runtime.tryCatch,
    Runtime.dateNow, Runtime.callBackend, Runtime.lift, Runtime.ret,
    Runtime.throw;
  cbn.

(** ** Stance synthesis and the label/score table *)

Section StanceTable.
Import Types StanceLogic.

(** C2. For every parent label [P] and reply relation [R],
    [synthesizeStance P R] is Neutral when [R] is unrelated, clarify or
    question; when [R] is disagree it is Oppose for a Support parent,
    Support for an Oppose parent, Neutral for a Neutral parent and Unknown
    for any other parent label; it is [P] itself when [R] is agree; and it
    is Unknown for any other relation. *)
Theorem synthesizeStance_table (P : StanceLabel) (R : ReplyRelation) :
  (R = "unrelated" \/ R = "clarify" \/ R = "question" ->
   synthesizeStance P R = Neutral)
  /\ (R = "disagree" ->
      (P = Support -> synthesizeStance P R = Oppose)
      /\ (P = Oppose -> synthesizeStance P R = Support)
      /\ (P = Neutral -> synthesizeStance P R = Neutral)
      /\ (P <> Support -> P <> Oppose -> P <> Neutral ->
          synthesizeStance P R = Unknown))
  /\ (R = "agree" -> synthesizeStance P R = P)
  /\ (R <> "unrelated" -> R <> "clarify" -> R <> "question" ->
      R <> "disagree" -> R <> "agree" ->
      synthesizeStance P R = Unknown).
Proof.
  split; [| split; [| split]].
  - intros [-> | [-> | ->]]; reflexivity.
  - intros ->. repeat split.
    + intros ->; reflexivity.
    + intros ->; reflexivity.
    + intros ->; reflexivity.
    + intros HS HO HN. destruct P; try congruence; reflexivity.
  - intros ->. reflexivity.
  - intros Hu Hc Hq Hd Ha. unfold synthesizeStance.
    apply String.eqb_neq in Hu, Hc, Hq, Hd, Ha.
    rewrite Hu, Hc, Hq, Hd, Ha. reflexivity.
Qed.

Local Open Scope R_scope.

Lemma scoreToLabel_Support (s : R) : s >= 0.7 -> scoreToLabel s = Support.
Proof.
  intros H. unfold scoreToLabel. destruct (Rge_dec s 0.7); [reflexivity | lra].
Qed.

Lemma scoreToLabel_Oppose (s : R) : s <= -0.7 -> scoreToLabel s = Oppose.
Proof.
  intros H. unfold scoreToLabel.
  destruct (Rge_dec s 0.7); [lra |].
  destruct (Rle_dec s (-0.7)); [reflexivity | lra].
Qed.

Lemma scoreToLabel_Neutral (s : R) : Rabs s < 0.3 -> scoreToLabel s = Neutral.
Proof.
  intros H. unfold scoreToLabel.
  assert (-0.3 < s < 0.3) as [Hlo Hhi] by (apply Rabs_def2 in H; lra).
  destruct (Rge_dec s 0.7); [lra |].
  destruct (Rle_dec s (-0.7)); [lra |].
  destruct (Rlt_dec (Rabs s) 0.3); [reflexivity | contradiction].
Qed.

Lemma scoreToLabel_Unknown (s : R) :
  ~ s >= 0.7 -> ~ s <= -0.7 -> ~ Rabs s < 0.3 -> scoreToLabel s = Unknown.
Proof.
  intros H1 H2 H3. unfold scoreToLabel.
  destruct (Rge_dec s 0.7); [contradiction |].
  destruct (Rle_dec s (-0.7)); [contradiction |].
  destruct (Rlt_dec (Rabs s) 0.3); [contradiction | reflexivity].
Qed.

(** C8. [labelToScore] maps Support to 0.85, Oppose to -0.85, Neutral and
    Unknown to 0; [scoreToLabel] returns Support for a score of at least
    0.7, Oppose for a score of at most -0.7, Neutral for a score of
    absolute value below 0.3 and Unknown otherwise; and on each of the four
    labels, [labelToScore] after [scoreToLabel] after [labelToScore] is
    [labelToScore]. *)
Theorem label_score_table :
  (labelToScore Support = 0.85 /\ labelToScore Oppose = -0.85
   /\ labelToScore Neutral = 0 /\ labelToScore Unknown = 0)
  /\ (forall s : R,
        (s >= 0.7 -> scoreToLabel s = Support)
        /\ (s <= -0.7 -> scoreToLabel s = Oppose)
        /\ (Rabs s < 0.3 -> scoreToLabel s = Neutral)
        /\ (~ s >= 0.7 -> ~ s <= -0.7 -> ~ Rabs s < 0.3 ->
            scoreToLabel s = Unknown))
  /\ (forall l : StanceLabel,
        labelToScore (scoreToLabel (labelToScore l)) = labelToScore l).
Proof.
  split; [| split].
  - unfold labelToScore. repeat split; lra.
  - intros s. repeat split.
    + apply scoreToLabel_Support.
    + apply scoreToLabel_Oppose.
    + apply scoreToLabel_Neutral.
    + apply scoreToLabel_Unknown.
  - intros l. destruct l; cbn [labelToScore].
    + rewrite scoreToLabel_Support by lra. reflexivity.
    + rewrite scoreToLabel_Oppose by lra. reflexivity.
    + rewrite scoreToLabel_Neutral; [reflexivity |].
      replace 0.0 with 0 by lra. rewrite Rabs_R0. lra.
    + rewrite scoreToLabel_Neutral; [unfold labelToScore; lra |].
      replace 0.0 with 0 by lra. rewrite Rabs_R0. lra.
Qed.

End StanceTable.

(** ** Stance synthesis over a batch *)

Section Synthesis.
Import Types StanceLogic.

Lemma string_append_assoc (s1 s2 s3 : string) :
  (s1 ++ s2) ++ s3 = s1 ++ (s2 ++ s3).
Proof.
  induction s1 as [| ch s1 IH]; [reflexivity |].
  change (String ch ((s1 ++ s2) ++ s3) = String ch (s1 ++ (s2 ++ s3))).
  now rewrite IH.
Qed.

Lemma mapOfList_snoc {A} (key : A -> string) (xs : list A) (x : A) :
  Js.mapOfList key (xs ++ [x]) = <[key x := x]> (Js.mapOfList key xs).
Proof. unfold Js.mapOfList. rewrite fold_left_app. reflexivity. Qed.

(** A [Map] filled by [forEach]/[set] answers with the last element filed
    under the key. *)
Lemma mapOfList_lookup {A} (key : A -> string) (xs : list A) (k : string) :
  Js.mapOfList key xs !! k = Spec.lastWith key xs k.
Proof.
  unfold Spec.lastWith.
  induction xs as [| x xs IH] using rev_ind.
  - reflexivity.
  - rewrite mapOfList_snoc, rev_app_distr. cbn [rev app List.find].
    destruct (String.eqb_spec (key x) k) as [-> | Hne].
    + apply lookup_insert_eq.
    + rewrite lookup_insert_ne by exact Hne. exact IH.
Qed.

Lemma synthesizeOne_commentId am cm (a : SentimentAnalysis) :
  commentId (synthesizeOne am cm a) = commentId a.
Proof.
  unfold synthesizeOne.
  repeat (case_match; try reflexivity).
Qed.

(** C10. [applyStanceSynthesis] returns as many judgments as it is given,
    and the judgment at every index keeps the [commentId] of the input
    judgment at that index. *)
Theorem applyStanceSynthesis_aligned (analyses : list SentimentAnalysis)
    (comments : list CommentRef) :
  List.length (applyStanceSynthesis analyses comments) = List.length analyses
  /\ forall i : nat,
       commentId <$> (applyStanceSynthesis analyses comments !! i)
       = commentId <$> (analyses !! i).
Proof.
  unfold applyStanceSynthesis. split.
  - apply length_map.
  - intros i. rewrite list_lookup_fmap.
    destruct (analyses !! i) as [a |]; cbn; [| reflexivity].
    f_equal. apply synthesizeOne_commentId.
Qed.

(** C3, as the code has it. Take a judgment [a] at index [i] whose comment
    (the last entry of [comments] with its id) has a non-empty parent id
    [pid], and let the parent's judgment be the last input judgment with
    [commentId = pid]. If there is no such judgment, or it has no label, or
    [a] has no (or an empty) reply relation, the judgment is returned
    unchanged. Otherwise the returned judgment has the label
    [synthesizeStance] gives for the parent's input label and the relation,
    the score [labelToScore] gives for that label, an evidence that is the
    thread-context note followed by the old evidence (or the
    synthesized-from note alone when there was no evidence), a reason that
    is replaced by the note recording the original label, the synthesized
    label, the parent's label and the relation, and all other fields as
    before. *)
Theorem applyStanceSynthesis_reply (analyses : list SentimentAnalysis)
    (comments : list CommentRef) (i : nat) (a : SentimentAnalysis)
    (c : CommentRef) (pid : string) :
  analyses !! i = Some a ->
  Spec.lastWith ref_id comments (commentId a) = Some c ->
  ref_parentId c = Some pid ->
  (pid =? "") = false ->
  exists a' : SentimentAnalysis,
    applyStanceSynthesis analyses comments !! i = Some a'
    /\ (Spec.lastWith commentId analyses pid = None -> a' = a)
    /\ (forall p, Spec.lastWith commentId analyses pid = Some p ->
                  label p = None -> a' = a)
    /\ (Js.truthy (replyRelation a) = false -> a' = a)
    /\ (forall p parentLabel relation,
          Spec.lastWith commentId analyses pid = Some p ->
          label p = Some parentLabel ->
          replyRelation a = Some relation ->
          (relation =? "") = false ->
          let synthesizedLabel := synthesizeStance parentLabel relation in
          label a' = Some synthesizedLabel
          /\ score a' = labelToScore synthesizedLabel
          /\ axisEvidence a'
             = Some (if Js.truthy (axisEvidence a)
                     then Spec.threadContextNote parentLabel relation
                          ++ Js.showString (axisEvidence a)
                     else Spec.synthesizedFromNote parentLabel relation)
          /\ reason a'
             = Some (Spec.reasonNote (label a) synthesizedLabel parentLabel
                       relation)
          /\ Spec.sameOtherFields a' a).
Proof.
  intros Ha Hc Hpid Hne.
  exists (synthesizeOne (Js.mapOfList commentId analyses)
            (Js.mapOfList ref_id comments) a).
  split.
  { unfold applyStanceSynthesis. rewrite list_lookup_fmap, Ha. reflexivity. }
  unfold synthesizeOne.
  rewrite (mapOfList_lookup ref_id), Hc, Hpid, Hne.
  rewrite (mapOfList_lookup commentId).
  split; [| split; [| split]].
  - intros ->. reflexivity.
  - intros p -> ->. reflexivity.
  - intros Hrel.
    destruct (Spec.lastWith commentId analyses pid) as [p |];
      [| reflexivity].
    destruct (label p); [| reflexivity].
    destruct (replyRelation a) as [r |]; [| reflexivity].
    cbn in Hrel. apply negb_false_iff in Hrel. rewrite Hrel. reflexivity.
  - intros p parentLabel relation -> -> -> ->. cbn zeta.
    unfold Spec.sameOtherFields, synthesized. cbn.
    repeat split.
    unfold Spec.threadContextNote, Spec.synthesizedFromNote.
    destruct (Js.truthy (axisEvidence a)); [| reflexivity].
    cbn [String.append]. rewrite !string_append_assoc. reflexivity.
Qed.

(** The theorem above at the example thread: the reply that disagrees with
    a supporting parent comes out as Oppose, with score -0.85, the note in
    front of its evidence and the note as its reason. *)
Lemma applyStanceSynthesis_reply_example :
  exists a' : SentimentAnalysis,
    applyStanceSynthesis Examples.threadJudgments Examples.thread !! 1
    = Some a'
    /\ label a' = Some Oppose
    /\ score a' = (-0.85)%R
    /\ axisEvidence a'
       = Some "[Thread Context: Parent was Support, Reply disagree] quotes the parent"
    /\ reason a'
       = Some "Original: Neutral -> Synthesized: Oppose (Parent: Support, Relation: disagree)"
    /\ commentId a' = "c2".
Proof.
  destruct (applyStanceSynthesis_reply Examples.threadJudgments
              Examples.thread 1 Examples.replyJudgment
              (refOf (Examples.comment "c2" (Some "c1") 0)) "c1")
    as (a' & Hat & _ & _ & _ & Hsyn); [reflexivity .. |].
  destruct (Hsyn Examples.parentJudgment Support "disagree")
    as (Hl & Hs & He & Hr & Hid & _); [reflexivity .. |].
  exists a'. repeat split; assumption.
Defined.

(** C3, as stated, fails on the example thread: the returned reason is
    the provenance note alone, not the input reason with a note appended,
    and the returned evidence has the note in front of the input evidence,
    not behind it. *)
Lemma applyStanceSynthesis_note_not_appended :
  reason <$> (applyStanceSynthesis Examples.threadJudgments Examples.thread
              !! 1)
  = Some (Some "Original: Neutral -> Synthesized: Oppose (Parent: Support, Relation: disagree)")
  /\ ~ (exists note : string,
          reason <$> (applyStanceSynthesis Examples.threadJudgments
                        Examples.thread !! 1)
          = Some (Some ("model said so" ++ note)))
  /\ ~ (exists note : string,
          axisEvidence <$> (applyStanceSynthesis Examples.threadJudgments
                              Examples.thread !! 1)
          = Some (Some ("quotes the parent" ++ note))).
Proof.
  split; [reflexivity |]. split.
  - intros [note H]. vm_compute in H. discriminate H.
  - intros [note H]. vm_compute in H. discriminate H.
Qed.

(** Synthesis is one pass over the input: on a three-level thread the middle
    reply comes out as Oppose, while its own reply is synthesized from the
    label the middle reply came in with, Neutral. *)
Lemma applyStanceSynthesis_one_pass :
  List.map label
    (applyStanceSynthesis Examples.chainJudgments Examples.chain)
  = [Some Support; Some Oppose; Some Neutral].
Proof. reflexivity. Qed.

End Synthesis.

(** ** Accuracy evaluation *)

Section Accuracy.
Import Types Evaluation.

Lemma StanceLabel_eqb_spec (a b : StanceLabel) :
  reflect (a = b) (StanceLabel_eqb a b).
Proof. destruct a, b; constructor; congruence. Qed.

Lemma lastWith_is_Some {A} (key : A -> string) (xs : list A) (k : string) :
  bool_decide (is_Some (Spec.lastWith key xs k))
  = existsb (fun x => key x =? k) xs.
Proof.
  unfold Spec.lastWith.
  induction xs as [| x xs IH] using rev_ind; [reflexivity |].
  rewrite rev_app_distr, existsb_app. cbn [rev app List.find existsb].
  rewrite orb_false_r, <- IH.
  destruct (key x =? k); cbn.
  - rewrite orb_true_r. reflexivity.
  - rewrite orb_false_r. reflexivity.
Qed.

Lemma scored_spec gts (pred : SentimentAnalysis) :
  bool_decide (is_Some (label pred))
  && bool_decide (is_Some (Js.mapOfList gt_commentId gts !! commentId pred))
  = Spec.scored gts pred.
Proof.
  unfold Spec.scored, Spec.hasGroundTruth.
  rewrite mapOfList_lookup, lastWith_is_Some.
  destruct (label pred); reflexivity.
Qed.

Lemma matrixTotal_increment (m : ConfusionMatrix) (e p : StanceLabel) :
  Spec.matrixTotal (increment m e p) = S (Spec.matrixTotal m).
Proof.
  unfold Spec.matrixTotal, increment, labels.
  destruct e, p; cbn; lia.
Qed.

(** What the [forEach] loop has accumulated after a run from [st]. *)
Lemma tally_fold gts (preds : list SentimentAnalysis) (st : Tally) :
  let st' := fold_left (tally (Js.mapOfList gt_commentId gts)) preds st in
  t_correct st'
  = t_correct st + List.length (List.filter (Spec.correct gts) preds)
  /\ Spec.matrixTotal (t_matrix st')
     = Spec.matrixTotal (t_matrix st)
       + List.length (List.filter (Spec.scored gts) preds)
  /\ t_errors st' = (t_errors st ++ flat_map (Spec.recorded gts) preds)%list.
Proof.
  revert st. induction preds as [| pred preds IH]; intros st.
  - cbn [fold_left List.filter flat_map List.length].
    rewrite app_nil_r. repeat split; lia.
  - cbn [fold_left]. cbn zeta in IH |- *.
    destruct (IH (tally (Js.mapOfList gt_commentId gts) st pred))
      as (Hc & Hm & He).
    rewrite Hc, Hm, He. clear IH Hc Hm He.
    cbn [List.filter flat_map].
    unfold tally, Spec.correct, Spec.recorded, Spec.scored,
      Spec.hasGroundTruth, Spec.groundTruthOf.
    rewrite <- lastWith_is_Some, mapOfList_lookup.
    destruct (Spec.lastWith gt_commentId gts (commentId pred)) as [gt |];
      destruct (label pred) as [predicted |];
      cbn [t_correct t_matrix t_errors List.length app bool_decide
           decide_rel is_Some_dec];
      try (rewrite ?app_nil_r; repeat split; lia).
    set (expected := expectedLabel gt).
    destruct (StanceLabel_eqb expected predicted);
      cbn [t_correct t_matrix t_errors List.length app].
    + rewrite matrixTotal_increment. repeat split; lia.
    + destruct (getCriticalErrorSeverity expected predicted);
        cbn [t_correct t_matrix t_errors List.length app];
        rewrite matrixTotal_increment, <- ?app_assoc;
        repeat split; lia.
Qed.

Local Open Scope R_scope.

(** C6. [evaluateStanceAccuracy] scores exactly the judgments that have a
    label and a matching ground-truth [commentId]: [totalSamples] is their
    number, the confusion matrix holds one count for each of them and none
    for any other, [correctPredictions] is the number of those with the
    expected label, [accuracy] is [correctPredictions / totalSamples], and
    it is 0 when no judgment is scored. *)
Theorem evaluateStanceAccuracy_counts (predictions : list SentimentAnalysis)
    (groundTruth : list GroundTruthItem) :
  let r := evaluateStanceAccuracy predictions groundTruth in
  totalSamples r
  = List.length (List.filter (Spec.scored groundTruth) predictions)
  /\ Spec.matrixTotal (confusionMatrix r) = totalSamples r
  /\ correctPredictions r
     = List.length (List.filter (Spec.correct groundTruth) predictions)
  /\ (correctPredictions r <= totalSamples r)%nat
  /\ ((0 < totalSamples r)%nat ->
      accuracy r = INR (correctPredictions r) / INR (totalSamples r))
  /\ (totalSamples r = 0%nat -> accuracy r = 0).
Proof.
  cbn zeta. unfold evaluateStanceAccuracy.
  cbn [totalSamples confusionMatrix correctPredictions accuracy].
  destruct (tally_fold groundTruth predictions
              {| t_matrix := emptyMatrix; t_errors := []; t_correct := 0 |})
    as (Hc & Hm & _).
  cbn [t_correct t_matrix] in Hc, Hm.
  rewrite Hc, Hm. clear Hc Hm.
  rewrite (filter_ext _ (Spec.scored groundTruth))
    by (intros a; apply scored_spec).
  assert (Hle : (List.length (List.filter (Spec.correct groundTruth)
                                predictions)
                 <= List.length (List.filter (Spec.scored groundTruth)
                                   predictions))%nat).
  { induction predictions as [| pred preds IH]; [reflexivity |].
    cbn [List.filter].
    assert (Himp : Spec.correct groundTruth pred = true ->
                   Spec.scored groundTruth pred = true).
    { unfold Spec.correct, Spec.scored, Spec.hasGroundTruth,
        Spec.groundTruthOf.
      rewrite <- lastWith_is_Some.
      destruct (Spec.lastWith gt_commentId groundTruth (commentId pred));
        destruct (label pred); cbn; try discriminate.
      intros _. reflexivity. }
    destruct (Spec.correct groundTruth pred);
      [rewrite Himp by reflexivity; cbn; lia |].
    destruct (Spec.scored groundTruth pred); cbn; lia. }
  change (Spec.matrixTotal emptyMatrix) with 0%nat.
  rewrite !Nat.add_0_l.
  repeat split.
  - exact Hle.
  - intros Hpos. unfold ratio.
    destruct (Nat.ltb_spec 0
                (List.length (List.filter (Spec.scored groundTruth)
                                predictions))); [reflexivity | lia].
  - intros Hzero. unfold ratio. rewrite Hzero. reflexivity.
Qed.

(** How [getCriticalErrorSeverity] classifies a mismatch. *)
Lemma getCriticalErrorSeverity_mismatch (e p : StanceLabel) :
  e <> p ->
  (getCriticalErrorSeverity e p = Some high <-> Spec.oppositePoles e p)
  /\ (getCriticalErrorSeverity e p = Some medium
      <-> Spec.stanceVersusNeutral e p)
  /\ (getCriticalErrorSeverity e p = Some low
      <-> Spec.eitherUnknown e p /\ ~ Spec.oppositePoles e p
          /\ ~ Spec.stanceVersusNeutral e p)
  /\ (getCriticalErrorSeverity e p = None
      <-> ~ Spec.oppositePoles e p /\ ~ Spec.stanceVersusNeutral e p
          /\ ~ Spec.eitherUnknown e p).
Proof.
  unfold Spec.oppositePoles, Spec.stanceVersusNeutral, Spec.eitherUnknown.
  intros Hne. destruct e, p; try congruence; cbn;
    repeat split; intros; try reflexivity; try discriminate;
    try (exfalso; intuition congruence); intuition congruence.
Qed.

Lemma recorded_mismatch gts (pred : SentimentAnalysis) gt predicted :
  Spec.groundTruthOf gts pred = Some gt ->
  label pred = Some predicted ->
  expectedLabel gt <> predicted ->
  Spec.recorded gts pred
  = match getCriticalErrorSeverity (expectedLabel gt) predicted with
    | Some severity => [Spec.criticalError pred gt predicted severity]
    | None => []
    end.
Proof.
  intros Hgt Hlabel Hne. unfold Spec.recorded. rewrite Hgt, Hlabel.
  cbn zeta.
  destruct (StanceLabel_eqb_spec (expectedLabel gt) predicted);
    [contradiction | reflexivity].
Qed.

(** C7. The critical errors of a result are, in the order of the
    predictions, those of the scored mismatches: a judgment that is not
    scored, or whose label is the expected one, records none; a scored
    mismatch records an error of severity high exactly when expected and
    predicted are opposite poles, of severity medium exactly when one side
    is Support or Oppose and the other Neutral, of severity low exactly
    when either side is Unknown and neither of the former applies, and
    none exactly in every other case. *)
Theorem criticalErrors_classified (predictions : list SentimentAnalysis)
    (groundTruth : list GroundTruthItem) :
  criticalErrors (evaluateStanceAccuracy predictions groundTruth)
  = flat_map (Spec.recorded groundTruth) predictions
  /\ forall pred : SentimentAnalysis,
       (Spec.scored groundTruth pred = false ->
        Spec.recorded groundTruth pred = [])
       /\ forall gt predicted,
            Spec.groundTruthOf groundTruth pred = Some gt ->
            label pred = Some predicted ->
            let expected := expectedLabel gt in
            (expected = predicted -> Spec.recorded groundTruth pred = [])
            /\ (expected <> predicted ->
                (Spec.recorded groundTruth pred
                 = [Spec.criticalError pred gt predicted high]
                 <-> Spec.oppositePoles expected predicted)
                /\ (Spec.recorded groundTruth pred
                    = [Spec.criticalError pred gt predicted medium]
                    <-> Spec.stanceVersusNeutral expected predicted)
                /\ (Spec.recorded groundTruth pred
                    = [Spec.criticalError pred gt predicted low]
                    <-> Spec.eitherUnknown expected predicted
                        /\ ~ Spec.oppositePoles expected predicted
                        /\ ~ Spec.stanceVersusNeutral expected predicted)
                /\ (Spec.recorded groundTruth pred = []
                    <-> ~ Spec.oppositePoles expected predicted
                        /\ ~ Spec.stanceVersusNeutral expected predicted
                        /\ ~ Spec.eitherUnknown expected predicted)).
Proof.
  split.
  - unfold evaluateStanceAccuracy. cbn [criticalErrors].
    destruct (tally_fold groundTruth predictions
                {| t_matrix := emptyMatrix; t_errors := [];
                   t_correct := 0 |}) as (_ & _ & He).
    exact He.
  - intros pred. split.
    + unfold Spec.scored, Spec.recorded, Spec.hasGroundTruth,
        Spec.groundTruthOf.
      rewrite <- lastWith_is_Some.
      destruct (Spec.lastWith gt_commentId groundTruth (commentId pred));
        destruct (label pred); cbn; intros H;
        try reflexivity; discriminate H.
    + intros gt predicted Hgt Hlabel. cbn zeta. split.
      * intros Heq. unfold Spec.recorded. rewrite Hgt, Hlabel. cbn zeta.
        destruct (StanceLabel_eqb_spec (expectedLabel gt) predicted);
          [reflexivity | contradiction].
      * intros Hne. rewrite (recorded_mismatch _ _ _ _ Hgt Hlabel Hne).
        destruct (getCriticalErrorSeverity_mismatch _ _ Hne)
          as (Hhigh & Hmedium & Hlow & Hnone).
        destruct (getCriticalErrorSeverity (expectedLabel gt) predicted)
          as [[| |] |].
        -- repeat split; intros; try discriminate; try tauto;
             try (apply Hhigh; reflexivity);
             exfalso; intuition discriminate.
        -- repeat split; intros; try discriminate; try tauto;
             try (apply Hmedium; reflexivity);
             exfalso; intuition discriminate.
        -- repeat split; intros; try discriminate; try tauto;
             try (apply Hlow; reflexivity);
             exfalso; intuition discriminate.
        -- repeat split; intros; try discriminate; try tauto;
             try (apply Hnone; reflexivity);
             exfalso; intuition discriminate.
Qed.

(** The repository's confusion-matrix test: three of four scored judgments
    are correct, the accuracy is 0.75, and the one mismatch, Support taken
    for Neutral, is recorded at severity medium. *)
Lemma evaluateStanceAccuracy_three_of_four :
  let r := evaluateStanceAccuracy Examples.predictions4 Examples.groundTruth4 in
  totalSamples r = 4%nat
  /\ correctPredictions r = 3%nat
  /\ accuracy r = 0.75
  /\ confusionMatrix r Support Support = 1%nat
  /\ confusionMatrix r Support Neutral = 1%nat
  /\ List.map (fun e => (ce_commentId e, expected e, predicted e, severity e))
       (criticalErrors r)
     = [("2", Support, Neutral, medium)].
Proof.
  cbn zeta. repeat split; try reflexivity.
  change (accuracy
            (evaluateStanceAccuracy Examples.predictions4
               Examples.groundTruth4))
    with (ratio 3 4).
  unfold ratio. cbn. lra.
Qed.

End Accuracy.

(** ** Weighted scores *)

Section WeightedScore.
Local Open Scope R_scope.

Lemma clamp_bounds (x : R) : -1 <= Spec.clamp x <= 1.
Proof.
  unfold Spec.clamp. split.
  - apply Rmax_l.
  - apply Rmax_lub; [lra | apply Rmin_l].
Qed.

(** C4. For every score [s] and like count [L], both engines compute the
    weighted score [clamp (s * (1 + log10 (L + 1)) / 7)], and it lies
    between -1 and 1. *)
Theorem calculateWeightedScore_formula (s : R) (L : nat) :
  GroqEngine.calculateWeightedScore s L
  = Spec.clamp (s * (1 + log10 (INR L + 1)) / 7)
  /\ GeminiEngine.calculateWeightedScore s L
     = Spec.clamp (s * (1 + log10 (INR L + 1)) / 7)
  /\ -1 <= GroqEngine.calculateWeightedScore s L <= 1
  /\ -1 <= GeminiEngine.calculateWeightedScore s L <= 1.
Proof.
  unfold GroqEngine.calculateWeightedScore,
    GeminiEngine.calculateWeightedScore, GroqEngine.clampScore,
    GeminiEngine.clampScore.
  cbn zeta. fold (Spec.clamp (s * (1 + log10 (INR L + 1)) / 7)).
  repeat split; try apply clamp_bounds.
Qed.

Lemma log10_10 : log10 10 = 1.
Proof.
  unfold log10. apply Rinv_r.
  assert (ln 1 < ln 10) by (apply ln_increasing; lra).
  rewrite ln_1 in H. lra.
Qed.

(** Nine likes double the weight: a score of 0.5 becomes 1/7, and a score
    far out of range is clamped to 1. *)
Lemma calculateWeightedScore_nine_likes :
  GroqEngine.calculateWeightedScore 0.5 9 = 1 / 7
  /\ GeminiEngine.calculateWeightedScore 10 9 = 1.
Proof.
  unfold GroqEngine.calculateWeightedScore,
    GeminiEngine.calculateWeightedScore, GroqEngine.clampScore,
    GeminiEngine.clampScore.
  cbn zeta.
  replace (INR 9 + 1) with 10 by (cbn [INR]; lra).
  rewrite log10_10. split.
  - rewrite Rmin_right by lra. rewrite Rmax_right by lra. lra.
  - rewrite Rmin_left by lra. rewrite Rmax_right by lra. reflexivity.
Qed.

End WeightedScore.

(** ** Batches *)

Section Batches.
Import Types Runtime.

Variables (DEFAULT_MODEL SYSTEM_PROMPT AXIS_SYSTEM_PROMPT : string).
Variable createBatchPrompt :
  list YouTubeComment -> option VideoContext -> string.
Variable createAxisBatchPrompt :
  list YouTubeComment -> AxisProfile -> option VideoContext -> string.
Variable jsonParse : string -> GroqEngine.Parsed GroqEngine.GroqResponse + string.
Variable jsonParseAxis :
  string -> GroqEngine.Parsed GroqEngine.AxisGroqResponse + string.
Variable geminiJsonParse :
  string -> option (list GeminiEngine.GeminiResponse) + string.

Local Abbreviation groqBatch :=
  (GroqEngine.analyzeBatch DEFAULT_MODEL SYSTEM_PROMPT createBatchPrompt
     jsonParse).
Local Abbreviation groqAxisBatch :=
  (GroqEngine.analyzeAxisBatch DEFAULT_MODEL AXIS_SYSTEM_PROMPT
     createAxisBatchPrompt jsonParseAxis).
Local Abbreviation geminiBatch :=
  (GeminiEngine.analyzeBatch createBatchPrompt geminiJsonParse).

(** C9. On an empty comment list, [analyzeBatch] of either engine (and the
    axis-aware variant) returns no judgment, processing time 0 and 0
    tokens used, and issues no request to its backend. *)
Theorem analyzeBatch_empty (vc : option VideoContext)
    (axisProfile : AxisProfile)
    (groqEnv : Env GroqEngine.ChatRequest GroqEngine.Completion)
    (groqWorld : World GroqEngine.ChatRequest)
    (geminiEnv : Env string string) (geminiWorld : World string) :
  let request := {| comments := []; videoContext := vc |} in
  (fst (groqBatch request groqEnv groqWorld) = Return Spec.emptyResponse
   /\ calls (snd (groqBatch request groqEnv groqWorld)) = calls groqWorld)
  /\ (fst (geminiBatch request geminiEnv geminiWorld)
      = Return Spec.emptyResponse
      /\ calls (snd (geminiBatch request geminiEnv geminiWorld))
         = calls geminiWorld)
  /\ (fst (groqAxisBatch request axisProfile groqEnv groqWorld)
      = Return Spec.emptyResponse
      /\ calls (snd (groqAxisBatch request axisProfile groqEnv groqWorld))
         = calls groqWorld).
Proof. cbn. repeat split. Qed.

Lemma fallbackAnalyses_neutral (cs : list YouTubeComment) :
  Forall2 Spec.neutralFallback cs (GroqEngine.fallbackAnalyses cs).
Proof.
  unfold GroqEngine.fallbackAnalyses.
  induction cs as [| c cs IH]; constructor; [| exact IH].
  repeat split.
Qed.

Lemma fallbackAxisAnalyses_neutral (cs : list YouTubeComment) :
  Forall2 Spec.neutralFallback cs (GroqEngine.fallbackAxisAnalyses cs).
Proof.
  unfold GroqEngine.fallbackAxisAnalyses.
  induction cs as [| c cs IH]; constructor; [| exact IH].
  repeat split.
Qed.

(** C5. When the backend call fails with an error in which the engine
    detects a rate or quota limit (the error is not a
    [json_validate_failed] reply to recover from, and the quota test
    holds), [analyzeBatch] and [analyzeAxisBatch] do not throw: each
    returns, for the comments in the caller's order, one neutral fallback
    judgment per comment, with [isPartial] set to [true]. *)
Theorem quota_error_gives_partial_result (request : BatchAnalysisRequest)
    (axisProfile : AxisProfile)
    (env : Env GroqEngine.ChatRequest GroqEngine.Completion)
    (w : World GroqEngine.ChatRequest) (e : JsError) :
  comments request <> [] ->
  (forall req, backend env (List.length (calls w)) req = Throw e) ->
  GroqEngine.isJsonValidateFailed e = false ->
  GroqEngine.isQuotaError e = true ->
  (exists r w',
      groqBatch request env w = (Return r, w')
      /\ Forall2 Spec.neutralFallback (comments request) (analyses r)
      /\ isPartial r = Some true)
  /\ (exists r w',
        groqAxisBatch request axisProfile env w = (Return r, w')
        /\ Forall2 Spec.neutralFallback (comments request) (analyses r)
        /\ isPartial r = Some true).
Proof.
  intros Hne Hfail Hjson Hquota.
  destruct (comments request) as [| c cs] eqn:Hcs; [contradiction |].
  split.
  - unfold GroqEngine.analyzeBatch, bind, tryCatch, dateNow, callBackend.
    rewrite Hcs. cbn [List.length Nat.eqb ticks calls].
    rewrite Hfail.
    unfold GroqEngine.recovering, GroqEngine.afterRecovery, bind, ret,
      dateNow.
    rewrite Hjson, Hquota.
    eexists _, _. split; [reflexivity |].
    split; [apply fallbackAnalyses_neutral | reflexivity].
  - unfold GroqEngine.analyzeAxisBatch, bind, tryCatch, dateNow,
      callBackend.
    rewrite Hcs. cbn [List.length Nat.eqb ticks calls].
    rewrite Hfail.
    unfold GroqEngine.recovering, GroqEngine.afterRecovery, bind, ret,
      dateNow.
    rewrite Hjson, Hquota.
    eexists _, _. split; [reflexivity |].
    split; [apply fallbackAxisAnalyses_neutral | reflexivity].
Qed.

(** *** One judgment per comment: the Groq engine *)

Lemma findItem_Some items c item :
  GroqEngine.findItem items c = Some item ->
  GroqEngine.gr_commentId item = Some (id c).
Proof.
  unfold GroqEngine.findItem. intros H.
  apply find_some in H as [_ H]. apply bool_decide_eq_true in H. exact H.
Qed.

Lemma findItem_None items c :
  Forall (fun item => GroqEngine.gr_commentId item <> Some (id c)) items ->
  GroqEngine.findItem items c = None.
Proof.
  unfold GroqEngine.findItem.
  induction 1 as [| item items Hitem _ IH]; [reflexivity |].
  cbn [List.find]. rewrite bool_decide_eq_false_2 by exact Hitem. exact IH.
Qed.

Lemma toAnalysis_judged noItem noReason items c :
  (noItem =? "") = false ->
  Spec.judgedFrom items c (GroqEngine.toAnalysis noItem noReason items c).
Proof.
  intros HnoItem. unfold GroqEngine.toAnalysis. split.
  - destruct (GroqEngine.findItem items c) as [item |] eqn:Hfind;
      [| reflexivity].
    cbn [commentId]. rewrite (findItem_Some _ _ _ Hfind). reflexivity.
  - intros Hnone. rewrite (findItem_None _ _ Hnone).
    unfold Spec.neutralFallback, GroqEngine.skipped. cbn.
    rewrite HnoItem. repeat split.
Qed.

Lemma map_toAnalysis_judged noItem noReason items cs :
  (noItem =? "") = false ->
  Forall2 (Spec.judgedFrom items) cs
    (List.map (GroqEngine.toAnalysis noItem noReason items) cs).
Proof.
  intros HnoItem. induction cs as [| c cs IH]; constructor; [| exact IH].
  apply toAnalysis_judged. exact HnoItem.
Qed.

(** When the backend answers and its reply decodes to [parsed], the Groq
    engine returns exactly one judgment per input comment, in the input
    order, whatever the reply omits, reorders or repeats: a comment the
    reply does not name gets the neutral fallback. *)
Lemma groq_analyzeBatch_one_judgment_per_comment
    (request : BatchAnalysisRequest)
    (env : Env GroqEngine.ChatRequest GroqEngine.Completion)
    (w : World GroqEngine.ChatRequest)
    (completion : GroqEngine.Completion)
    (parsed : GroqEngine.Parsed GroqEngine.GroqResponse)
    (items : list GroqEngine.GroqResponse) :
  comments request <> [] ->
  (forall req, backend env (List.length (calls w)) req = Return completion) ->
  jsonParse (Js.orString (GroqEngine.content completion) "") = inl parsed ->
  GroqEngine.arrayOf "analyses" parsed (fun a r c => (a, r, c))
  = Return items ->
  exists r w',
    groqBatch request env w = (Return r, w')
    /\ Forall2 (Spec.judgedFrom items) (comments request) (analyses r)
    /\ List.length (analyses r) = List.length (comments request).
Proof.
  intros Hne Hreply Hparse Hitems.
  destruct (comments request) as [| c cs] eqn:Hcs; [contradiction |].
  unfold GroqEngine.analyzeBatch, bind, tryCatch, dateNow, callBackend,
    lift.
  rewrite Hcs. cbn [List.length Nat.eqb ticks calls].
  rewrite Hreply.
  unfold GroqEngine.parseJSON, GroqEngine.parseWith.
  rewrite Hparse, Hitems. unfold ret.
  eexists _, _. split; [reflexivity |]. cbn [analyses]. split.
  - apply map_toAnalysis_judged. reflexivity.
  - apply length_map.
Qed.

(** An error that passes the quota test never escapes the Groq batch
    methods, also when it is a [json_validate_failed] reply: the recovered
    result, or else the fallback, is returned, and [analyzeBatch] keeps the
    judgments in the order of the comments. *)
Lemma groq_quota_error_never_thrown (request : BatchAnalysisRequest)
    (axisProfile : AxisProfile)
    (env : Env GroqEngine.ChatRequest GroqEngine.Completion)
    (w : World GroqEngine.ChatRequest) (e : JsError) :
  comments request <> [] ->
  (forall req, backend env (List.length (calls w)) req = Throw e) ->
  GroqEngine.isQuotaError e = true ->
  (exists r w',
      groqBatch request env w = (Return r, w')
      /\ Forall2 (fun c a => commentId a = id c) (comments request)
           (analyses r))
  /\ (exists r w',
        groqAxisBatch request axisProfile env w = (Return r, w')).
Proof.
  intros Hne Hfail Hquota.
  destruct (comments request) as [| c cs] eqn:Hcs; [contradiction |].
  split.
  - unfold GroqEngine.analyzeBatch, bind, tryCatch, dateNow, callBackend.
    rewrite Hcs. cbn [List.length Nat.eqb ticks calls].
    rewrite Hfail.
    unfold GroqEngine.recovering, GroqEngine.afterRecovery, bind, ret,
      dateNow, lift, tryCatch.
    rewrite Hquota.
    repeat case_match; simplify_eq; eexists _, _; (split; [reflexivity |]);
      cbn [analyses];
      try (eapply Forall2_impl; [apply fallbackAnalyses_neutral |];
           intros ? ? [Hid _]; exact Hid).
    eapply Forall2_impl;
      [apply (map_toAnalysis_judged "Skipped in recovery"
                "Recovered from partial JSON" _ (c :: cs)); reflexivity |].
    intros ? ? [Hid _]. exact Hid.
  - unfold GroqEngine.analyzeAxisBatch, bind, tryCatch, dateNow, callBackend.
    rewrite Hcs. cbn [List.length Nat.eqb ticks calls].
    rewrite Hfail.
    unfold GroqEngine.recovering, GroqEngine.afterRecovery, bind, ret,
      dateNow, lift, tryCatch.
    rewrite Hquota.
    repeat case_match; simplify_eq; eexists _, _; reflexivity.
Qed.

End Batches.

(** ** The batch properties at concrete inputs *)

Section BatchExamples.
Import Types Runtime.

(** A rate-limited backend: both Groq batch methods return two neutral
    fallback judgments and [isPartial = true]. *)
Lemma quota_error_example :
  (exists r w',
      GroqEngine.analyzeBatch "llama" "system" Examples.batchPrompt
        Examples.noDecode Examples.twoComments Examples.quotaEnv
        Examples.freshWorld
      = (Return r, w')
      /\ Forall2 Spec.neutralFallback (comments Examples.twoComments)
           (analyses r)
      /\ isPartial r = Some true)
  /\ (exists r w',
        GroqEngine.analyzeAxisBatch "llama" "axis system"
          Examples.axisBatchPrompt Examples.noDecode Examples.twoComments
          Examples.axisProfile Examples.quotaEnv Examples.freshWorld
        = (Return r, w')
        /\ Forall2 Spec.neutralFallback (comments Examples.twoComments)
             (analyses r)
        /\ isPartial r = Some true).
Proof.
  apply (quota_error_gives_partial_result "llama" "system" "axis system"
           Examples.batchPrompt Examples.axisBatchPrompt Examples.noDecode
           Examples.noDecode Examples.twoComments Examples.axisProfile
           Examples.quotaEnv Examples.freshWorld Examples.rateLimited).
  - discriminate.
  - reflexivity.
  - reflexivity.
  - reflexivity.
Defined.

(** C1 fails for the Gemini engine. Asked about the comments c1 and c2,
    with a reply that judges c2 only, [GeminiEngine.analyzeBatch] returns a
    single judgment, for c2: nothing stands for c1, and the judgment at
    index 0 is not the one of the comment at index 0, so that the route's
    merge by index pairs c1 with the judgment of c2 and finds no judgment
    for c2. *)
Theorem gemini_analyzeBatch_drops_omitted_comment :
  exists r w',
    GeminiEngine.analyzeBatch Examples.batchPrompt Examples.geminiDecode
      Examples.twoComments Examples.geminiEnv Examples.freshWorld
    = (Return r, w')
    /\ List.map id (comments Examples.twoComments) = ["c1"; "c2"]
    /\ List.map commentId (analyses r) = ["c2"]
    /\ (fun p => (id p.1, commentId p.2))
         <$> Route.mergeAt (comments Examples.twoComments) (analyses r) 0
       = Some ("c1", "c2")
    /\ Route.mergeAt (comments Examples.twoComments) (analyses r) 1 = None.
Proof.
  eexists _, _. split; [run_batch; reflexivity |]. repeat split.
Qed.

(** On the same request and reply the Groq engine returns two judgments,
    the neutral fallback for c1 and the judgment of c2. *)
Lemma groq_analyzeBatch_keeps_omitted_comment :
  exists r w',
    GroqEngine.analyzeBatch "llama" "system" Examples.batchPrompt
      Examples.groqDecode Examples.twoComments Examples.groqEnv
      Examples.freshWorld
    = (Return r, w')
    /\ List.map commentId (analyses r) = ["c1"; "c2"]
    /\ List.map reason (analyses r)
       = [Some "Groq skipped this comment in batch analysis";
          Some "agrees with the video"].
Proof.
  eexists _, _. split; [run_batch; reflexivity |]. repeat split.
Qed.

(** A [json_validate_failed] reply is recovered from before the quota test
    is reached: although the message contains 429, the result holds the
    recovered judgments and [isPartial] is not set. *)
Lemma json_validate_failed_recovered_first :
  GroqEngine.isQuotaError Examples.invalidJson = true
  /\ exists r w',
      GroqEngine.analyzeBatch "llama" "system" Examples.batchPrompt
        Examples.groqDecode Examples.twoComments Examples.invalidJsonEnv
        Examples.freshWorld
      = (Return r, w')
      /\ List.map commentId (analyses r) = ["c1"; "c2"]
      /\ List.map reason (analyses r)
         = [Some "Skipped in recovery"; Some "agrees with the video"]
      /\ isPartial r = None.
Proof.
  split; [reflexivity |].
  eexists _, _. split; [run_batch; reflexivity |]. repeat split.
Qed.

End BatchExamples.

(** * Further properties of the code *)

(** ** Thread order and stance synthesis *)

Section ThreadOrder.
Import Types StanceLogic.

Lemma sort_fold (cs : list CommentRef) (topLevel replies : list CommentRef) :
  fold_left
    (fun '(topLevel, replies) c =>
       if Js.truthy (ref_parentId c)
       then (topLevel, (replies ++ [c])%list)
       else ((topLevel ++ [c])%list, replies))
    cs (topLevel, replies)
  = ((topLevel
      ++ List.filter (fun c => negb (Js.truthy (ref_parentId c))) cs)%list,
     (replies ++ List.filter (fun c => Js.truthy (ref_parentId c)) cs)%list).
Proof.
  revert topLevel replies.
  induction cs as [| c cs IH]; intros topLevel replies.
  - cbn. rewrite !app_nil_r. reflexivity.
  - cbn [fold_left List.filter].
    destruct (Js.truthy (ref_parentId c)); cbn [negb]; rewrite IH;
      rewrite <- !app_assoc; reflexivity.
Qed.

Lemma sortCommentsByThreadOrder_eq (cs : list CommentRef) :
  sortCommentsByThreadOrder cs = Spec.topLevelFirst cs.
Proof.
  unfold sortCommentsByThreadOrder, Spec.topLevelFirst.
  rewrite (sort_fold cs [] []). reflexivity.
Qed.

Lemma filter_partition_Permutation {A} (f : A -> bool) (l : list A) :
  Permutation l (List.filter (fun x => negb (f x)) l ++ List.filter f l).
Proof.
  induction l as [| x l IH]; [constructor |].
  cbn [List.filter]. destruct (f x); cbn [negb].
  - apply Permutation_cons_app. exact IH.
  - cbn. constructor. exact IH.
Qed.

(** X1. [sortCommentsByThreadOrder] is a stable partition: it returns the
    comments without a parent, in their original order, followed by the
    replies, in their original order; the result is a permutation of the
    input. *)
Theorem sortCommentsByThreadOrder_stable_partition (cs : list CommentRef) :
  sortCommentsByThreadOrder cs
  = (List.filter (fun c => negb (Spec.isReply c)) cs
     ++ List.filter Spec.isReply cs)%list
  /\ Permutation cs (sortCommentsByThreadOrder cs)
  /\ List.length (sortCommentsByThreadOrder cs) = List.length cs.
Proof.
  rewrite sortCommentsByThreadOrder_eq. unfold Spec.topLevelFirst.
  split; [reflexivity |].
  pose proof (filter_partition_Permutation Spec.isReply cs) as Hperm.
  split; [exact Hperm |].
  symmetry. apply Permutation_length. exact Hperm.
Qed.

Lemma filter_filter_same {A} (f : A -> bool) (l : list A) :
  List.filter f (List.filter f l) = List.filter f l.
Proof.
  induction l as [| x l IH]; [reflexivity |].
  cbn [List.filter]. destruct (f x) eqn:Hx; [| exact IH].
  cbn [List.filter]. rewrite Hx, IH. reflexivity.
Qed.

Lemma filter_filter_neg {A} (f : A -> bool) (l : list A) :
  List.filter f (List.filter (fun x => negb (f x)) l) = []
  /\ List.filter (fun x => negb (f x)) (List.filter f l) = [].
Proof.
  induction l as [| x l [IH1 IH2]]; [split; reflexivity |].
  cbn [List.filter]. destruct (f x) eqn:Hx; cbn [negb List.filter];
    rewrite ?Hx; cbn [negb]; split; assumption.
Qed.

(** Sorting into thread order twice is sorting once. *)
Theorem sortCommentsByThreadOrder_idempotent (cs : list CommentRef) :
  sortCommentsByThreadOrder (sortCommentsByThreadOrder cs)
  = sortCommentsByThreadOrder cs.
Proof.
  rewrite !sortCommentsByThreadOrder_eq. unfold Spec.topLevelFirst.
  rewrite !List.filter_app.
  destruct (filter_filter_neg Spec.isReply cs) as [H1 H2].
  rewrite H1, H2, app_nil_r. cbn [app].
  rewrite (filter_filter_same Spec.isReply).
  rewrite (filter_filter_same (fun c => negb (Spec.isReply c))).
  reflexivity.
Qed.

(** Disagreeing twice restores the parent's label: [synthesizeStance]
    with relation disagree is an involution on the four labels. *)
Theorem synthesizeStance_disagree_involutive (P : StanceLabel) :
  synthesizeStance (synthesizeStance P "disagree") "disagree" = P.
Proof. destruct P; reflexivity. Qed.

(** X2. [synthesizeStance] never invents a side: when the result is Support
    or Oppose, the parent's label already took a side and the relation is
    agree or disagree. *)
Theorem synthesizeStance_side_from_parent (P : StanceLabel)
    (R : ReplyRelation) :
  Spec.takesSide (synthesizeStance P R) ->
  Spec.takesSide P /\ (R = "agree" \/ R = "disagree").
Proof.
  unfold Spec.takesSide, synthesizeStance.
  destruct (R =? "unrelated") eqn:Hu; cbn [orb];
    [intros [H | H]; discriminate H |].
  destruct (R =? "clarify") eqn:Hc; cbn [orb];
    [intros [H | H]; discriminate H |].
  destruct (R =? "question") eqn:Hq; [intros [H | H]; discriminate H |].
  destruct (String.eqb_spec R "disagree") as [-> | Hd].
  - destruct P; intros [H | H]; try discriminate H; split; auto.
  - destruct (String.eqb_spec R "agree") as [-> | Ha].
    + intros H. split; [exact H | left; reflexivity].
    + intros [H | H]; discriminate H.
Qed.

Lemma synthesizeStance_side_from_parent_example :
  Spec.takesSide Oppose /\ ("disagree" = "agree" \/ "disagree" = "disagree").
Proof.
  apply (synthesizeStance_side_from_parent Oppose "disagree").
  left. reflexivity.
Defined.

Lemma labelToScore_bounds (l : StanceLabel) :
  (-1 <= labelToScore l <= 1)%R.
Proof. destruct l; cbn [labelToScore]; lra. Qed.

Lemma synthesizeOne_keptOrSynthesized am cm (a : SentimentAnalysis) :
  Spec.keptOrSynthesized a (synthesizeOne am cm a).
Proof.
  unfold synthesizeOne.
  repeat (case_match; try (left; reflexivity)).
  right. eexists. cbn [synthesized label score].
  split; [reflexivity |]. split; [reflexivity |].
  split; [apply labelToScore_bounds |].
  split; [reflexivity |].
  unfold synthesized. cbn [axisEvidence].
  destruct (Js.truthy (axisEvidence a)); reflexivity.
Qed.

(** X3. Stance synthesis touches replies only: a judgment whose comment is
    not listed, or is listed without a parent, is returned as it was; and
    when no listed comment is a reply, the whole list is returned as it
    was. *)
Theorem applyStanceSynthesis_keeps_top_level
    (analyses : list SentimentAnalysis) (comments : list CommentRef) :
  (forall (i : nat) (a : SentimentAnalysis),
      analyses !! i = Some a ->
      (forall c, Spec.lastWith ref_id comments (commentId a) = Some c ->
                 Spec.isReply c = false) ->
      applyStanceSynthesis analyses comments !! i = Some a)
  /\ (Forall (fun c => Spec.isReply c = false) comments ->
      applyStanceSynthesis analyses comments = analyses).
Proof.
  assert (Hone : forall a : SentimentAnalysis,
             (forall c, Spec.lastWith ref_id comments (commentId a) = Some c ->
                        Spec.isReply c = false) ->
             synthesizeOne (Js.mapOfList commentId analyses)
               (Js.mapOfList ref_id comments) a = a).
  { intros a Htop. unfold synthesizeOne.
    rewrite (mapOfList_lookup ref_id).
    destruct (Spec.lastWith ref_id comments (commentId a)) as [c |] eqn:Hc;
      [| reflexivity].
    specialize (Htop c eq_refl). unfold Spec.isReply, Js.truthy in Htop.
    destruct (ref_parentId c) as [pid |]; [| reflexivity].
    apply negb_false_iff in Htop. rewrite Htop. reflexivity. }
  split.
  - intros i a Ha Htop. unfold applyStanceSynthesis.
    rewrite list_lookup_fmap, Ha. cbn. f_equal. apply Hone. exact Htop.
  - intros Hall. unfold applyStanceSynthesis.
    rewrite <- (map_id analyses) at 3. apply map_ext. intros a.
    apply Hone. intros c Hc. unfold Spec.lastWith in Hc.
    apply find_some in Hc as [Hin _]. apply in_rev in Hin.
    rewrite Forall_forall in Hall. apply Hall.
    apply list_elem_of_In. exact Hin.
Qed.

(** The parent of the example thread is a top-level comment: its judgment
    is returned as it was. *)
Lemma applyStanceSynthesis_keeps_top_level_example :
  applyStanceSynthesis Examples.threadJudgments Examples.thread !! 0
  = Some Examples.parentJudgment.
Proof.
  apply (proj1 (applyStanceSynthesis_keeps_top_level
                  Examples.threadJudgments Examples.thread)).
  - reflexivity.
  - intros c Hc. vm_compute in Hc. injection Hc as <-. reflexivity.
Defined.

(** X4. After stance synthesis every judgment is either the input judgment
    or a synthesized one, and a synthesized judgment has a label, the score
    [labelToScore] gives for that label (so a score between -1 and 1), a
    non-empty reason and a non-empty evidence. *)
Theorem applyStanceSynthesis_label_score_consistent
    (analyses : list SentimentAnalysis) (comments : list CommentRef) :
  Forall2 Spec.keptOrSynthesized analyses
    (applyStanceSynthesis analyses comments).
Proof.
  unfold applyStanceSynthesis.
  generalize (Js.mapOfList commentId analyses) as am.
  generalize (Js.mapOfList ref_id comments) as cm.
  intros cm am.
  induction analyses as [| a analyses IH]; constructor; [| exact IH].
  apply synthesizeOne_keptOrSynthesized.
Qed.

End ThreadOrder.

(** ** The confusion matrix, the critical errors and the metrics *)

Section Metrics.
Import Types Evaluation.

Lemma increment_cell (m : ConfusionMatrix) (expected predicted e p : StanceLabel) :
  increment m expected predicted e p
  = m e p
    + (if StanceLabel_eqb expected e && StanceLabel_eqb predicted p
       then 1 else 0).
Proof. unfold increment. destruct expected, predicted, e, p; cbn; lia. Qed.

Lemma tally_cell gts (e p : StanceLabel) (preds : list SentimentAnalysis)
    (st : Tally) :
  t_matrix (fold_left (tally (Js.mapOfList gt_commentId gts)) preds st) e p
  = t_matrix st e p + List.length (List.filter (Spec.inCell gts e p) preds).
Proof.
  revert st. induction preds as [| pred preds IH]; intros st.
  - cbn. lia.
  - cbn [fold_left List.filter]. rewrite IH. clear IH.
    unfold tally, Spec.inCell, Spec.groundTruthOf.
    rewrite mapOfList_lookup.
    destruct (Spec.lastWith gt_commentId gts (commentId pred)) as [gt |];
      destruct (label pred) as [predicted |]; cbn [t_matrix]; try lia.
    cbn zeta.
    assert (Hm : forall st' : Tally,
               t_matrix st' = increment (t_matrix st) (expectedLabel gt)
                                predicted ->
               t_matrix st' e p
               + List.length
                   (List.filter (Spec.inCell gts e p) preds)
               = t_matrix st e p
                 + List.length
                     (if StanceLabel_eqb (expectedLabel gt) e
                         && StanceLabel_eqb predicted p
                      then pred :: List.filter (Spec.inCell gts e p) preds
                      else List.filter (Spec.inCell gts e p) preds)).
    { intros st' ->. rewrite increment_cell.
      destruct (StanceLabel_eqb (expectedLabel gt) e
                && StanceLabel_eqb predicted p); cbn [List.length]; lia. }
    unfold Spec.inCell, Spec.groundTruthOf in Hm.
    destruct (StanceLabel_eqb (expectedLabel gt) predicted);
      [apply Hm; reflexivity |].
    destruct (getCriticalErrorSeverity (expectedLabel gt) predicted);
      apply Hm; reflexivity.
Qed.

(** X5. Every cell of the confusion matrix counts the scored judgments with
    that expected and that predicted label: [confusionMatrix[e][p]] is the
    number of judgments that have the label [p] and whose ground-truth item
    expects [e]. *)
Theorem confusionMatrix_counts (predictions : list SentimentAnalysis)
    (groundTruth : list GroundTruthItem) (e p : StanceLabel) :
  confusionMatrix (evaluateStanceAccuracy predictions groundTruth) e p
  = List.length (List.filter (Spec.inCell groundTruth e p) predictions).
Proof.
  unfold evaluateStanceAccuracy. cbn [confusionMatrix].
  rewrite tally_cell. reflexivity.
Qed.

Lemma getCriticalErrorSeverity_total (e p : StanceLabel) :
  e <> p -> exists sev, getCriticalErrorSeverity e p = Some sev.
Proof. destruct e, p; intros H; try congruence; cbn; eauto. Qed.

Lemma recorded_length gts (pred : SentimentAnalysis) :
  List.length (Spec.recorded gts pred)
  = (if Spec.scored gts pred && negb (Spec.correct gts pred) then 1 else 0).
Proof.
  unfold Spec.recorded, Spec.scored, Spec.correct, Spec.hasGroundTruth,
    Spec.groundTruthOf.
  rewrite <- lastWith_is_Some.
  destruct (Spec.lastWith gt_commentId gts (commentId pred)) as [gt |];
    destruct (label pred) as [predicted |]; try reflexivity.
  cbn zeta.
  destruct (StanceLabel_eqb_spec (expectedLabel gt) predicted) as [Heq | Hne];
    [reflexivity |].
  destruct (getCriticalErrorSeverity_total _ _ Hne) as [sev ->]. reflexivity.
Qed.

Lemma mismatches_length gts (preds : list SentimentAnalysis) :
  List.length (flat_map (Spec.recorded gts) preds)
  + List.length (List.filter (Spec.correct gts) preds)
  = List.length (List.filter (Spec.scored gts) preds).
Proof.
  induction preds as [| pred preds IH]; [reflexivity |].
  cbn [flat_map List.filter]. rewrite length_app, recorded_length.
  assert (Himp : Spec.correct gts pred = true -> Spec.scored gts pred = true).
  { unfold Spec.correct, Spec.scored, Spec.hasGroundTruth, Spec.groundTruthOf.
    rewrite <- lastWith_is_Some.
    destruct (Spec.lastWith gt_commentId gts (commentId pred));
      destruct (label pred); cbn; try discriminate. reflexivity. }
  destruct (Spec.correct gts pred) eqn:Hc.
  - rewrite Himp by reflexivity. cbn. lia.
  - destruct (Spec.scored gts pred); cbn; lia.
Qed.

(** X6. Every scored mismatch is recorded as a critical error: the number
    of critical errors is [totalSamples - correctPredictions] (on the four
    labels, no mismatch is left without a severity). *)
Theorem criticalErrors_are_the_mismatches
    (predictions : list SentimentAnalysis)
    (groundTruth : list GroundTruthItem) :
  let r := evaluateStanceAccuracy predictions groundTruth in
  (List.length (criticalErrors r) + correctPredictions r = totalSamples r)%nat.
Proof.
  cbn zeta. unfold evaluateStanceAccuracy.
  cbn [criticalErrors correctPredictions totalSamples].
  destruct (tally_fold groundTruth predictions
              {| t_matrix := emptyMatrix; t_errors := []; t_correct := 0 |})
    as (Hc & _ & He).
  rewrite Hc, He. cbn [t_correct t_errors app Nat.add].
  rewrite (filter_ext
             (fun p => bool_decide (is_Some (label p))
                       && bool_decide
                            (is_Some (Js.mapOfList gt_commentId groundTruth
                                      !! commentId p)))
             (Spec.scored groundTruth))
    by (intros a; apply scored_spec).
  apply mismatches_length.
Qed.

(** The severity of a mismatch does not depend on which of the two
    labels was expected and which was predicted. *)
Theorem getCriticalErrorSeverity_symmetric (e p : StanceLabel) :
  getCriticalErrorSeverity e p = getCriticalErrorSeverity p e.
Proof. destruct e, p; reflexivity. Qed.

Local Open Scope R_scope.

Lemma ratio_rate (a n : nat) : (a <= n)%nat -> Spec.isRate (ratio a n).
Proof.
  intros Hle. unfold Spec.isRate, ratio.
  destruct (Nat.ltb_spec 0 n) as [Hpos | Hzero]; [| lra].
  assert (0 < INR n) by (apply lt_0_INR; exact Hpos).
  assert (0 <= INR a) by apply pos_INR.
  assert (INR a <= INR n) by (apply le_INR; exact Hle).
  split.
  - apply Rmult_le_pos; [assumption |].
    left. apply Rinv_0_lt_compat. assumption.
  - apply Rmult_le_reg_r with (r := INR n); [assumption |].
    unfold Rdiv. rewrite Rmult_assoc, Rinv_l by lra. lra.
Qed.

Lemma ratio_one (a n : nat) :
  (0 < n)%nat -> (ratio a n = 1 <-> a = n).
Proof.
  intros Hpos. unfold ratio.
  destruct (Nat.ltb_spec 0 n) as [_ | Hzero]; [| lia].
  assert (0 < INR n) by (apply lt_0_INR; exact Hpos).
  split.
  - intros Heq. apply INR_eq.
    apply (Rmult_eq_compat_r (INR n)) in Heq.
    unfold Rdiv in Heq. rewrite Rmult_assoc, Rinv_l in Heq by lra. lra.
  - intros ->. unfold Rdiv. apply Rinv_r. lra.
Qed.

Lemma evaluate_fields (predictions : list SentimentAnalysis)
    (groundTruth : list GroundTruthItem) :
  let r := evaluateStanceAccuracy predictions groundTruth in
  accuracy r = ratio (correctPredictions r) (totalSamples r)
  /\ (List.length (criticalErrors r) + correctPredictions r
      = totalSamples r)%nat.
Proof.
  cbn zeta. split; [reflexivity |].
  unfold evaluateStanceAccuracy.
  cbn [criticalErrors correctPredictions totalSamples].
  destruct (tally_fold groundTruth predictions
              {| t_matrix := emptyMatrix; t_errors := []; t_correct := 0 |})
    as (Hc & _ & He).
  rewrite Hc, He. cbn [t_correct t_errors app Nat.add].
  rewrite (filter_ext
             (fun p => bool_decide (is_Some (label p))
                       && bool_decide
                            (is_Some (Js.mapOfList gt_commentId groundTruth
                                      !! commentId p)))
             (Spec.scored groundTruth))
    by (intros a; apply scored_spec).
  apply mismatches_length.
Qed.

(** X7. The accuracy is a rate, between 0 and 1, and once a judgment is
    scored it is 1 exactly when no critical error is recorded. *)
Theorem accuracy_is_a_rate (predictions : list SentimentAnalysis)
    (groundTruth : list GroundTruthItem) :
  let r := evaluateStanceAccuracy predictions groundTruth in
  Spec.isRate (accuracy r)
  /\ ((0 < totalSamples r)%nat ->
      (accuracy r = 1 <-> criticalErrors r = [])).
Proof.
  cbn zeta.
  destruct (evaluate_fields predictions groundTruth) as [Hacc Hsum].
  cbn zeta in Hacc, Hsum. rewrite Hacc. split.
  - apply ratio_rate. lia.
  - intros Hpos. rewrite (ratio_one _ _ Hpos). split.
    + intros Heq. apply length_zero_iff_nil. lia.
    + intros Hnil. rewrite Hnil in Hsum. cbn [List.length Nat.add] in Hsum.
      lia.
Qed.

Lemma f1_rate (P R : R) :
  Spec.isRate P -> Spec.isRate R ->
  Spec.isRate (if Rlt_dec 0 (P + R) then 2 * P * R / (P + R) else 0).
Proof.
  unfold Spec.isRate. intros [HP0 HP1] [HR0 HR1].
  destruct (Rlt_dec 0 (P + R)) as [Hpos | _]; [| lra].
  split.
  - apply Rmult_le_pos; [nra |].
    left. apply Rinv_0_lt_compat. exact Hpos.
  - apply Rmult_le_reg_r with (r := P + R); [exact Hpos |].
    unfold Rdiv. rewrite Rmult_assoc, Rinv_l by lra. nra.
Qed.

Lemma metricsOf_rates (m : ConfusionMatrix) (l : StanceLabel) :
  lm_label (metricsOf m l) = l
  /\ Spec.isRate (precision (metricsOf m l))
  /\ Spec.isRate (recall (metricsOf m l))
  /\ Spec.isRate (f1Score (metricsOf m l)).
Proof.
  unfold metricsOf. cbn zeta. cbn [lm_label precision recall f1Score].
  split; [reflexivity |].
  repeat split; try apply f1_rate; apply ratio_rate; lia.
Qed.

(** X8. The per-label metrics come in the order Support, Oppose, Neutral,
    Unknown, and every precision, recall and F1 score is between 0 and 1
    (0 when its denominator is 0), whatever the predictions. *)
Theorem perLabelMetrics_are_rates (predictions : list SentimentAnalysis)
    (groundTruth : list GroundTruthItem) :
  let r := evaluateStanceAccuracy predictions groundTruth in
  List.map lm_label (perLabelMetrics r) = [Support; Oppose; Neutral; Unknown]
  /\ Forall (fun m => Spec.isRate (precision m) /\ Spec.isRate (recall m)
                      /\ Spec.isRate (f1Score m))
       (perLabelMetrics r).
Proof.
  cbn zeta. unfold evaluateStanceAccuracy. cbn [perLabelMetrics].
  set (m := t_matrix _). unfold labels. cbn [List.map].
  split.
  - reflexivity.
  - do 4 (constructor; [exact (proj2 (metricsOf_rates m _)) |]).
    constructor.
Qed.

End Metrics.

(** ** Clamping and weighting *)

Section Weighting.
Local Open Scope R_scope.

Ltac clamp_cases :=
  unfold Spec.clamp, GroqEngine.clampScore, GeminiEngine.clampScore, Rmax, Rmin;
  repeat (match goal with
          | |- context [Rle_dec 1 ?b] => destruct (Rle_dec 1 b)
          end);
  repeat (match goal with
          | |- context [Rle_dec ?a ?b] => destruct (Rle_dec a b)
          end);
  try lra.

Lemma clamp_id (x : R) : -1 <= x <= 1 -> Spec.clamp x = x.
Proof. intros [Hlo Hhi]. clamp_cases. Qed.

Lemma clamp_mono (x y : R) : x <= y -> Spec.clamp x <= Spec.clamp y.
Proof. intros Hle. clamp_cases. Qed.

Lemma clamp_opp (x : R) : Spec.clamp (- x) = - Spec.clamp x.
Proof. clamp_cases. Qed.

Lemma clamp_nonneg (x : R) : 0 <= x -> 0 <= Spec.clamp x.
Proof. intros Hx. clamp_cases. Qed.

(** [clampScore] (the same function in both engines) is idempotent,
    leaves every score between -1 and 1 as it is, and is monotone. *)
Theorem clampScore_idempotent_monotone (x y : R) :
  GroqEngine.clampScore (GroqEngine.clampScore x) = GroqEngine.clampScore x
  /\ (-1 <= x <= 1 -> GroqEngine.clampScore x = x)
  /\ (x <= y -> GroqEngine.clampScore x <= GroqEngine.clampScore y)
  /\ GeminiEngine.clampScore x = GroqEngine.clampScore x.
Proof.
  split; [| split; [| split]].
  - apply (clamp_id (Spec.clamp x)). apply clamp_bounds.
  - apply clamp_id.
  - apply clamp_mono.
  - reflexivity.
Qed.

Lemma ln_10_pos : 0 < ln 10.
Proof.
  assert (ln 1 < ln 10) by (apply ln_increasing; lra).
  rewrite ln_1 in H. exact H.
Qed.

Lemma log10_le (x y : R) : 0 < x -> x <= y -> log10 x <= log10 y.
Proof.
  intros Hx Hxy. unfold log10, Rdiv.
  apply Rmult_le_compat_r.
  - left. apply Rinv_0_lt_compat. apply ln_10_pos.
  - destruct Hxy as [Hlt | ->]; [| lra].
    left. apply ln_increasing; assumption.
Qed.

Lemma log10_1 : log10 1 = 0.
Proof. unfold log10. rewrite ln_1. lra. Qed.

Lemma log10_million : log10 1000000 = 6.
Proof.
  unfold log10. replace 1000000 with (10 ^ 6) by lra.
  rewrite ln_pow by lra.
  replace (INR 6) with 6 by (cbn [INR]; lra).
  pose proof ln_10_pos. field. lra.
Qed.

(** The weight [1 + log10(likeCount + 1)] starts at 1 and grows with the
    likes. *)
Lemma weight_bounds (L L' : nat) :
  (L <= L')%nat ->
  1 <= 1 + log10 (INR L + 1) <= 1 + log10 (INR L' + 1).
Proof.
  intros Hle.
  assert (0 <= INR L) by apply pos_INR.
  assert (INR L <= INR L') by (apply le_INR; exact Hle).
  assert (H1 : log10 1 <= log10 (INR L + 1)) by (apply log10_le; lra).
  assert (H2 : log10 (INR L + 1) <= log10 (INR L' + 1))
    by (apply log10_le; lra).
  rewrite log10_1 in H1. lra.
Qed.

(** X9. For a score between -1 and 1 and fewer than a million likes, the
    weighted score is [score * (1 + log10(likeCount + 1)) / 7] itself: the
    weight is at most 7 and the clamp changes nothing. *)
Theorem calculateWeightedScore_unclamped (s : R) (L : nat) :
  -1 <= s <= 1 ->
  (Z.of_nat L < 1000000)%Z ->
  GroqEngine.calculateWeightedScore s L = s * (1 + log10 (INR L + 1)) / 7
  /\ GeminiEngine.calculateWeightedScore s L
     = s * (1 + log10 (INR L + 1)) / 7.
Proof.
  intros Hs HL.
  assert (Hw : 1 <= 1 + log10 (INR L + 1) <= 7).
  { split; [apply (weight_bounds L L); lia |].
    assert (INR L + 1 <= 1000000).
    { rewrite INR_IZR_INZ.
      assert (Hz : IZR (Z.of_nat L + 1) <= 1000000) by (apply IZR_le; lia).
      rewrite plus_IZR in Hz. exact Hz. }
    assert (0 <= INR L) by apply pos_INR.
    assert (Hlog : log10 (INR L + 1) <= log10 1000000)
      by (apply log10_le; lra).
    rewrite log10_million in Hlog. lra. }
  unfold GroqEngine.calculateWeightedScore,
    GeminiEngine.calculateWeightedScore, GroqEngine.clampScore,
    GeminiEngine.clampScore.
  cbn zeta. fold (Spec.clamp (s * (1 + log10 (INR L + 1)) / 7)).
  rewrite clamp_id; [split; reflexivity |].
  set (w := 1 + log10 (INR L + 1)) in *. nra.
Qed.

Lemma calculateWeightedScore_unclamped_example :
  GroqEngine.calculateWeightedScore 0.5 9 = 0.5 * (1 + log10 (INR 9 + 1)) / 7
  /\ GeminiEngine.calculateWeightedScore 0.5 9
     = 0.5 * (1 + log10 (INR 9 + 1)) / 7.
Proof.
  apply (calculateWeightedScore_unclamped 0.5 9); [lra | lia].
Defined.

(** X10. The weighted score follows the sign of the score and grows in
    magnitude with the likes: it is 0 for the score 0, negating the score
    negates it, and for a score of 0 or more, more likes never give a
    smaller weighted score. *)
Theorem calculateWeightedScore_sign_and_likes (s : R) (L L' : nat) :
  GroqEngine.calculateWeightedScore 0 L = 0
  /\ GroqEngine.calculateWeightedScore (- s) L
     = - GroqEngine.calculateWeightedScore s L
  /\ (0 <= s -> 0 <= GroqEngine.calculateWeightedScore s L)
  /\ (0 <= s -> (L <= L')%nat ->
      GroqEngine.calculateWeightedScore s L
      <= GroqEngine.calculateWeightedScore s L')
  /\ GeminiEngine.calculateWeightedScore s L
     = GroqEngine.calculateWeightedScore s L.
Proof.
  unfold GroqEngine.calculateWeightedScore,
    GeminiEngine.calculateWeightedScore, GroqEngine.clampScore,
    GeminiEngine.clampScore.
  cbn zeta.
  fold (Spec.clamp (0 * (1 + log10 (INR L + 1)) / 7)).
  fold (Spec.clamp (- s * (1 + log10 (INR L + 1)) / 7)).
  fold (Spec.clamp (s * (1 + log10 (INR L + 1)) / 7)).
  fold (Spec.clamp (s * (1 + log10 (INR L' + 1)) / 7)).
  split; [| split; [| split; [| split]]].
  - replace (0 * (1 + log10 (INR L + 1)) / 7) with 0 by lra.
    apply clamp_id. lra.
  - replace (- s * (1 + log10 (INR L + 1)) / 7)
      with (- (s * (1 + log10 (INR L + 1)) / 7)) by lra.
    apply clamp_opp.
  - intros Hs. apply clamp_nonneg.
    pose proof (weight_bounds L L (Nat.le_refl L)) as [Hw _].
    set (w := 1 + log10 (INR L + 1)) in *. nra.
  - intros Hs Hle. apply clamp_mono.
    pose proof (weight_bounds L L' Hle) as [Hw Hw'].
    set (w := 1 + log10 (INR L + 1)) in *.
    set (w' := 1 + log10 (INR L' + 1)) in *. nra.
  - reflexivity.
Qed.

End Weighting.

(** ** The Groq batch methods: requests, failures, results *)

Section GroqBatches.
Import Types Runtime.

Variables (DEFAULT_MODEL SYSTEM_PROMPT AXIS_SYSTEM_PROMPT : string).
Variable createBatchPrompt :
  list YouTubeComment -> option VideoContext -> string.
Variable createAxisBatchPrompt :
  list YouTubeComment -> AxisProfile -> option VideoContext -> string.
Variable jsonParse : string -> GroqEngine.Parsed GroqEngine.GroqResponse + string.
Variable jsonParseAxis :
  string -> GroqEngine.Parsed GroqEngine.AxisGroqResponse + string.

Local Abbreviation groqBatch :=
  (GroqEngine.analyzeBatch DEFAULT_MODEL SYSTEM_PROMPT createBatchPrompt
     jsonParse).
Local Abbreviation groqAxisBatch :=
  (GroqEngine.analyzeAxisBatch DEFAULT_MODEL AXIS_SYSTEM_PROMPT
     createAxisBatchPrompt jsonParseAxis).

Ltac unfold_batch :=
  unfold GroqEngine.analyzeBatch, GroqEngine.analyzeAxisBatch,
    GroqEngine.recovering, GroqEngine.afterRecovery, GroqEngine.parseJSON,
    GroqEngine.parseAxisJSON, GroqEngine.parseWith,
    bind, tryCatch, dateNow, callBackend, lift, ret, throw.

(** X11. On a non-empty batch each Groq batch method issues exactly one
    request to the backend, whatever happens next (a result, a recovery, a
    fallback or an error): the system prompt and the batch prompt, in JSON
    mode. The axis-aware method builds its prompt from the comments in
    thread order. *)
Theorem groq_batch_issues_one_request (request : BatchAnalysisRequest)
    (axisProfile : AxisProfile)
    (env : Env GroqEngine.ChatRequest GroqEngine.Completion)
    (w : World GroqEngine.ChatRequest) :
  comments request <> [] ->
  calls (snd (groqBatch request env w))
  = (calls w
     ++ [ {| GroqEngine.system := SYSTEM_PROMPT;
             GroqEngine.user :=
               createBatchPrompt (comments request) (videoContext request);
             GroqEngine.model := DEFAULT_MODEL;
             GroqEngine.json_object := true |} ])%list
  /\ calls (snd (groqAxisBatch request axisProfile env w))
     = (calls w
        ++ [ {| GroqEngine.system := AXIS_SYSTEM_PROMPT;
                GroqEngine.user :=
                  createAxisBatchPrompt
                    (GroqEngine.sortComments (comments request))
                    axisProfile (videoContext request);
                GroqEngine.model := DEFAULT_MODEL;
                GroqEngine.json_object := true |} ])%list.
Proof.
  intros Hne.
  destruct (comments request) as [| c cs] eqn:Hcs; [contradiction |].
  split.
  - unfold_batch. rewrite Hcs. cbn [List.length Nat.eqb ticks calls].
    repeat case_match; simplify_eq; reflexivity.
  - unfold_batch. rewrite Hcs. cbn [List.length Nat.eqb ticks calls].
    repeat case_match; simplify_eq; reflexivity.
Qed.

(** X12. A backend failure that is neither a [json_validate_failed] reply
    nor a quota error is thrown on as an [AnalysisError] that carries the
    original error, with code GROQ_BATCH_ERROR for [analyzeBatch] and
    GROQ_AXIS_BATCH_ERROR for [analyzeAxisBatch]. *)
Theorem groq_batch_error_is_wrapped (request : BatchAnalysisRequest)
    (axisProfile : AxisProfile)
    (env : Env GroqEngine.ChatRequest GroqEngine.Completion)
    (w : World GroqEngine.ChatRequest) (e : JsError) :
  comments request <> [] ->
  (forall req, backend env (List.length (calls w)) req = Throw e) ->
  GroqEngine.isJsonValidateFailed e = false ->
  GroqEngine.isQuotaError e = false ->
  fst (groqBatch request env w)
  = Throw {| ae_message :=
               "Failed to analyze batch with Groq: "
               ++ Js.showString (message e);
             ae_code := "GROQ_BATCH_ERROR";
             ae_details := e |}
  /\ fst (groqAxisBatch request axisProfile env w)
     = Throw {| ae_message :=
                  "Failed to analyze axis batch with Groq: "
                  ++ Js.showString (message e);
                ae_code := "GROQ_AXIS_BATCH_ERROR";
                ae_details := e |}.
Proof.
  intros Hne Hfail Hjson Hquota.
  destruct (comments request) as [| c cs] eqn:Hcs; [contradiction |].
  split.
  - unfold_batch. rewrite Hcs. cbn [List.length Nat.eqb ticks calls].
    rewrite Hfail, Hjson, Hquota. reflexivity.
  - unfold_batch. rewrite Hcs. cbn [List.length Nat.eqb ticks calls].
    rewrite Hfail, Hjson, Hquota. reflexivity.
Qed.

(** X13. When the reply cannot be decoded, [analyzeBatch] puts the error of
    [parseJSON] to the quota test like any other: if its message contains
    429, 413, quota or rate_limit_exceeded, the batch ends in the fallback
    result with [isPartial = true]; otherwise the error is thrown on with
    code GROQ_BATCH_ERROR. *)
Theorem groq_undecodable_reply (request : BatchAnalysisRequest)
    (env : Env GroqEngine.ChatRequest GroqEngine.Completion)
    (w : World GroqEngine.ChatRequest)
    (completion : GroqEngine.Completion) (syntaxError : string) :
  comments request <> [] ->
  (forall req, backend env (List.length (calls w)) req = Return completion) ->
  jsonParse (Js.orString (GroqEngine.content completion) "")
  = inr syntaxError ->
  let e := Error ("Failed to parse JSON response from Groq: " ++ syntaxError) in
  (GroqEngine.isQuotaError e = true ->
   exists r,
     fst (groqBatch request env w) = Return r
     /\ analyses r = GroqEngine.fallbackAnalyses (comments request)
     /\ isPartial r = Some true)
  /\ (GroqEngine.isQuotaError e = false ->
      fst (groqBatch request env w)
      = Throw {| ae_message :=
                   "Failed to analyze batch with Groq: "
                   ++ Js.showString (message e);
                 ae_code := "GROQ_BATCH_ERROR";
                 ae_details := e |}).
Proof.
  intros Hne Hreply Hparse. cbn zeta.
  destruct (comments request) as [| c cs] eqn:Hcs; [contradiction |].
  split; intros Hquota.
  - unfold_batch. rewrite Hcs. cbn [List.length Nat.eqb ticks calls].
    rewrite Hreply, Hparse.
    change (GroqEngine.isJsonValidateFailed
              (Error ("Failed to parse JSON response from Groq: "
                      ++ syntaxError)))
      with false.
    cbn iota. rewrite Hquota. eexists. repeat split.
  - unfold_batch. rewrite Hcs. cbn [List.length Nat.eqb ticks calls].
    rewrite Hreply, Hparse.
    change (GroqEngine.isJsonValidateFailed
              (Error ("Failed to parse JSON response from Groq: "
                      ++ syntaxError)))
      with false.
    cbn iota. rewrite Hquota. reflexivity.
Qed.

Lemma groq_weighted_bounds (s : R) (L : nat) :
  (-1 <= GroqEngine.calculateWeightedScore s L <= 1)%R.
Proof.
  unfold GroqEngine.calculateWeightedScore. cbn zeta.
  apply (clamp_bounds (s * (1 + log10 (INR L + 1)) / 7)%R).
Qed.






End GroqBatches.

(** ** The axis-aware batch: thread order and the two passes *)

Section AxisBatchSteps.
Import Types Runtime.


Lemma find_by_id (cs : list YouTubeComment) (x : YouTubeComment) :
  In x cs ->
  exists c, List.find (fun c => id c =? id x) cs = Some c
            /\ id c = id x /\ In c cs
            /\ (NoDup (List.map id cs) -> c = x).
Proof.
  induction cs as [| y cs IH]; [intros [] |].
  intros Hin. cbn [List.find].
  destruct (String.eqb_spec (id y) (id x)) as [Heq | Hne].
  - exists y.
    split; [reflexivity |]. split; [exact Heq |].
    split; [left; reflexivity |].
    intros Hnd. destruct Hin as [-> | Hin]; [reflexivity |].
    cbn [List.map] in Hnd. apply NoDup_cons in Hnd as [Hnotin _].
    exfalso. apply Hnotin. rewrite Heq.
    apply list_elem_of_In. apply (in_map id). exact Hin.
  - destruct Hin as [-> | Hin]; [contradiction |].
    destruct (IH Hin) as (c & Hfind & Hid & Hc & Huniq).
    exists c.
    split; [exact Hfind |]. split; [exact Hid |].
    split; [right; exact Hc |].
    intros Hnd. apply Huniq. cbn [List.map] in Hnd.
    apply NoDup_cons in Hnd as [_ Hnd]. exact Hnd.
Qed.

Lemma filter_map_refOf (f : StanceLogic.CommentRef -> bool)
    (cs : list YouTubeComment) :
  List.filter f (List.map StanceLogic.refOf cs)
  = List.map StanceLogic.refOf
      (List.filter (fun c => f (StanceLogic.refOf c)) cs).
Proof.
  induction cs as [| c cs IH]; [reflexivity |].
  cbn [List.map List.filter]. rewrite IH.
  destruct (f (StanceLogic.refOf c)); reflexivity.
Qed.

Lemma sortComments_eq (cs : list YouTubeComment) :
  GroqEngine.sortComments cs
  = omap (fun ordered =>
            List.find (fun c => id c =? StanceLogic.ref_id ordered) cs)
      (List.map StanceLogic.refOf (Spec.threadOrder cs)).
Proof.
  unfold GroqEngine.sortComments. rewrite sortCommentsByThreadOrder_eq.
  unfold Spec.topLevelFirst, Spec.threadOrder.
  rewrite !filter_map_refOf, map_app. reflexivity.
Qed.

Lemma omap_find_by_id (cs l : list YouTubeComment) :
  Forall (fun x => In x cs) l ->
  Forall2 (fun x c => id c = id x /\ In c cs
                      /\ (NoDup (List.map id cs) -> c = x))
    l
    (omap (fun ordered =>
             List.find (fun c => id c =? StanceLogic.ref_id ordered) cs)
       (List.map StanceLogic.refOf l)).
Proof.
  induction 1 as [| x l Hx _ IH]; [constructor |].
  cbn [List.map omap list_omap].
  destruct (find_by_id cs x Hx) as (c & Hfind & Hid & Hc & Huniq).
  cbn [StanceLogic.refOf StanceLogic.ref_id]. rewrite Hfind.
  constructor; [auto | exact IH].
Qed.

Lemma threadOrder_In (cs : list YouTubeComment) :
  Forall (fun x => In x cs) (Spec.threadOrder cs).
Proof.
  unfold Spec.threadOrder. apply Forall_forall. intros x Hx.
  apply list_elem_of_In in Hx. apply in_app_or in Hx.
  destruct Hx as [Hx | Hx]; apply filter_In in Hx; tauto.
Qed.

Lemma sortComments_Forall2 (cs : list YouTubeComment) :
  Forall2 (fun x c => id c = id x /\ In c cs
                      /\ (NoDup (List.map id cs) -> c = x))
    (Spec.threadOrder cs) (GroqEngine.sortComments cs).
Proof.
  rewrite sortComments_eq. apply omap_find_by_id. apply threadOrder_In.
Qed.

Lemma same_ids_facts (cs l l' : list YouTubeComment) :
  Forall2 (fun x c => id c = id x /\ In c cs
                      /\ (NoDup (List.map id cs) -> c = x)) l l' ->
  List.map id l' = List.map id l
  /\ Forall (fun c => In c cs) l'
  /\ (NoDup (List.map id cs) -> l' = l).
Proof.
  induction 1 as [| x c l l' (Hid & Hin & Huniq) _ (IH1 & IH2 & IH3)].
  - repeat split; constructor.
  - split; [cbn [List.map]; rewrite Hid, IH1; reflexivity |].
    split; [constructor; assumption |].
    intros Hnd. rewrite (Huniq Hnd), (IH3 Hnd). reflexivity.
Qed.

(** X15. The comments the axis-aware batch works on, [sortedComments], have
    the ids of the input in thread order (comments without a parent first,
    then replies, each group in input order); there are as many as in the
    input; each is a comment of the input; and when the ids of the input
    are distinct, they are the input comments themselves in thread order. *)
Theorem sortComments_thread_order (cs : list YouTubeComment) :
  List.map id (GroqEngine.sortComments cs)
  = List.map id (Spec.threadOrder cs)
  /\ List.length (GroqEngine.sortComments cs) = List.length cs
  /\ Forall (fun c => In c cs) (GroqEngine.sortComments cs)
  /\ (NoDup (List.map id cs) ->
      GroqEngine.sortComments cs = Spec.threadOrder cs).
Proof.
  pose proof (sortComments_Forall2 cs) as H.
  assert (Hlen : List.length (Spec.threadOrder cs) = List.length cs).
  { unfold Spec.threadOrder. symmetry. apply Permutation_length.
    apply (filter_partition_Permutation
             (fun c => Js.truthy (parentId c)) cs). }
  destruct (same_ids_facts _ _ _ H) as (Hids & Hin & Huniq).
  split; [exact Hids |]. split; [| split; [exact Hin | exact Huniq]].
  rewrite <- Hlen. symmetry. eapply Forall2_length. exact H.
Qed.

Lemma findAxisItem_Some items c item :
  GroqEngine.findAxisItem items c = Some item ->
  GroqEngine.ax_commentId item = Some (id c).
Proof.
  unfold GroqEngine.findAxisItem. intros H.
  apply find_some in H as [_ H]. apply bool_decide_eq_true in H. exact H.
Qed.

Lemma toAxisAnalysis_facts recovering items c :
  let a := GroqEngine.toAxisAnalysis recovering items c in
  commentId a = id c /\ is_Some (label a) /\ Spec.withinBounds a.
Proof.
  cbn zeta. unfold GroqEngine.toAxisAnalysis, Spec.withinBounds.
  destruct (GroqEngine.findAxisItem items c) as [item |] eqn:Hfind.
  - cbn [commentId label score weightedScore].
    rewrite (findAxisItem_Some _ _ _ Hfind).
    split; [reflexivity |]. split; [eauto |]. split.
    + apply (clamp_bounds _).
    + apply groq_weighted_bounds.
  - destruct recovering; cbn; (split; [reflexivity |]);
      (split; [eauto |]); split; lra.
Qed.

Lemma synthesizeOne_facts am cm (a : SentimentAnalysis) :
  is_Some (label a) -> (-1 <= score a <= 1)%R ->
  let a' := StanceLogic.synthesizeOne am cm a in
  commentId a' = commentId a
  /\ is_Some (label a')
  /\ (-1 <= score a' <= 1)%R
  /\ weightedScore a' = weightedScore a.
Proof.
  intros Hlabel Hscore. cbn zeta.
  destruct (synthesizeOne_keptOrSynthesized am cm a)
    as [-> | (l & Hl & _ & Hb & _)].
  - auto.
  - split; [apply synthesizeOne_commentId |].
    split; [rewrite Hl; eauto |]. split; [exact Hb |].
    unfold StanceLogic.synthesizeOne.
    repeat (case_match; try reflexivity).
Qed.

Lemma reweigh_facts (sorted : list YouTubeComment) (a : SentimentAnalysis)
    (c : YouTubeComment) :
  In c sorted -> id c = commentId a ->
  let a' := GroqEngine.reweigh sorted a in
  commentId a' = commentId a
  /\ label a' = label a
  /\ score a' = score a
  /\ exists c', In c' sorted /\ id c' = commentId a
                /\ weightedScore a'
                   = GroqEngine.calculateWeightedScore (score a)
                       (likeCount c').
Proof.
  intros Hin Hid. cbn zeta. unfold GroqEngine.reweigh.
  destruct (List.find (fun c0 => id c0 =? commentId a) sorted)
    as [c' |] eqn:Hfind.
  - apply find_some in Hfind as [Hin' Heq]. apply String.eqb_eq in Heq.
    cbn. repeat split. exists c'. auto.
  - exfalso. apply (find_none _ _ Hfind) in Hin.
    rewrite Hid, String.eqb_refl in Hin. discriminate Hin.
Qed.

End AxisBatchSteps.

Section AxisBatch.
Import Types Runtime.

Variables (DEFAULT_MODEL AXIS_SYSTEM_PROMPT : string).
Variable createAxisBatchPrompt :
  list YouTubeComment -> AxisProfile -> option VideoContext -> string.
Variable jsonParseAxis :
  string -> GroqEngine.Parsed GroqEngine.AxisGroqResponse + string.

Local Abbreviation groqAxisBatch :=
  (GroqEngine.analyzeAxisBatch DEFAULT_MODEL AXIS_SYSTEM_PROMPT
     createAxisBatchPrompt jsonParseAxis).

(** X16. When the backend answers and its reply decodes, the axis-aware
    batch returns one judgment per input comment, in thread order (not in
    the order of the input): the ids of the judgments are the ids of
    [sortedComments]. After the two passes every judgment has a label, a
    score and a weighted score between -1 and 1, and a weighted score that
    is recomputed from its final score and the likes of a comment of the
    batch with its id; [isPartial] is not set. *)
Theorem groq_analyzeAxisBatch_thread_order (request : BatchAnalysisRequest)
    (axisProfile : AxisProfile)
    (env : Env GroqEngine.ChatRequest GroqEngine.Completion)
    (w : World GroqEngine.ChatRequest)
    (completion : GroqEngine.Completion)
    (parsed : GroqEngine.Parsed GroqEngine.AxisGroqResponse)
    (items : list GroqEngine.AxisGroqResponse) :
  comments request <> [] ->
  (forall req, backend env (List.length (calls w)) req = Return completion) ->
  jsonParseAxis (Js.orString (GroqEngine.content completion) "")
  = inl parsed ->
  GroqEngine.arrayOf "comments" parsed (fun a r c => (c, a, r))
  = Return items ->
  exists r w',
    groqAxisBatch request axisProfile env w = (Return r, w')
    /\ List.map commentId (analyses r)
       = List.map id (Spec.threadOrder (comments request))
    /\ Forall (Spec.axisJudgment (comments request)) (analyses r)
    /\ isPartial r = None.
Proof.
  intros Hne Hreply Hparse Hitems.
  assert (Hlen : (List.length (comments request) =? 0)%nat = false)
    by (destruct (comments request); [contradiction | reflexivity]).
  unfold GroqEngine.analyzeAxisBatch, GroqEngine.parseAxisJSON,
    GroqEngine.parseWith, bind, tryCatch, dateNow, callBackend, lift, ret.
  rewrite Hlen. cbn [ticks calls].
  rewrite Hreply, Hparse, Hitems.
  eexists _, _. split; [reflexivity |]. cbn [analyses isPartial].
  destruct (same_ids_facts _ _ _ (sortComments_Forall2 (comments request)))
    as (Hids & Hin & _).
  set (sorted := GroqEngine.sortComments (comments request)) in *.
  unfold StanceLogic.applyStanceSynthesis.
  set (am := Js.mapOfList commentId _).
  set (cm := Js.mapOfList StanceLogic.ref_id _).
  rewrite !map_map.
  assert (Hall : Forall (fun c =>
                   let a := GroqEngine.reweigh sorted
                              (StanceLogic.synthesizeOne am cm
                                 (GroqEngine.toAxisAnalysis false items c)) in
                   commentId a = id c
                   /\ Spec.axisJudgment (comments request) a) sorted).
  { apply Forall_forall. intros c Hc. apply list_elem_of_In in Hc. cbn zeta.
    destruct (toAxisAnalysis_facts false items c) as (Hid & Hlabel & Hb).
    cbn zeta in Hid, Hlabel, Hb. destruct Hb as [Hscore Hweighted].
    destruct (synthesizeOne_facts am cm _ Hlabel Hscore)
      as (Hid' & Hlabel' & Hscore' & _).
    cbn zeta in Hid', Hlabel', Hscore'.
    destruct (reweigh_facts sorted
                (StanceLogic.synthesizeOne am cm
                   (GroqEngine.toAxisAnalysis false items c)) c Hc)
      as (Hid'' & Hlabel'' & Hscore'' & c' & Hc' & Hidc' & Hw);
      [congruence |].
    cbn zeta in Hid'', Hlabel'', Hscore'', Hw.
    split; [congruence |].
    unfold Spec.axisJudgment, Spec.withinBounds.
    split; [rewrite Hlabel''; exact Hlabel' |]. split.
    - split; [rewrite Hscore''; exact Hscore' |].
      rewrite Hw. apply groq_weighted_bounds.
    - exists c'.
      split; [| split; [rewrite Hid''; exact Hidc'
                       | rewrite Hscore''; exact Hw]].
      rewrite Forall_forall in Hin. apply Hin.
      apply list_elem_of_In. exact Hc'. }
  split; [| split; [| reflexivity]].
  - rewrite <- Hids. apply map_ext_Forall.
    eapply List.Forall_impl; [| exact Hall]. intros c [Hid _]. exact Hid.
  - apply List.Forall_map.
    eapply List.Forall_impl; [| exact Hall]. intros c [_ Hj]. exact Hj.
Qed.

End AxisBatch.

(** ** The Groq batch methods at concrete inputs *)

Section GroqBatchExamples.
Import Types Runtime.

Lemma groq_batch_issues_one_request_example :
  calls (snd (GroqEngine.analyzeBatch "llama" "system" Examples.batchPrompt
                Examples.groqDecode Examples.twoComments Examples.groqEnv
                Examples.freshWorld))
  = [ {| GroqEngine.system := "system";
         GroqEngine.user := "analyze: c1, c2";
         GroqEngine.model := "llama";
         GroqEngine.json_object := true |} ]
  /\ calls (snd (GroqEngine.analyzeAxisBatch "llama" "axis system"
                   Examples.axisBatchPrompt Examples.noDecode
                   Examples.replyFirst Examples.axisProfile
                   Examples.quotaEnv Examples.freshWorld))
     = [ {| GroqEngine.system := "axis system";
            GroqEngine.user := "analyze on axis: c1, c2";
            GroqEngine.model := "llama";
            GroqEngine.json_object := true |} ].
Proof.
  split.
  - apply (proj1 (groq_batch_issues_one_request "llama" "system" "axis system"
                    Examples.batchPrompt Examples.axisBatchPrompt
                    Examples.groqDecode Examples.noDecode
                    Examples.twoComments Examples.axisProfile
                    Examples.groqEnv Examples.freshWorld
                    ltac:(discriminate))).
  - apply (proj2 (groq_batch_issues_one_request "llama" "system" "axis system"
                    Examples.batchPrompt Examples.axisBatchPrompt
                    Examples.groqDecode Examples.noDecode
                    Examples.replyFirst Examples.axisProfile
                    Examples.quotaEnv Examples.freshWorld
                    ltac:(discriminate))).
Defined.

Lemma groq_batch_error_is_wrapped_example :
  fst (GroqEngine.analyzeBatch "llama" "system" Examples.batchPrompt
         Examples.noDecode Examples.twoComments Examples.serverErrorEnv
         Examples.freshWorld)
  = Throw {| ae_message :=
               "Failed to analyze batch with Groq: 500 Internal Server Error";
             ae_code := "GROQ_BATCH_ERROR";
             ae_details := Examples.serverError |}
  /\ fst (GroqEngine.analyzeAxisBatch "llama" "axis system"
            Examples.axisBatchPrompt Examples.noDecode Examples.twoComments
            Examples.axisProfile Examples.serverErrorEnv Examples.freshWorld)
     = Throw {| ae_message :=
                  "Failed to analyze axis batch with Groq: 500 Internal Server Error";
                ae_code := "GROQ_AXIS_BATCH_ERROR";
                ae_details := Examples.serverError |}.
Proof.
  apply (groq_batch_error_is_wrapped "llama" "system" "axis system"
           Examples.batchPrompt Examples.axisBatchPrompt Examples.noDecode
           Examples.noDecode Examples.twoComments Examples.axisProfile
           Examples.serverErrorEnv Examples.freshWorld Examples.serverError).
  - discriminate.
  - reflexivity.
  - reflexivity.
  - reflexivity.
Defined.

(** A reply that is prose about quota: the decoder's message quotes it, the
    quota test finds the word, and the batch ends in the fallback result. *)
Lemma groq_undecodable_reply_example :
  exists r,
    fst (GroqEngine.analyzeBatch "llama" "system" Examples.batchPrompt
           Examples.quotingDecode Examples.twoComments Examples.chattyEnv
           Examples.freshWorld)
    = Return r
    /\ analyses r
       = GroqEngine.fallbackAnalyses (comments Examples.twoComments)
    /\ isPartial r = Some true.
Proof.
  apply (proj1 (groq_undecodable_reply "llama" "system" Examples.batchPrompt
                  Examples.quotingDecode Examples.twoComments
                  Examples.chattyEnv Examples.freshWorld
                  {| GroqEngine.content := Some "Sorry, I am over my quota today";
                     GroqEngine.total_tokens := Some 12 |}
                  "Unexpected token in: Sorry, I am over my quota today"
                  ltac:(discriminate) ltac:(reflexivity) ltac:(reflexivity))).
  reflexivity.
Defined.


Lemma groq_analyzeBatch_one_judgment_per_comment_example :
  exists r w',
    GroqEngine.analyzeBatch "llama" "system" Examples.batchPrompt
      Examples.groqDecode Examples.twoComments Examples.groqEnv
      Examples.freshWorld
    = (Return r, w')
    /\ Forall2 (Spec.judgedFrom [Examples.groqItem])
         (comments Examples.twoComments) (analyses r)
    /\ List.length (analyses r)
       = List.length (comments Examples.twoComments).
Proof.
  apply (groq_analyzeBatch_one_judgment_per_comment "llama" "system"
           Examples.batchPrompt Examples.groqDecode Examples.twoComments
           Examples.groqEnv Examples.freshWorld
           {| GroqEngine.content := Some Examples.geminiReplyText;
              GroqEngine.total_tokens := Some 120 |}
           (GroqEngine.PArray [Examples.groqItem]) [Examples.groqItem]).
  - discriminate.
  - reflexivity.
  - reflexivity.
  - reflexivity.
Defined.

Lemma groq_analyzeAxisBatch_thread_order_example :
  exists r w',
    GroqEngine.analyzeAxisBatch "llama" "axis system"
      Examples.axisBatchPrompt Examples.axisDecode Examples.replyFirst
      Examples.axisProfile Examples.groqEnv Examples.freshWorld
    = (Return r, w')
    /\ List.map commentId (analyses r)
       = List.map id (Spec.threadOrder (comments Examples.replyFirst))
    /\ Forall (Spec.axisJudgment (comments Examples.replyFirst)) (analyses r)
    /\ isPartial r = None.
Proof.
  apply (groq_analyzeAxisBatch_thread_order "llama" "axis system"
           Examples.axisBatchPrompt Examples.axisDecode Examples.replyFirst
           Examples.axisProfile Examples.groqEnv Examples.freshWorld
           {| GroqEngine.content := Some Examples.geminiReplyText;
              GroqEngine.total_tokens := Some 120 |}
           (GroqEngine.PObject GroqEngine.Missing GroqEngine.Missing
              (GroqEngine.Array Examples.axisItems)
              (Examples.axisItem None None None))
           Examples.axisItems).
  - discriminate.
  - reflexivity.
  - reflexivity.
  - reflexivity.
Defined.

End GroqBatchExamples.

(** ** The Gemini engine: results and failures *)

Section GeminiResults.
Import Types Runtime.



Section Engine.
Variable createBatchPrompt :
  list YouTubeComment -> option VideoContext -> string.
Variable jsonParse :
  string -> option (list GeminiEngine.GeminiResponse) + string.
Variable createSingleCommentPrompt : YouTubeComment -> string.
Variable jsonParseOne : string -> option GeminiEngine.GeminiResponse + string.

Local Abbreviation geminiBatch :=
  (GeminiEngine.analyzeBatch createBatchPrompt jsonParse).
Local Abbreviation geminiComment :=
  (GeminiEngine.analyzeComment createSingleCommentPrompt jsonParseOne).

Ltac unfold_gemini :=
  unfold GeminiEngine.analyzeBatch, GeminiEngine.analyzeComment,
    GeminiEngine.parseJSON, GeminiEngine.parseJSONOne,
    bind, tryCatch, dateNow, callBackend, lift, ret, throw.


(** A failure of the backend on a non-empty batch, a quota error included,
    is not recovered by the Gemini engine: [analyzeBatch] throws an
    [AnalysisError] with the code GEMINI_BATCH_ERROR that wraps the
    backend's error and repeats its message. *)
Theorem gemini_backend_error_is_thrown (request : BatchAnalysisRequest)
    (env : Env string string) (w : World string) (e : JsError) :
  comments request <> [] ->
  (forall prompt, backend env (List.length (calls w)) prompt = Throw e) ->
  fst (geminiBatch request env w)
  = Throw {| ae_message :=
               "Failed to analyze batch: "
               ++ (if instanceOfError e then Js.showString (message e)
                   else "Unknown error");
             ae_code := "GEMINI_BATCH_ERROR";
             ae_details := e |}.
Proof.
  clear createSingleCommentPrompt jsonParseOne.
  intros Hne Hfail. unfold_gemini.
  destruct (comments request) as [| c cs]; [contradiction |].
  cbn [List.length Nat.eqb ticks calls]. rewrite Hfail. reflexivity.
Qed.


End Engine.

End GeminiResults.

(** ** The [/api/analyze] route: merging, batching, failures *)

Section RouteBatching.
Import Types Runtime.

Lemma zip_with_take_length {A B C} (f : A -> B -> C) (l : list A)
    (k : list B) :
  zip_with f l (take (List.length l) k) = zip_with f l k.
Proof.
  revert k. induction l as [| x l IH]; intros [| y k]; cbn; try reflexivity.
  rewrite IH. reflexivity.
Qed.

Lemma merge_fold (batch : list YouTubeComment)
    (analyses : list SentimentAnalysis) (acc : list Route.AnalyzedComment)
    (n : nat) :
  (n <= List.length batch)%nat ->
  fold_left
    (fun acc j =>
       match acc with
       | Return analyzedComments =>
         match Route.mergeAt batch analyses j with
         | Some (comment, analysis) =>
           Return (analyzedComments ++ [Route.analyzed comment analysis])%list
         | None =>
           Throw (Error "Cannot read properties of undefined (reading 'score')")
         end
       | Throw e => Throw e
       end)
    (seq 0 n) (Return acc)
  = if (n <=? List.length analyses)%nat
    then Return (acc ++ zip_with Route.analyzed (take n batch)
                          (take n analyses))%list
    else Throw (Error "Cannot read properties of undefined (reading 'score')").
Proof.
  induction n as [| n IH]; intros Hn.
  - cbn. rewrite app_nil_r. reflexivity.
  - rewrite seq_S, fold_left_app, IH by lia. cbn [fold_left Nat.add].
    destruct (lookup_lt_is_Some_2 batch n ltac:(lia)) as [c Hc].
    destruct (Nat.leb_spec n (List.length analyses)) as [Hle | Hgt].
    + unfold Route.mergeAt. rewrite Hc.
      destruct (Nat.leb_spec (S n) (List.length analyses)) as [Hle' | Hgt'].
      * destruct (lookup_lt_is_Some_2 analyses n ltac:(lia)) as [a Ha].
        rewrite Ha.
        rewrite (take_S_r batch n c Hc), (take_S_r analyses n a Ha).
        rewrite zip_with_app
          by (rewrite !length_take; lia).
        rewrite <- app_assoc. reflexivity.
      * rewrite (lookup_ge_None_2 analyses n) by lia. reflexivity.
    + destruct (Nat.leb_spec (S n) (List.length analyses)); [lia |].
      reflexivity.
Qed.

Lemma mergeBatch_eq (batch : list YouTubeComment)
    (analyses : list SentimentAnalysis) (acc : list Route.AnalyzedComment) :
  Route.mergeBatch batch analyses acc
  = if (List.length batch <=? List.length analyses)%nat
    then Return (acc ++ zip_with Route.analyzed batch analyses)%list
    else Throw (Error "Cannot read properties of undefined (reading 'score')").
Proof.
  unfold Route.mergeBatch. rewrite merge_fold by lia.
  rewrite firstn_all, zip_with_take_length. reflexivity.
Qed.

(** X19. The merge of a batch goes by index: when the engine returned at least
    as many judgments as the batch has comments, comment [j] is paired with
    judgment [j], whatever the judgment's [commentId], and the surplus is
    ignored; when it returned fewer, the merge throws a [TypeError]. *)
Theorem mergeBatch_by_index (batch : list YouTubeComment)
    (analyses : list SentimentAnalysis)
    (analyzedComments : list Route.AnalyzedComment) :
  Route.mergeBatch batch analyses analyzedComments
  = if (List.length batch <=? List.length analyses)%nat
    then Return (analyzedComments
                 ++ zip_with Route.analyzed batch analyses)%list
    else Throw (Error "Cannot read properties of undefined (reading 'score')").
Proof.
  unfold Route.mergeBatch. rewrite merge_fold by lia.
  rewrite firstn_all, zip_with_take_length. reflexivity.
Qed.

Lemma map_ac_comment_zip (batch : list YouTubeComment)
    (analyses : list SentimentAnalysis) :
  (List.length batch <= List.length analyses)%nat ->
  List.map Route.ac_comment (zip_with Route.analyzed batch analyses) = batch.
Proof.
  revert analyses. induction batch as [| c batch IH]; intros [| a analyses];
    cbn; intros H; try reflexivity; try lia.
  rewrite IH by lia. reflexivity.
Qed.

Section Loop.
Context {Req Resp : Type}.
Variable analyzeBatch :
  BatchAnalysisRequest ->
  M Req Resp (AnalysisError JsError) BatchAnalysisResponse.
Variable batchSize : nat.
Variable context : option VideoContext.

Local Abbreviation analyzeFrom :=
  (Route.analyzeFrom analyzeBatch batchSize context).
Local Abbreviation analyzeAll :=
  (Route.analyzeAll analyzeBatch batchSize context).

Lemma analyzeFrom_step (fuel i : nat) (comments : list YouTubeComment)
    (acc : list Route.AnalyzedComment) (env : Env Req Resp) (w : World Req) :
  (i < List.length comments)%nat ->
  analyzeFrom (S fuel) i comments acc env w
  = match analyzeBatch
            {| comments := take batchSize (drop i comments);
               videoContext := context |} env w with
    | (Return result, w') =>
      if (List.length (take batchSize (drop i comments))
          <=? List.length (analyses result))%nat
      then analyzeFrom fuel (i + batchSize) comments
             (acc ++ zip_with Route.analyzed
                       (take batchSize (drop i comments))
                       (analyses result))%list env w'
      else (Throw (Route.TypeError
                     (Error "Cannot read properties of undefined (reading 'score')")),
            w')
    | (Throw e, w') => (Throw (Route.EngineError e), w')
    end.
Proof.
  intros Hi. cbn [Route.analyzeFrom].
  apply Nat.ltb_lt in Hi. rewrite Hi.
  unfold bind, tryCatch, throw.
  destruct (analyzeBatch _ env w) as [[result | e] w']; [| reflexivity].
  rewrite mergeBatch_eq.
  destruct (_ <=? _)%nat; reflexivity.
Qed.

Lemma analyzeFrom_done (fuel i : nat) (comments : list YouTubeComment)
    (acc : list Route.AnalyzedComment) (env : Env Req Resp) (w : World Req) :
  (List.length comments <= i)%nat ->
  analyzeFrom (S fuel) i comments acc env w = (Return (Some acc), w).
Proof.
  intros Hi. cbn [Route.analyzeFrom].
  apply Nat.ltb_ge in Hi. rewrite Hi. reflexivity.
Qed.

Lemma analyzeFrom_sound (fuel : nat) :
  forall (i : nat) (comments : list YouTubeComment)
         (acc out : list Route.AnalyzedComment)
         (env : Env Req Resp) (w w' : World Req),
    analyzeFrom fuel i comments acc env w = (Return (Some out), w') ->
    exists more,
      out = (acc ++ more)%list
      /\ List.map Route.ac_comment more = drop i comments.
Proof.
  induction fuel as [| fuel IH]; intros i comments acc out env w w' Hrun;
    [discriminate Hrun |].
  destruct (Nat.lt_ge_cases i (List.length comments)) as [Hi | Hi].
  - rewrite analyzeFrom_step in Hrun by exact Hi.
    destruct (analyzeBatch _ env w) as [[result | e] w1];
      [| discriminate Hrun].
    destruct (Nat.leb_spec
                (List.length (take batchSize (drop i comments)))
                (List.length (analyses result))) as [Hle | Hgt];
      [| discriminate Hrun].
    destruct (IH _ _ _ _ _ _ _ Hrun) as (more & -> & Hmore).
    eexists. split; [rewrite <- app_assoc; reflexivity |].
    rewrite map_app, map_ac_comment_zip by exact Hle.
    rewrite Hmore, <- drop_drop. apply take_drop.
  - rewrite analyzeFrom_done in Hrun by exact Hi.
    injection Hrun as <- <-. exists []. split; [symmetry; apply app_nil_r |].
    symmetry. apply drop_ge. exact Hi.
Qed.

(** X20. When the batching loop of the route runs to its end, it has analyzed
    every comment exactly once: the analyzed comments are the input
    comments, in the input order, whatever the batch size and whatever the
    engine returned. *)
Theorem analyzeAll_covers_every_comment (fuel : nat)
    (comments : list YouTubeComment) (out : list Route.AnalyzedComment)
    (env : Env Req Resp) (w w' : World Req) :
  analyzeAll fuel comments env w = (Return (Some out), w') ->
  List.map Route.ac_comment out = comments.
Proof.
  intros Hrun. apply analyzeFrom_sound in Hrun as (more & -> & Hmore).
  exact Hmore.
Qed.

Lemma analyzeFrom_terminates (fuel : nat) :
  forall (i : nat) (comments : list YouTubeComment)
         (acc : list Route.AnalyzedComment)
         (env : Env Req Resp) (w : World Req),
    (0 < batchSize)%nat ->
    (List.length comments - i < fuel)%nat ->
    fst (analyzeFrom fuel i comments acc env w) <> Return None.
Proof.
  induction fuel as [| fuel IH]; intros i comments acc env w Hsize Hfuel;
    [lia |].
  destruct (Nat.lt_ge_cases i (List.length comments)) as [Hi | Hi].
  - rewrite analyzeFrom_step by exact Hi.
    destruct (analyzeBatch _ env w) as [[result | e] w1];
      [| discriminate].
    destruct (_ <=? _)%nat; [| discriminate].
    apply IH; [exact Hsize | lia].
  - rewrite analyzeFrom_done by exact Hi. discriminate.
Qed.

(** X21. With a positive batch size the loop ends: given more fuel than there
    are comments it does not run out of fuel, so it returns the analyzed
    comments or throws. *)
Theorem analyzeAll_terminates (fuel : nat) (comments : list YouTubeComment)
    (env : Env Req Resp) (w : World Req) :
  (0 < batchSize)%nat ->
  (List.length comments < fuel)%nat ->
  fst (analyzeAll fuel comments env w) <> Return None.
Proof.
  intros Hsize Hfuel. apply analyzeFrom_terminates; [exact Hsize | lia].
Qed.

End Loop.

(** X22. With a batch size of 0 the loop never ends on a non-empty list of
    comments, provided the engine returns on an empty batch (as both
    engines do): every iteration sends the empty batch and stays at index
    0, so any amount of fuel runs out. *)
Theorem analyzeAll_batchSize_zero_diverges {Req Resp : Type}
    (analyzeBatch :
       BatchAnalysisRequest ->
       M Req Resp (AnalysisError JsError) BatchAnalysisResponse)
    (context : option VideoContext) (comments : list YouTubeComment) :
  comments <> [] ->
  (forall env w, exists r w',
      analyzeBatch {| comments := []; videoContext := context |} env w
      = (Return r, w')) ->
  forall fuel env w,
    fst (Route.analyzeAll analyzeBatch 0 context fuel comments env w)
    = Return None.
Proof.
  intros Hne Hempty fuel. unfold Route.analyzeAll.
  generalize (@nil Route.AnalyzedComment) as acc.
  induction fuel as [| fuel IH]; intros acc env w; [reflexivity |].
  rewrite analyzeFrom_step
    by (destruct comments; [contradiction | cbn; lia]).
  rewrite take_0. destruct (Hempty env w) as (r & w' & ->).
  cbn [List.length Nat.leb zip_with Nat.add]. rewrite app_nil_r.
  apply IH.
Qed.

End RouteBatching.

(** ** The route over the Gemini engine *)

Section RouteOverGemini.
Import Types Runtime.

Variable createBatchPrompt :
  list YouTubeComment -> option VideoContext -> string.
Variable jsonParse :
  string -> option (list GeminiEngine.GeminiResponse) + string.
Variable batchSize : nat.
Variable context : option VideoContext.

Local Abbreviation analyzeAll :=
  (Route.analyzeAll (GeminiEngine.analyzeBatch createBatchPrompt jsonParse)
     batchSize context).

Lemma first_batch (comments : list YouTubeComment) :
  comments <> [] -> (0 < batchSize)%nat ->
  (List.length (take batchSize (drop 0 comments)) =? 0)%nat = false.
Proof.
  intros Hne Hsize. destruct comments as [| c cs]; [contradiction |].
  destruct batchSize; [lia | reflexivity].
Qed.

(** X23. When the backend fails on the first batch, the loop of the route throws
    the engine's error, and the [catch] clause answers with status 500 and
    the message of that error. *)
Theorem route_answers_500_on_backend_error (fuel : nat)
    (comments : list YouTubeComment) (env : Env string string)
    (w : World string) (e : JsError) :
  comments <> [] ->
  (0 < batchSize)%nat ->
  (forall prompt, backend env (List.length (calls w)) prompt = Throw e) ->
  exists thrown,
    fst (analyzeAll (S fuel) comments env w) = Throw thrown
    /\ Route.errorResponse thrown
       = {| Route.er_error :=
              "Failed to analyze batch: "
              ++ (if instanceOfError e then Js.showString (message e)
                  else "Unknown error");
            Route.er_status := 500 |}.
Proof.
  intros Hne Hsize Hfail.
  unfold Route.analyzeAll.
  rewrite analyzeFrom_step
    by (destruct comments; [contradiction | cbn; lia]).
  unfold GeminiEngine.analyzeBatch, bind, tryCatch, dateNow, callBackend,
    throw.
  cbn [Types.comments Types.videoContext].
  rewrite (first_batch comments Hne Hsize).
  cbn [ticks calls]. rewrite Hfail.
  eexists. split; reflexivity.
Qed.

(** X24. When the reply to the first batch decodes to fewer items than the batch
    has comments, the Gemini engine returns fewer judgments than comments
    and the route fails as a whole: the merge by index throws, and the
    answer is status 500 with the text for unexpected errors. *)
Theorem route_answers_500_on_short_reply (fuel : nat)
    (comments : list YouTubeComment) (env : Env string string)
    (w : World string) (text : string)
    (items : list GeminiEngine.GeminiResponse) :
  comments <> [] ->
  (0 < batchSize)%nat ->
  (forall prompt, backend env (List.length (calls w)) prompt = Return text) ->
  jsonParse text = inl (Some items) ->
  (List.length items < List.length (take batchSize comments))%nat ->
  exists thrown,
    fst (analyzeAll (S fuel) comments env w) = Throw thrown
    /\ Route.errorResponse thrown
       = {| Route.er_error := "An unexpected error occurred";
            Route.er_status := 500 |}.
Proof.
  intros Hne Hsize Hreply Hparse Hshort.
  unfold Route.analyzeAll.
  rewrite analyzeFrom_step
    by (destruct comments; [contradiction | cbn; lia]).
  unfold GeminiEngine.analyzeBatch, GeminiEngine.parseJSON, bind, tryCatch,
    dateNow, callBackend, lift, ret, throw.
  cbn [Types.comments Types.videoContext].
  rewrite (first_batch comments Hne Hsize).
  cbn [ticks calls]. rewrite Hreply, Hparse.
  cbn [analyses]. rewrite length_map, drop_0.
  destruct (Nat.leb_spec (List.length (take batchSize comments))
              (List.length items)); [lia |].
  eexists. split; reflexivity.
Qed.

End RouteOverGemini.

(** ** The sentiment distribution *)

Section Distribution.
Import Types.

Lemma one_of_three (c : Route.AnalyzedComment) :
  (Nat.b2n (Route.isPositive c) + Nat.b2n (Route.isNeutral c)
   + Nat.b2n (Route.isNegative c) = 1)%nat.
Proof.
  unfold Route.isPositive, Route.isNeutral, Route.isNegative.
  destruct (Rgt_dec _ _), (Rge_dec _ _), (Rle_dec _ _), (Rlt_dec _ _);
    cbn; try reflexivity; exfalso; lra.
Qed.

Lemma length_filter_b2n {A} (f : A -> bool) (l : list A) :
  List.length (List.filter f l)
  = fold_right (fun x n => (Nat.b2n (f x) + n)%nat) 0%nat l.
Proof.
  induction l as [| x l IH]; [reflexivity |].
  cbn [List.filter fold_right]. destruct (f x); cbn; rewrite IH; reflexivity.
Qed.

(** X25. The three classes of the distribution partition the analyzed comments:
    every comment is positive (sentiment above 0.2), neutral (from -0.2 to
    0.2) or negative (below -0.2) and in one class only, so the three
    counts add up to the total. *)
Theorem distribution_partitions (analyzedComments : list Route.AnalyzedComment) :
  let d := Route.distributionOf analyzedComments in
  (Route.positive d + Route.neutral d + Route.negative d = Route.total d)%nat
  /\ Route.total d = List.length analyzedComments.
Proof.
  cbn zeta. unfold Route.distributionOf.
  cbn [Route.positive Route.neutral Route.negative Route.total].
  split; [| reflexivity].
  rewrite !length_filter_b2n.
  induction analyzedComments as [| c l IH]; [reflexivity |].
  cbn [fold_right List.length]. pose proof (one_of_three c). lia.
Qed.

End Distribution.

(** ** The timeline *)

Section Timeline.
Import Types.
Local Open Scope R_scope.

Lemma ceil_le_iff (x : R) (k : Z) : (ceil x <= k)%Z <-> x <= IZR k.
Proof.
  unfold ceil. destruct (base_Int_part (- x)) as [Hlo Hhi].
  set (m := Int_part (- x)) in *. split; intros H.
  - apply IZR_le in H. rewrite opp_IZR in H. lra.
  - assert (Hlt : IZR (- m - 1) < IZR k)
      by (rewrite minus_IZR, opp_IZR; lra).
    apply lt_IZR in Hlt. lia.
Qed.

Lemma hoursBetween_pos (a b : Z) :
  (b < a)%Z <-> 0 < Route.hoursBetween a b.
Proof.
  unfold Route.hoursBetween. split; intros H.
  - apply Rdiv_lt_0_compat; [| lra]. apply IZR_lt. lia.
  - destruct (Z_lt_le_dec b a) as [Hlt | Hle]; [exact Hlt | exfalso].
    assert (IZR (a - b) <= 0) by (apply IZR_le; lia).
    assert (0 < / (1000 * 60 * 60)) by (apply Rinv_0_lt_compat; lra).
    unfold Rdiv in H. nra.
Qed.

Variable getTime : string -> Z.

Local Abbreviation generateTimeline := (Route.generateTimeline getTime).

Lemma generateTimeline_length (comments : list Route.AnalyzedComment)
    (videoPublishedAt : string) (now : Z) :
  List.length (generateTimeline comments videoPublishedAt now)
  = Z.to_nat
      (Z.min 9
         (ceil (Route.hoursBetween now (getTime videoPublishedAt) / 6))).
Proof.
  unfold Route.generateTimeline. cbn zeta.
  rewrite length_map, length_seq. reflexivity.
Qed.

(** X26. The timeline has at most 9 points; it is empty exactly when the video
    is not older than the current time, and it has 9 points exactly when
    the video is more than 48 hours old. *)
Theorem generateTimeline_at_most_nine
    (comments : list Route.AnalyzedComment) (videoPublishedAt : string)
    (now : Z) :
  let n := List.length (generateTimeline comments videoPublishedAt now) in
  (n <= 9)%nat
  /\ (n = 0%nat <-> (now <= getTime videoPublishedAt)%Z)
  /\ (n = 9%nat
      <-> (48 * (1000 * 60 * 60) < now - getTime videoPublishedAt)%Z).
Proof.
  cbn zeta. rewrite generateTimeline_length.
  set (h := Route.hoursBetween now (getTime videoPublishedAt)).
  pose proof (ceil_le_iff (h / 6) 0) as H0.
  pose proof (ceil_le_iff (h / 6) 8) as H8.
  pose proof (hoursBetween_pos now (getTime videoPublishedAt)) as Hpos.
  fold h in Hpos.
  assert (H48 : h / 6 <= 8
                <-> (now - getTime videoPublishedAt
                     <= 48 * (1000 * 60 * 60))%Z).
  { assert (Hd : IZR (now - getTime videoPublishedAt)
                 = h * (1000 * 60 * 60))
      by (unfold h, Route.hoursBetween; field).
    split; intros H.
    - apply le_IZR. rewrite !mult_IZR, Hd. lra.
    - apply IZR_le in H. rewrite !mult_IZR, Hd in H. lra. }
  split; [lia |]. split.
  - split; intros H.
    + assert (ceil (h / 6) <= 0)%Z as Hc by lia.
      apply H0 in Hc.
      destruct (Z_lt_le_dec (getTime videoPublishedAt) now) as [Hlt | Hle];
        [| exact Hle].
      apply Hpos in Hlt. lra.
    + assert (h / 6 <= 0) as Hc.
      { assert (~ 0 < h) by (intros Hh; apply Hpos in Hh; lia). lra. }
      apply H0 in Hc. lia.
  - split; intros H.
    + assert (~ (ceil (h / 6) <= 8)%Z) as Hc by lia.
      rewrite H8, H48 in Hc. lia.
    + assert (~ (ceil (h / 6) <= 8)%Z) as Hc by (rewrite H8, H48; lia).
      lia.
Qed.

Lemma length_filter_le {A} (p q : A -> bool) (l : list A) :
  (forall x, p x = true -> q x = true) ->
  (List.length (List.filter p l) <= List.length (List.filter q l))%nat.
Proof.
  intros Hpq. induction l as [| x l IH]; [reflexivity |].
  cbn [List.filter]. destruct (p x) eqn:Hp.
  - rewrite (Hpq x Hp). cbn. lia.
  - destruct (q x); cbn; lia.
Qed.

Lemma sorted_map_seq (g : nat -> nat) (a n : nat) :
  (forall i j, (i <= j)%nat -> (g i <= g j)%nat) ->
  StronglySorted le (List.map g (seq a n)).
Proof.
  intros Hg. revert a. induction n as [| n IH]; intros a; [constructor |].
  cbn [seq List.map]. constructor; [apply IH |].
  apply List.Forall_map. apply List.Forall_forall. intros j Hj.
  apply in_seq in Hj. apply Hg. lia.
Qed.

Lemma generateTimeline_at_most_nine_aux
    (comments : list Route.AnalyzedComment) (videoPublishedAt : string)
    (now : Z) :
  generateTimeline comments videoPublishedAt now = []
  \/ 0 <= Route.hoursBetween now (getTime videoPublishedAt)
          / IZR (Z.min 9
                   (ceil (Route.hoursBetween now (getTime videoPublishedAt)
                          / 6))).
Proof.
  set (h := Route.hoursBetween now (getTime videoPublishedAt)).
  destruct (Z_lt_le_dec 0 (Z.min 9 (ceil (h / 6)))) as [Hpos | Hnonpos].
  - right.
    assert (0 < IZR (Z.min 9 (ceil (h / 6)))) by (apply IZR_lt; exact Hpos).
    assert (~ (ceil (h / 6) <= 0)%Z) as Hc by lia.
    rewrite ceil_le_iff in Hc.
    apply Rlt_le, Rdiv_lt_0_compat; lra.
  - left. unfold Route.generateTimeline. cbn zeta. fold h.
    rewrite Z2Nat.nonpos by exact Hnonpos. reflexivity.
Qed.

(** X27. The comment counts of the timeline are cumulative: each point counts
    the comments published up to the end of its window, those published
    before the video included, so the counts never decrease along the
    timeline. *)
Theorem generateTimeline_counts_cumulative
    (comments : list Route.AnalyzedComment) (videoPublishedAt : string)
    (now : Z) :
  StronglySorted le
    (List.map Route.commentCount
       (generateTimeline comments videoPublishedAt now)).
Proof.
  destruct (generateTimeline_at_most_nine_aux comments videoPublishedAt now)
    as [Hempty | Hsize].
  - rewrite Hempty. constructor.
  - unfold Route.generateTimeline. cbn zeta. rewrite map_map.
    cbn [Route.commentCount].
    apply (sorted_map_seq
             (fun i =>
                List.length
                  (List.filter
                     (fun c =>
                        if Rle_dec
                             (Route.hoursSinceVideo getTime
                                (getTime videoPublishedAt) c)
                             (Route.hoursBetween now
                                (getTime videoPublishedAt)
                              / IZR (Z.min 9
                                       (ceil
                                          (Route.hoursBetween now
                                             (getTime videoPublishedAt)
                                           / 6)))
                              * (INR i + 1))
                        then true else false) comments))).
    intros i j Hij. apply length_filter_le. intros c.
    destruct (Rle_dec _ _) as [Hle |]; [| discriminate]. intros _.
    destruct (Rle_dec _ _) as [| Hn]; [reflexivity | exfalso].
    apply Hn. eapply Rle_trans; [exact Hle |].
    apply Rmult_le_compat_l; [lra |].
    apply le_INR in Hij. lra.
Qed.

Lemma div_bounds (s n : R) : 0 < n -> - n <= s <= n -> -1 <= s / n <= 1.
Proof.
  intros Hn [Hlo Hhi].
  assert (Hinv : 0 < / n) by (apply Rinv_0_lt_compat; exact Hn).
  assert (Hone : n * / n = 1) by (apply Rinv_r; lra).
  unfold Rdiv. split; nra.
Qed.

Lemma sum_bounds (l : list Route.AnalyzedComment) (a : R) :
  Forall (fun c => -1 <= Route.sentiment c <= 1) l ->
  a - INR (List.length l)
  <= fold_left (fun sum c => sum + Route.sentiment c) l a
  <= a + INR (List.length l).
Proof.
  intros H. revert a. induction H as [| c l Hc _ IH]; intros a.
  - cbn. lra.
  - cbn [fold_left]. rewrite length_cons, S_INR.
    specialize (IH (a + Route.sentiment c)). lra.
Qed.

(** X28. When every sentiment lies between -1 and 1, so does the average
    sentiment of every point of the timeline; a window without comments
    has the average 0. *)
Theorem generateTimeline_average_bounded
    (comments : list Route.AnalyzedComment) (videoPublishedAt : string)
    (now : Z) :
  Forall (fun c => -1 <= Route.sentiment c <= 1) comments ->
  Forall (fun p => -1 <= Route.avgSentiment p <= 1
                   /\ (Route.commentCount p = 0%nat ->
                       Route.avgSentiment p = 0))
    (generateTimeline comments videoPublishedAt now).
Proof.
  intros Hall. unfold Route.generateTimeline. cbn zeta.
  apply List.Forall_map. apply List.Forall_forall. intros i _.
  cbn [Route.avgSentiment Route.commentCount].
  set (inWindow := List.filter _ comments).
  assert (Hin : Forall (fun c => -1 <= Route.sentiment c <= 1) inWindow).
  { apply List.Forall_forall. intros c Hc. apply filter_In in Hc as [Hc _].
    rewrite List.Forall_forall in Hall. exact (Hall c Hc). }
  destruct (Nat.ltb_spec 0 (List.length inWindow)) as [Hpos | Hzero].
  - split; [| lia].
    pose proof (sum_bounds inWindow 0 Hin) as Hsum.
    assert (0 < INR (List.length inWindow)) by (apply lt_0_INR; exact Hpos).
    apply div_bounds; lra.
  - split; [lra | reflexivity].
Qed.

End Timeline.

(** ** The engine factory *)

Section EngineFactory.
Import Runtime.

Variable toLowerCase : string -> string.
Variable Config : Type.

Local Abbreviation createAnalysisEngine process_env :=
  (@Factory.createAnalysisEngine toLowerCase process_env Config).

Lemma getEngineTypeFromEnv_cases (process_env : Factory.ProcessEnv) :
  let t := Factory.getEngineTypeFromEnv toLowerCase process_env in
  (t = "mock"
   /\ (Factory.isMockEngineEnabled process_env = true
       \/ (option_map toLowerCase (Factory.LLM_ENGINE process_env)
           <> Some "gemini"
           /\ option_map toLowerCase (Factory.LLM_ENGINE process_env)
              <> Some "openai")))
  \/ (t = "gemini"
      /\ Factory.isMockEngineEnabled process_env = false
      /\ option_map toLowerCase (Factory.LLM_ENGINE process_env)
         = Some "gemini")
  \/ (t = "openai"
      /\ Factory.isMockEngineEnabled process_env = false
      /\ option_map toLowerCase (Factory.LLM_ENGINE process_env)
         = Some "openai").
Proof.
  cbn zeta. unfold Factory.getEngineTypeFromEnv, Factory.isMockEngineEnabled.
  destruct (bool_decide (Factory.USE_MOCK_ENGINE process_env = Some "true"));
    [left; auto |].
  destruct (bool_decide_reflect
              (option_map toLowerCase (Factory.LLM_ENGINE process_env)
               = Some "gemini")) as [Hg | Hg];
    [right; left; auto |].
  destruct (bool_decide_reflect
              (option_map toLowerCase (Factory.LLM_ENGINE process_env)
               = Some "openai")) as [Ho | Ho];
    [right; right; auto |].
  left. auto.
Qed.

(** X29. Whatever the environment holds, the engine type read from it is one of
    mock, gemini and openai, so a factory call without configuration never
    ends in the error for an unknown engine type; and the type is gemini or
    openai only when [USE_MOCK_ENGINE] is not the string true. *)
Theorem environment_selects_known_engine (process_env : Factory.ProcessEnv) :
  let t := Factory.getCurrentEngineType toLowerCase process_env in
  (t = "mock"
   \/ (Factory.isMockEngineEnabled process_env = false
       /\ (t = "gemini" \/ t = "openai")))
  /\ forall unknown,
       createAnalysisEngine process_env None
       <> Throw (Error ("Unknown engine type: " ++ unknown)).
Proof.
  cbn zeta. unfold Factory.getCurrentEngineType.
  unfold Factory.createAnalysisEngine. cbn [mbind option_bind Js.orString].
  destruct (getEngineTypeFromEnv_cases process_env)
    as [[-> _] | [(-> & Hoff & _) | (-> & Hoff & _)]].
  - split; [left; reflexivity |]. intros unknown. cbn. discriminate.
  - split; [right; auto |]. intros unknown. cbn.
    unfold Factory.createGeminiEngine.
    destruct (Factory.orElse None (Factory.GEMINI_API_KEY process_env))
      as [key |]; [destruct (key =? "") |]; discriminate.
  - split; [right; auto |]. intros unknown. cbn. discriminate.
Qed.

(** X30. The mock engine is the default: a factory call without configuration
    builds the mock engine when [USE_MOCK_ENGINE] is the string true,
    whatever [LLM_ENGINE] says, and also when [LLM_ENGINE] is not set,
    whether or not the mock flag is on. *)
Theorem mock_engine_is_the_default (process_env : Factory.ProcessEnv) :
  Factory.isMockEngineEnabled process_env = true
  \/ Factory.LLM_ENGINE process_env = None ->
  createAnalysisEngine process_env None = Return (Factory.MockEngine None).
Proof.
  intros H. unfold Factory.createAnalysisEngine.
  cbn [mbind option_bind Js.orString].
  assert (Factory.getEngineTypeFromEnv toLowerCase process_env = "mock")
    as ->; [| reflexivity].
  unfold Factory.getEngineTypeFromEnv, Factory.isMockEngineEnabled in *.
  destruct H as [-> | ->]; [reflexivity |].
  destruct (bool_decide _); reflexivity.
Qed.

(** An explicit engine type beats the environment: with the type gemini
    and a non-empty key in the configuration the factory builds the Gemini
    engine with that key, also when [USE_MOCK_ENGINE] is true and whatever
    key the environment holds. *)
Theorem explicit_type_beats_environment (process_env : Factory.ProcessEnv)
    (config : Factory.EngineFactoryConfig Config) (key : string) :
  Factory.type config = Some "gemini" ->
  Factory.apiKey config = Some key ->
  key <> "" ->
  createAnalysisEngine process_env (Some config)
  = Return (Factory.GeminiEngine key (Factory.engineConfig config)).
Proof.
  intros Htype Hkey Hne. unfold Factory.createAnalysisEngine.
  cbn [mbind option_bind option_ret mret]. rewrite Htype, Hkey.
  cbn [Js.orString]. cbn.
  unfold Factory.createGeminiEngine, Factory.orElse. cbn [Js.truthy].
  apply String.eqb_neq in Hne. rewrite Hne. cbn [negb]. rewrite Hne.
  reflexivity.
Qed.

End EngineFactory.

(** ** The Gemini engine, the route and the factory at concrete inputs *)

Section FurtherExamples.
Import Types Runtime.

Lemma gemini_backend_error_is_thrown_example :
  fst (GeminiEngine.analyzeBatch Examples.batchPrompt Examples.geminiDecode
         Examples.twoComments Examples.geminiQuotaEnv Examples.freshWorld)
  = Throw {| ae_message :=
               "Failed to analyze batch: 429 Rate limit reached for model";
             ae_code := "GEMINI_BATCH_ERROR";
             ae_details := Examples.rateLimited |}.
Proof.
  apply (gemini_backend_error_is_thrown Examples.batchPrompt
           Examples.geminiDecode Examples.twoComments
           Examples.geminiQuotaEnv Examples.freshWorld Examples.rateLimited).
  - discriminate.
  - reflexivity.
Defined.

Lemma analyzeAll_covers_every_comment_example :
  exists out w',
    Route.analyzeAll
      (GeminiEngine.analyzeBatch Examples.batchPrompt Examples.geminiDecode)
      1 None 3 (comments Examples.twoComments) Examples.geminiEnv
      Examples.freshWorld
    = (Return (Some out), w')
    /\ List.map Route.ac_comment out = comments Examples.twoComments.
Proof.
  pose proof (analyzeAll_covers_every_comment
                (GeminiEngine.analyzeBatch Examples.batchPrompt
                   Examples.geminiDecode)
                1 None 3 (comments Examples.twoComments)) as H.
  eexists _, _. split.
  - unfold Route.analyzeAll. run_batch. reflexivity.
  - eapply (H _ Examples.geminiEnv Examples.freshWorld).
    unfold Route.analyzeAll. run_batch. reflexivity.
Defined.

Lemma analyzeAll_terminates_example :
  fst (Route.analyzeAll
         (GeminiEngine.analyzeBatch Examples.batchPrompt
            Examples.geminiDecode)
         1 None 3 (comments Examples.twoComments) Examples.geminiEnv
         Examples.freshWorld)
  <> Return None.
Proof.
  apply (analyzeAll_terminates
           (GeminiEngine.analyzeBatch Examples.batchPrompt
              Examples.geminiDecode)
           1 None 3 (comments Examples.twoComments) Examples.geminiEnv
           Examples.freshWorld).
  - lia.
  - cbn. lia.
Defined.

Lemma analyzeAll_batchSize_zero_diverges_example :
  fst (Route.analyzeAll
         (GeminiEngine.analyzeBatch Examples.batchPrompt
            Examples.geminiDecode)
         0 None 5 (comments Examples.twoComments) Examples.geminiEnv
         Examples.freshWorld)
  = Return None.
Proof.
  apply (analyzeAll_batchSize_zero_diverges
           (GeminiEngine.analyzeBatch Examples.batchPrompt
              Examples.geminiDecode)
           None (comments Examples.twoComments)).
  - discriminate.
  - intros env w. eexists _, _. reflexivity.
Defined.

Lemma route_answers_500_on_backend_error_example :
  exists thrown,
    fst (Route.analyzeAll
           (GeminiEngine.analyzeBatch Examples.batchPrompt
              Examples.geminiDecode)
           20 None 1 (comments Examples.twoComments)
           Examples.geminiQuotaEnv Examples.freshWorld)
    = Throw thrown
    /\ Route.errorResponse thrown
       = {| Route.er_error :=
              "Failed to analyze batch: 429 Rate limit reached for model";
            Route.er_status := 500 |}.
Proof.
  apply (route_answers_500_on_backend_error Examples.batchPrompt
           Examples.geminiDecode 20 None 0 (comments Examples.twoComments)
           Examples.geminiQuotaEnv Examples.freshWorld Examples.rateLimited).
  - discriminate.
  - lia.
  - reflexivity.
Defined.

Lemma route_answers_500_on_short_reply_example :
  exists thrown,
    fst (Route.analyzeAll
           (GeminiEngine.analyzeBatch Examples.batchPrompt
              Examples.geminiDecode)
           20 None 1 (comments Examples.twoComments) Examples.geminiEnv
           Examples.freshWorld)
    = Throw thrown
    /\ Route.errorResponse thrown
       = {| Route.er_error := "An unexpected error occurred";
            Route.er_status := 500 |}.
Proof.
  apply (route_answers_500_on_short_reply Examples.batchPrompt
           Examples.geminiDecode 20 None 0 (comments Examples.twoComments)
           Examples.geminiEnv Examples.freshWorld Examples.geminiReplyText
           [Examples.geminiItem]).
  - discriminate.
  - lia.
  - reflexivity.
  - reflexivity.
  - cbn. lia.
Defined.

Lemma generateTimeline_average_bounded_example :
  Forall (fun p => (-1 <= Route.avgSentiment p <= 1)%R
                   /\ (Route.commentCount p = 0%nat ->
                       Route.avgSentiment p = 0%R))
    (Route.generateTimeline Examples.getTime Examples.analyzedComments
       "2024-01-10T09:00:00Z" 180000000).
Proof.
  apply (generateTimeline_average_bounded Examples.getTime
           Examples.analyzedComments "2024-01-10T09:00:00Z" 180000000).
  constructor; [cbn; lra |]. constructor; [cbn; lra |]. constructor.
Defined.

Lemma mock_engine_is_the_default_example :
  Factory.createAnalysisEngine (Config := AnalysisEngineConfig)
    (fun s => s) Examples.mockEnv None
  = Return (Factory.MockEngine None).
Proof.
  apply (mock_engine_is_the_default (fun s => s) AnalysisEngineConfig
           Examples.mockEnv).
  left. reflexivity.
Defined.

Lemma explicit_type_beats_environment_example :
  Factory.createAnalysisEngine (fun s => s) Examples.mockEnv
    (Some Examples.geminiConfig)
  = Return (Factory.GeminiEngine "key-1" None).
Proof.
  apply (explicit_type_beats_environment (fun s => s) AnalysisEngineConfig
           Examples.mockEnv Examples.geminiConfig "key-1").
  - reflexivity.
  - reflexivity.
  - discriminate.
Defined.

End FurtherExamples.
